(** * Car-price-predict: data cleaning and train/test preparation

    A shallow embedding of [src/data/data_cleaning.py] and
    [src/data/data_preparation.py].

    The two scripts are thin layers over pandas, PyYAML and scikit-learn.
    The script code is embedded statement by statement; the library calls it
    makes are modelled in [Module Pandas], [Module Yaml] and [Module Sklearn]
    by their pandas 2.x / scikit-learn 1.x behaviour (object dtype for text
    columns, which is what [divide_columns] tests for):

    - a cell is a Python object: [str], [float] (NaN is the missing marker),
      [int] or [bool]; a finite float is represented by a rational: the
      float parser keeps the rational the text denotes, and the one float
      product taken, [test_size * n_samples], is rounded to binary64 as
      Python rounds it (overflow is not modelled);
    - a column carries its dtype next to its cells;
    - Python exceptions and [sys.exit] are outcomes of a small state monad in
      which the state (the frame mutated in place, the log) survives a raise,
      and [except Exception] catches exceptions but not [SystemExit]. *)

From Stdlib Require Import String Ascii List ZArith QArith Qround Bool Lia Lqa Permutation.
From Stdlib Require Qcanon.
Import ListNotations.
Open Scope string_scope.
Open Scope Z_scope.

(** ** Python values *)

Module Py.

(** A Python [float]. *)
Inductive float : Type :=
| FFinite (q : Q)
| FInf (negative : bool)
| FNaN.

(** A cell of a frame. *)
Inductive value : Type :=
| VStr (s : string)
| VFloat (x : float)
| VInt (z : Z)
| VBool (b : bool).

(** [np.nan] *)
Definition nan : value := VFloat FNaN.

Definition is_nan (v : value) : bool :=
  match v with VFloat FNaN => true | _ => false end.

Definition is_str (v : value) : bool :=
  match v with VStr _ => true | _ => false end.

(** The exceptions the two scripts can meet.  All of them derive from
    [Exception]; [SystemExit] does not and is an outcome of its own. *)
Inductive exn : Type :=
| KeyError (key : string)
| AttributeError (what : string)
| ValueError (what : string)
| TypeError (what : string)
| FileNotFoundError (path : string)
| OSError (what : string)
| YAMLError.

(** *** [float(s)] on a string

    [ws] [sign] ( digits [. [digits]] | . digits ) [ (e|E) [sign] digits ] [ws]
    or a signed [inf], [infinity], [nan] in any letter case; a run of digits
    may hold single underscores between digits. *)

Definition is_space (c : ascii) : bool :=
  let n := nat_of_ascii c in
  (Nat.eqb n 32 || (Nat.leb 9 n && Nat.leb n 13))%bool.

Definition digit_of (c : ascii) : option Z :=
  let n := nat_of_ascii c in
  if (Nat.leb 48 n && Nat.leb n 57)%bool then Some (Z.of_nat n - 48) else None.

Definition lower (c : ascii) : ascii :=
  let n := nat_of_ascii c in
  if (Nat.leb 65 n && Nat.leb n 90)%bool then ascii_of_nat (n + 32) else c.

Fixpoint lstrip (l : list ascii) : list ascii :=
  match l with
  | c :: l' => if is_space c then lstrip l' else l
  | [] => []
  end.

Definition strip (l : list ascii) : list ascii :=
  rev (lstrip (rev (lstrip l))).

(** Reads the rest of a run of digits: [acc] is the value so far, [n] the
    number of digits read, [us] tells that the last character was an
    underscore.  [None] when an underscore is not followed by a digit. *)
Fixpoint digits_loop (acc : Z) (n : nat) (us : bool) (l : list ascii)
  : option (Z * nat * list ascii) :=
  match l with
  | c :: l' =>
      match digit_of c with
      | Some d => digits_loop (acc * 10 + d) (S n) false l'
      | None =>
          if us then None
          else if Ascii.eqb c "_" then
                 match n with O => Some (acc, n, l) | S _ => digits_loop acc n true l' end
               else Some (acc, n, l)
      end
  | [] => if us then None else Some (acc, n, [])
  end.

Definition read_sign (l : list ascii) : bool * list ascii :=
  match l with
  | "-"%char :: l' => (true, l')
  | "+"%char :: l' => (false, l')
  | _ => (false, l)
  end.

(** mantissa [m] with [k] fractional digits, rest of the input *)
Definition read_mantissa (l : list ascii) : option (Z * nat * list ascii) :=
  match digits_loop 0 0 false l with
  | None => None
  | Some (ip, O, rest) =>
      match rest with
      | "."%char :: rest' =>
          match digits_loop 0 0 false rest' with
          | Some (fp, S k, rest'') => Some (fp, S k, rest'')
          | _ => None
          end
      | _ => None
      end
  | Some (ip, S _, rest) =>
      match rest with
      | "."%char :: rest' =>
          match digits_loop ip 0 false rest' with
          | Some (m, k, rest'') => Some (m, k, rest'')
          | None => None
          end
      | _ => Some (ip, O, rest)
      end
  end.

Definition read_exponent (l : list ascii) : option Z :=
  match l with
  | [] => Some 0
  | c :: l' =>
      if Ascii.eqb (lower c) "e" then
        let (neg, l'') := read_sign l' in
        match digits_loop 0 0 false l'' with
        | Some (e, S _, []) => Some (if neg then - e else e)
        | _ => None
        end
      else None
  end.

Definition pow10 (e : Z) : Q :=
  if e <? 0 then 1 # Pos.pow 10 (Z.to_pos (- e)) else inject_Z (10 ^ e).

Definition float_of_chars (l : list ascii) : option float :=
  let (neg, body) := read_sign (strip l) in
  let word := string_of_list_ascii (map lower body) in
  if (String.eqb word "inf" || String.eqb word "infinity")%bool then Some (FInf neg)
  else if String.eqb word "nan" then Some FNaN
  else
    match read_mantissa body with
    | None => None
    | Some (m, k, rest) =>
        match read_exponent rest with
        | None => None
        | Some e =>
            let q := Qred (inject_Z (if neg then - m else m) * pow10 (e - Z.of_nat k)) in
            Some (FFinite q)
        end
    end.

Definition float_of_string (s : string) : option float :=
  float_of_chars (list_ascii_of_string s).

(** [float(v)] on a cell *)
Definition to_float (v : value) : option float :=
  match v with
  | VStr s => float_of_string s
  | VFloat x => Some x
  | VInt z => Some (FFinite (inject_Z z))
  | VBool b => Some (FFinite (inject_Z (if b then 1 else 0)))
  end.

(** *** [re.sub(pat, repl, s)] for a pattern of one character

    The cleaning code calls [Series.str.replace(pat, repl, regex=True)] with
    the one-character patterns [,] and [$].  With [regex=True] the pattern is
    a regular expression: an ordinary character matches itself, [$] is the
    end-of-string anchor (it also matches before a final newline), [^] the
    start anchor, [.] any character but a newline, [|] an alternation of two
    empty patterns.  The other metacharacters do not compile on their own
    ([re.error]). *)

Definition newline : ascii := ascii_of_nat 10.

Inductive regex1 : Type :=
| RLit (c : ascii)     (* the character itself *)
| REnd                 (* $ *)
| RStart               (* ^ *)
| RAny                 (* . *)
| REmpty               (* | *)
| RBad.                (* does not compile *)

Definition compile1 (c : ascii) : regex1 :=
  if Ascii.eqb c "$" then REnd
  else if Ascii.eqb c "^" then RStart
  else if Ascii.eqb c "." then RAny
  else if Ascii.eqb c "|" then REmpty
  else if existsb (Ascii.eqb c) (list_ascii_of_string "*+?\()[") then RBad
  else RLit c.

Fixpoint sub_lit (c : ascii) (repl : string) (s : string) : string :=
  match s with
  | EmptyString => EmptyString
  | String d s' =>
      if Ascii.eqb d c then repl ++ sub_lit c repl s' else String d (sub_lit c repl s')
  end.

Fixpoint sub_any (repl : string) (s : string) : string :=
  match s with
  | EmptyString => EmptyString
  | String d s' =>
      if Ascii.eqb d newline then String d (sub_any repl s') else repl ++ sub_any repl s'
  end.

(** [$] matches the empty string before a final newline and at the end. *)
Fixpoint sub_end (repl : string) (s : string) : string :=
  match s with
  | EmptyString => repl
  | String d EmptyString =>
      if Ascii.eqb d newline then repl ++ String d repl else String d repl
  | String d s' => String d (sub_end repl s')
  end.

(** The empty pattern matches before every character and at the end. *)
Fixpoint sub_empty (repl : string) (s : string) : string :=
  match s with
  | EmptyString => repl
  | String d s' => repl ++ String d (sub_empty repl s')
  end.

Definition re_sub (pat : ascii) (repl : string) (s : string) : option string :=
  match compile1 pat with
  | RLit c => Some (sub_lit c repl s)
  | REnd => Some (sub_end repl s)
  | RStart => Some (repl ++ s)
  | RAny => Some (sub_any repl s)
  | REmpty => Some (sub_empty repl s)
  | RBad => None
  end.

End Py.

(** ** pandas: series and frames *)

Module Pandas.
Import Py.

Inductive dtype : Type := Object | Float64 | Int64 | Boolean.

Definition dtype_eqb (a b : dtype) : bool :=
  match a, b with
  | Object, Object | Float64, Float64 | Int64, Int64 | Boolean, Boolean => true
  | _, _ => false
  end.

(** A column: a typed array, or an array of Python objects. *)
Inductive Series : Type :=
| SObject (vs : list value)
| SFloat64 (xs : list float)
| SInt64 (zs : list Z)
| SBool (bs : list bool).

Definition s_dtype (s : Series) : dtype :=
  match s with
  | SObject _ => Object
  | SFloat64 _ => Float64
  | SInt64 _ => Int64
  | SBool _ => Boolean
  end.

(** The cells of a column as Python objects. *)
Definition s_values (s : Series) : list value :=
  match s with
  | SObject vs => vs
  | SFloat64 xs => map VFloat xs
  | SInt64 zs => map VInt zs
  | SBool bs => map VBool bs
  end.

(** A frame: the row labels and the labelled columns, in order.  Labels
    are unique in every frame [pd.read_csv] builds (it renames duplicates);
    [data[name]] and [data[name] = s] are modelled for such frames and work
    on the first column of that label. *)
Record DataFrame : Type := mkFrame {
  df_index : list Z;
  df_columns : list (string * Series)
}.

Definition columns (d : DataFrame) : list string := map fst (df_columns d).

(** [name in data.columns] *)
Definition has_column (name : string) (d : DataFrame) : bool :=
  existsb (String.eqb name) (columns d).

Definition other_than (name : string) (c : string * Series) : bool :=
  negb (String.eqb (fst c) name).

(** [data.drop(name, axis=1, inplace=True)]; raises [KeyError] when the
    label is absent. *)
Definition drop (name : string) (d : DataFrame) : exn + DataFrame :=
  if has_column name d
  then inr (mkFrame (df_index d) (filter (other_than name) (df_columns d)))
  else inl (KeyError name).

Fixpoint lookup (name : string) (cs : list (string * Series)) : option Series :=
  match cs with
  | [] => None
  | (n, s) :: cs' => if String.eqb n name then Some s else lookup name cs'
  end.

(** [data[name]] *)
Definition getitem (name : string) (d : DataFrame) : exn + Series :=
  match lookup name (df_columns d) with
  | Some s => inr s
  | None => inl (KeyError name)
  end.

Fixpoint assign (name : string) (s : Series) (cs : list (string * Series))
  : list (string * Series) :=
  match cs with
  | [] => [(name, s)]
  | (n, x) :: cs' =>
      if String.eqb n name then (n, s) :: cs' else (n, x) :: assign name s cs'
  end.

(** [data[name] = s]: the column is replaced where it stands, or appended
    when the label is new. *)
Definition setitem (name : string) (s : Series) (d : DataFrame) : DataFrame :=
  mkFrame (df_index d) (assign name s (df_columns d)).

Definition is_bool (v : value) : bool := match v with VBool _ => true | _ => false end.
Definition is_int (v : value) : bool := match v with VInt _ => true | _ => false end.
Definition is_float (v : value) : bool := match v with VFloat _ => true | _ => false end.

Definition bool_of (v : value) : bool := match v with VBool b => b | _ => false end.
Definition int_of (v : value) : Z := match v with VInt z => z | _ => 0 end.
Definition number_of (v : value) : float :=
  match v with
  | VFloat x => x
  | VInt z => FFinite (inject_Z z)
  | _ => FNaN
  end.

(** What an object array converts to after a replacement
    ([Block.convert]): with a string in it, it stays as it is; all booleans
    become a [bool] array; numbers become [int64] when all are integers and
    [float64] otherwise; booleans mixed with numbers stay objects. *)
Definition convert (vs : list value) : Series :=
  if existsb is_str vs then SObject vs
  else if existsb is_bool vs then
         (if forallb is_bool vs then SBool (map bool_of vs) else SObject vs)
  else if forallb is_int vs then SInt64 (map int_of vs)
  else SFloat64 (map number_of vs).

Definition value_is (old : string) (v : value) : bool :=
  match v with VStr s => String.eqb s old | _ => false end.

Definition subst (old : string) (new : value) (v : value) : value :=
  if value_is old v then new else v.

(** [s.replace(old, new)] with a string [old]: a column that is not of
    object dtype cannot hold [old] and is returned as it is; so is an object
    column without a match; otherwise the matching cells are overwritten and
    the column is converted. *)
Definition replace (old : string) (new : value) (s : Series) : Series :=
  match s with
  | SObject vs =>
      if existsb (value_is old) vs then convert (map (subst old new) vs) else s
  | _ => s
  end.

(** [lib.infer_dtype(values, skipna=True)] as far as the [.str] accessor
    looks at it. *)
Inductive inferred : Type :=
| IString | IEmpty | IMixed | IMixedInteger
| IFloating | IInteger | IBoolean | IMixedIntegerFloat.

Definition infer_objects (vs : list value) : inferred :=
  let present := filter (fun v => negb (is_nan v)) vs in
  match present with
  | [] => IEmpty
  | _ =>
      if forallb is_str present then IString
      else if forallb is_float present then IFloating
      else if forallb is_int present then IInteger
      else if forallb is_bool present then IBoolean
      else if forallb (fun v => (is_int v || is_float v)%bool) present
           then IMixedIntegerFloat
      else if existsb is_int present then IMixedInteger
      else IMixed
  end.

Definition infer_dtype (s : Series) : inferred :=
  match s with
  | SFloat64 _ => IFloating
  | SInt64 _ => IInteger
  | SBool _ => IBoolean
  | SObject vs => infer_objects vs
  end.

(** [s.str]: the accessor exists for string-like data only. *)
Definition str_accessor (s : Series) : exn + unit :=
  match infer_dtype s with
  | IString | IEmpty | IMixed | IMixedInteger => inr tt
  | _ => inl (AttributeError "Can only use .str accessor with string values!")
  end.

Definition str_map (f : string -> string) (v : value) : value :=
  match v with
  | VStr x => VStr (f x)
  | _ => nan
  end.

(** [s.str.replace(pat, repl, regex=True)]: strings are rewritten, every
    other cell becomes NaN, the result is an object column. *)
Definition str_replace (pat : ascii) (repl : string) (s : Series) : exn + Series :=
  match str_accessor s with
  | inl e => inl e
  | inr _ =>
      match compile1 pat with
      | RBad => inl (ValueError "re.error")
      | _ =>
          inr (SObject
                 (map (str_map (fun x => match re_sub pat repl x with
                                         | Some y => y
                                         | None => x
                                         end)) (s_values s)))
      end
  end.

Fixpoint floats_of (vs : list value) : exn + list float :=
  match vs with
  | [] => inr []
  | v :: vs' =>
      match to_float v with
      | None => inl (ValueError "could not convert string to float")
      | Some x =>
          match floats_of vs' with
          | inl e => inl e
          | inr r => inr (x :: r)
          end
      end
  end.

(** [s.astype(float)] *)
Definition astype_float (s : Series) : exn + Series :=
  match s with
  | SFloat64 xs => inr (SFloat64 xs)
  | _ =>
      match floats_of (s_values s) with
      | inl e => inl e
      | inr xs => inr (SFloat64 xs)
      end
  end.

(** [data.iloc[idx]]: the rows at the given positions, in that order. *)
Definition take {A : Type} (dflt : A) (idx : list nat) (l : list A) : list A :=
  map (fun i => nth i l dflt) idx.

Definition s_take (idx : list nat) (s : Series) : Series :=
  match s with
  | SObject vs => SObject (take nan idx vs)
  | SFloat64 xs => SFloat64 (take FNaN idx xs)
  | SInt64 zs => SInt64 (take 0 idx zs)
  | SBool bs => SBool (take false idx bs)
  end.

Definition iloc (idx : list nat) (d : DataFrame) : DataFrame :=
  mkFrame (take 0 idx (df_index d))
    (map (fun c => (fst c, s_take idx (snd c))) (df_columns d)).

(** [len(data)] *)
Definition len (d : DataFrame) : nat := length (df_index d).

(** Every column has one cell per row label. *)
Definition well_formed (d : DataFrame) : Prop :=
  Forall (fun c => length (s_values (snd c)) = len d) (df_columns d).



(** The cells of a column, by label. *)
Definition cells (name : string) (d : DataFrame) : option (list value) :=
  option_map s_values (lookup name (df_columns d)).

End Pandas.

(** ** Effects: the world, exceptions, [sys.exit] *)

Module Eff.
Import Py Pandas.

Inductive level : Type := INFO | ERROR | CRITICAL.

(** A log record: the level, the fixed text of the message and the
    exception it reports, if any. *)
Record record : Type := mkRecord {
  r_level : level;
  r_text : string;
  r_cause : option exn
}.

(** A file holding a table, as [pd.read_csv] meets it. *)
Inductive table_file : Type :=
| NoFile
| BadTable (e : exn)             (* reading or parsing raises *)
| Table (d : DataFrame).

(** What the scripts can see and change. *)
Record world : Type := mkWorld {
  w_data : option DataFrame;     (* the object bound to [data]; [None] is Python's None *)
  w_log : list record;           (* oldest first *)
  w_writable : bool;             (* can the output directory be written *)
  w_saved : list (string * DataFrame);   (* files written, oldest first *)
  w_rng : Z                      (* state of numpy's global generator *)
}.

Inductive outcome (A : Type) : Type :=
| Ret (a : A)
| Raise (e : exn)
| SysExit (code : Z).
Arguments Ret {A} a.
Arguments Raise {A} e.
Arguments SysExit {A} code.

Definition M (A : Type) : Type := world -> outcome A * world.

Definition ret {A} (a : A) : M A := fun w => (Ret a, w).

Definition bind {A B} (m : M A) (k : A -> M B) : M B :=
  fun w =>
    match m w with
    | (Ret a, w') => k a w'
    | (Raise e, w') => (Raise e, w')
    | (SysExit c, w') => (SysExit c, w')
    end.

Definition raise {A} (e : exn) : M A := fun w => (Raise e, w).

(** [sys.exit(code)] raises [SystemExit]. *)
Definition sys_exit {A} (code : Z) : M A := fun w => (SysExit code, w).

(** [try: body except Exception as e: handler(e)]: [SystemExit] is not an
    [Exception] and passes through. *)
Definition try_except {A} (body : M A) (handler : exn -> M A) : M A :=
  fun w =>
    match body w with
    | (Raise e, w') => handler e w'
    | r => r
    end.

Definition lift {A} (r : exn + A) : M A :=
  match r with inl e => raise e | inr a => ret a end.

Declare Scope py_scope.
Delimit Scope py_scope with py.
Notation "x <- m ;; k" := (bind m (fun x => k))
  (at level 61, m at next level, right associativity) : py_scope.
Notation "m ;; k" := (bind m (fun _ => k))
  (at level 61, right associativity) : py_scope.
Notation "' ( x , y ) <- m ;; k" := (bind m (fun p => let '(x, y) := p in k))
  (at level 61, x name, y name, m at next level, right associativity) : py_scope.
Open Scope py_scope.

Fixpoint for_each {A} (l : list A) (body : A -> M unit) : M unit :=
  match l with
  | [] => ret tt
  | x :: l' => body x ;; for_each l' body
  end.

Definition with_data (w : world) (o : option DataFrame) : world :=
  mkWorld o (w_log w) (w_writable w) (w_saved w) (w_rng w).

Definition with_record (w : world) (r : record) : world :=
  mkWorld (w_data w) (w_log w ++ [r]) (w_writable w) (w_saved w) (w_rng w).

Definition log (lv : level) (text : string) (cause : option exn) : M unit :=
  fun w => (Ret tt, with_record w (mkRecord lv text cause)).

Definition log_info (text : string) : M unit := log INFO text None.
Definition log_error (text : string) (cause : option exn) : M unit := log ERROR text cause.
Definition log_critical (text : string) (e : exn) : M unit := log CRITICAL text (Some e).

Definition set_data (o : option DataFrame) : M unit :=
  fun w => (Ret tt, with_data w o).

(** The frame behind [data]; an attribute access on None raises. *)
Definition the_frame : M DataFrame :=
  fun w =>
    match w_data w with
    | Some d => (Ret d, w)
    | None => (Raise (AttributeError "'NoneType' object"), w)
    end.

(** In-place update of the frame behind [data]. *)
Definition update (f : DataFrame -> exn + DataFrame) : M unit :=
  d <- the_frame ;; d' <- lift (f d) ;; set_data (Some d').

(** [data[name]] and [data[name] = s] on the frame behind [data]. *)
Definition get (name : string) : M Series :=
  d <- the_frame ;; lift (getitem name d).

Definition set (name : string) (s : Series) : M unit :=
  update (fun d => inr (setitem name s d)).

(** [pd.read_csv(path)] *)
Definition pd_read_csv (f : table_file) : exn + DataFrame :=
  match f with
  | NoFile => inl (FileNotFoundError "No such file or directory")
  | BadTable e => inl e
  | Table d => inr d
  end.

(** [path.exists()] *)
Definition exists_ (f : table_file) : bool :=
  match f with NoFile => false | _ => true end.

(** [path.mkdir(exist_ok=True, parents=True)] *)
Definition mkdir : M unit :=
  fun w => if w_writable w then (Ret tt, w) else (Raise (OSError "Permission denied"), w).

(** [d.to_csv(file_path, index=False)]: the row labels are not written, a
    reader of the file numbers the rows from 0. *)
Definition reset_index (d : DataFrame) : DataFrame :=
  mkFrame (map Z.of_nat (seq 0 (len d))) (df_columns d).

Definition to_csv (name : string) (d : DataFrame) : M unit :=
  fun w =>
    if w_writable w
    then (Ret tt, mkWorld (w_data w) (w_log w) (w_writable w)
                    (w_saved w ++ [(name, reset_index d)]) (w_rng w))
    else (Raise (OSError "Permission denied"), w).

(** The exit status of a script run: an uncaught exception prints a
    traceback and exits with 1. *)
Definition exit_status {A} (o : outcome A) : Z :=
  match o with
  | Ret _ => 0
  | Raise _ => 1
  | SysExit c => c
  end.

Definition start (o : option DataFrame) : world := mkWorld o [] true [] 0.

End Eff.

(** ** [data_cleaning.py] *)

Module Cleaning.
Import Py Pandas Eff.

(** [read_csv(path)] *)
Definition read_csv (path : table_file) : M (option DataFrame) :=
  try_except
    (log_info "Attempting to read file" ;;
     data <- lift (pd_read_csv path) ;;
     log_info "File successfully loaded" ;;
     ret (Some data))
    (fun e =>
       match e with
       | FileNotFoundError _ => log_error "File not found" None ;; ret None
       | _ => log_error "Error reading file" (Some e) ;; ret None
       end).

(** One turn of the loop over [column_clean]. *)
Definition clean_column (col : string) : M unit :=
  s <- get col ;; set col (replace "na" nan s) ;;
  s <- get col ;; s' <- lift (str_replace "," "" s) ;; set col s' ;;
  s <- get col ;; s' <- lift (str_replace "$" "" s) ;; set col s' ;;
  s <- get col ;; s' <- lift (astype_float s) ;; set col s'.

(** The body of the [try] of [data_cleaning_numerical]. *)
Definition numerical_body : M unit :=
  log_info "Starting numerical data cleaning process." ;;
  let column_clean := ["price"; "mileage"] in
  d <- the_frame ;;
  (if has_column "Unnamed: 0" d
   then update (drop "Unnamed: 0") ;; log_info "Dropped 'Unnamed: 0' column."
   else ret tt) ;;
  s <- get "date" ;;
  s' <- lift (astype_float (replace "na" nan s)) ;;
  set "date" s' ;;
  for_each column_clean clean_column ;;
  log_info "Numerical data cleaning completed successfully.".

(** [data_cleaning_numerical(data)]: the frame is changed in place and the
    function returns the object it was given. *)
Definition data_cleaning_numerical : M unit :=
  try_except numerical_body
    (fun e => log_error "Error during numerical data cleaning" (Some e)).

(** One turn of the loop over [categorical_features]. *)
Definition clean_categorical_column (column : string) : M unit :=
  if String.eqb column "transmission"
  then s <- get column ;; set column (replace "0" (VStr "Other") s)
  else s <- get column ;; set column (replace "na" nan s).

(** The body of the [try] of [data_clean_categorical]. *)
Definition categorical_body (categorical_features : list string) : M unit :=
  log_info "Starting categorical data cleaning process." ;;
  for_each categorical_features clean_categorical_column ;;
  log_info "Categorical data cleaning completed successfully.".

(** [data_clean_categorical(data, categorical_features)] *)
Definition data_clean_categorical (categorical_features : list string) : M unit :=
  try_except (categorical_body categorical_features)
    (fun e => log_error "Error during categorical data cleaning" (Some e)).

(** [[f for f in fs if keep(f)]] where [keep] may raise *)
Fixpoint comprehension (fs : list string) (keep : string -> M bool) : M (list string) :=
  match fs with
  | [] => ret []
  | f :: fs' =>
      b <- keep f ;;
      r <- comprehension fs' keep ;;
      ret (if b then f :: r else r)
  end.

(** The body of the [try] of [divide_columns]. *)
Definition divide_body : M (list string * list string) :=
  d <- the_frame ;;
  numerical_features <-
    comprehension (columns d)
      (fun feature => s <- get feature ;; ret (negb (dtype_eqb (s_dtype s) Object))) ;;
  d <- the_frame ;;
  categorical_features <-
    comprehension (columns d)
      (fun feature => ret (negb (existsb (String.eqb feature) numerical_features))) ;;
  log_info "Identified numerical and categorical features." ;;
  ret (numerical_features, categorical_features).

(** [divide_columns(data)] *)
Definition divide_columns : M (list string * list string) :=
  try_except divide_body
    (fun e => log_error "Error in dividing columns" (Some e) ;; ret ([], [])).

(** [save_file(path, data)] *)
Definition save_file : M unit :=
  try_except
    (mkdir ;;
     d <- the_frame ;;
     to_csv "cleaned_data.csv" d ;;
     log_info "Cleaned data successfully saved")
    (fun e => log_error "Error saving file" (Some e)).

(** The three cleaning calls of the script, lines 120 to 122. *)
Definition clean : M unit :=
  data_cleaning_numerical ;;
  '(numerical_features, categorical_features) <- divide_columns ;;
  data_clean_categorical categorical_features.

(** The [__main__] block. *)
Definition main (raw_file : table_file) : M unit :=
  try_except
    (log_info "Script started." ;;
     data <- read_csv raw_file ;;
     set_data data ;;
     match data with
     | Some _ =>
         log_info "Initial Data Shape" ;; log_info "Data Columns" ;; log_info "Data Info"
     | None => ret tt
     end ;;
     clean ;;
     save_file ;;
     log_info "Data processing completed successfully.")
    (fun e => log_critical "Critical error occurred" e).

(** The frame a computation leaves behind [data] when started on [d]. *)
Definition result_of (m : M unit) (d : DataFrame) : option DataFrame :=
  w_data (snd (m (start (Some d)))).

Definition raised {A} (m : M A) (w : world) : option exn :=
  match fst (m w) with Raise e => Some e | _ => None end.

End Cleaning.

(** ** PyYAML: what [yaml.safe_load] returns *)

Module Yaml.
Import Py.

(** A loaded document.  A mapping is the [dict] it loads to, as the list of
    its string-keyed entries (a key occurs once). *)
#[local] Unset Elimination Schemes.
Inductive yaml : Type :=
| YNull
| YBool (b : bool)
| YInt (z : Z)
| YFloat (x : float)
| YStr (s : string)
| YSeq (l : list yaml)
| YMap (m : list (string * yaml)).
#[local] Set Elimination Schemes.

Fixpoint find_key (key : string) (m : list (string * yaml)) : option yaml :=
  match m with
  | [] => None
  | (k, v) :: m' => if String.eqb k key then Some v else find_key key m'
  end.

(** [obj.get(key, default)]: only a [dict] has [get]. *)
Definition dict_get (obj : yaml) (key : string) (default : yaml) : exn + yaml :=
  match obj with
  | YMap m => inr (match find_key key m with Some v => v | None => default end)
  | _ => inl (AttributeError "object has no attribute 'get'")
  end.

(** The configuration resource as [read_params] meets it. *)
Inductive config_file : Type :=
| NoConfig                       (* the path does not exist *)
| Unreadable (e : exn)           (* [open] raises *)
| Malformed                      (* [yaml.safe_load] raises [YAMLError] *)
| Document (y : yaml).

Definition config_exists (f : config_file) : bool :=
  match f with NoConfig => false | _ => true end.

(** [with open(file_path, "r") as f: yaml.safe_load(f)] *)
Definition open_and_load (f : config_file) : exn + yaml :=
  match f with
  | NoConfig => inl (FileNotFoundError "No such file or directory")
  | Unreadable e => inl e
  | Malformed => inl YAMLError
  | Document y => inr y
  end.

End Yaml.

(** ** scikit-learn: [train_test_split] *)

Module Sklearn.
Import Py Pandas Eff Yaml.

(** numpy's [RandomState]: the generator state after seeding, and
    [rng.permutation(n)], which returns a permutation of [0 .. n-1] and the
    next state. *)
Class RandomState : Type := {
  seeded : Z -> Z;
  permutation : Z -> nat -> list nat * Z;
  permutation_spec : forall st n, Permutation (fst (permutation st n)) (seq 0 n)
}.

Definition value_error {A} (what : string) : exn + A := inl (ValueError what).

(** Python floats are binary64.  A float written [q] (the [0.2] of the
    defaults, a number of the configuration file) is stored as the binary64
    nearest to [q], ties to the even significand: 53 bits, and exponents
    down to -1074 for the subnormal numbers.  Overflow is left out: the
    numbers met here are fractions and row counts. *)

(** The integer nearest to [n / d], ties to even, for [0 < d]. *)
Definition round_half_even (n d : Z) : Z :=
  let f := n / d in
  match 2 * (n mod d) ?= d with
  | Lt => f
  | Gt => f + 1
  | Eq => if Z.even f then f else f + 1
  end.

(** [floor (log2 (a / b))], for [0 < a] and [0 < b]. *)
Definition log2_fraction (a b : Z) : Z :=
  let d := Z.log2 a - Z.log2 b in
  if a * 2 ^ Z.max 0 (- d) <? b * 2 ^ Z.max 0 d then d - 1 else d.

(** The binary64 nearest to [a / b], for [0 < a] and [0 < b]: with [e] the
    exponent of the last bit, the significand is [a / b / 2 ^ e] rounded. *)
Definition nearest_binary64 (a b : Z) : Q :=
  let e := Z.max (log2_fraction a b - 52) (-1074) in
  let m := round_half_even (a * 2 ^ Z.max 0 (- e)) (b * 2 ^ Z.max 0 e) in
  Qmake (m * 2 ^ Z.max 0 e) (Z.to_pos (2 ^ Z.max 0 (- e))).

Definition binary64 (q : Q) : Q :=
  let q := Qred q in
  match Qnum q with
  | 0 => 0%Q
  | Zpos a => nearest_binary64 (Zpos a) (Zpos (Qden q))
  | Zneg a => Qopp (nearest_binary64 (Zpos a) (Zpos (Qden q)))
  end.

(** [math.ceil(test_size * n_samples)]: the product of a float and an
    [int] is the binary64 nearest to the product of the stored float and
    the converted [int]. *)
Definition ceil_fraction (q : Q) (n_samples : nat) : nat :=
  Z.to_nat (Qceiling (binary64 (binary64 q * binary64 (inject_Z (Z.of_nat n_samples))))).

(** [_validate_shuffle_split(n_samples, test_size, train_size=None,
    default_test_size=0.25)]: the sizes [(n_train, n_test)].  The fraction
    is compared with 0 and 1 as written, which decides as its binary64
    does unless the fraction is at most [2 ^ -1075] (stored as [0.0], and
    refused by scikit-learn) or within [2 ^ -54] of 1 (stored as [1.0]:
    refused here too, the train set being empty, for fewer than [2 ^ 53]
    rows). *)
Definition validate_shuffle_split (n_samples : nat) (test_size : yaml)
  : exn + (nat * nat) :=
  let test_size := match test_size with YNull => YFloat (FFinite (1 # 4)) | t => t end in
  let sizes (n_test : nat) : exn + (nat * nat) :=
    let n_train := (n_samples - n_test)%nat in
    if Nat.eqb n_train 0
    then value_error "the resulting train set will be empty"
    else inr (n_train, n_test) in
  match test_size with
  | YInt z =>
      if ((z >=? Z.of_nat n_samples) || (z <=? 0))%bool
      then value_error "test_size out of range"
      else sizes (Z.to_nat z)
  | YFloat (FFinite q) =>
      if (Qle_bool q 0 || Qle_bool 1 q)%bool
      then value_error "test_size out of range"
      else sizes (ceil_fraction q n_samples)
  | _ => value_error "Invalid value for test_size"
  end.

(** [check_random_state(seed)] followed by [rng.permutation(n)]: None is
    numpy's global generator, an integer seeds a generator of its own. *)
Definition shuffled `{RandomState} (random_state : yaml) (n : nat) : M (list nat) :=
  match random_state with
  | YNull =>
      fun w =>
        let (p, st) := permutation (w_rng w) n in
        (Ret p, mkWorld (w_data w) (w_log w) (w_writable w) (w_saved w) st)
  | YInt seed =>
      if ((0 <=? seed) && (seed <? 2 ^ 32))%bool
      then ret (fst (permutation (seeded seed) n))
      else raise (ValueError "Seed must be between 0 and 2**32 - 1")
  | YBool b => ret (fst (permutation (seeded (if b then 1 else 0)) n))
  | _ => raise (ValueError "cannot be used to seed a numpy.random.RandomState instance")
  end.

(** [train_test_split(data, test_size=test_size, random_state=random_state)]:
    the first [n_test] shuffled positions are the test rows, the next
    [n_train] the train rows. *)
Definition train_test_split `{RandomState} (data : DataFrame) (test_size random_state : yaml)
  : M (DataFrame * DataFrame) :=
  let n_samples := len data in
  '(n_train, n_test) <- lift (validate_shuffle_split n_samples test_size) ;;
  p <- shuffled random_state n_samples ;;
  let ind_test := firstn n_test p in
  let ind_train := firstn n_train (skipn n_test p) in
  ret (iloc ind_train data, iloc ind_test data).

End Sklearn.

(** ** [data_preparation.py] *)

Module Preparation.
Import Py Pandas Eff Yaml Sklearn.

(** [load_data(path)] *)
Definition load_data (path : table_file) : M (option DataFrame) :=
  try_except
    (log_info "Attempting to load data" ;;
     if negb (exists_ path)
     then log_error "File not found" None ;; ret None
     else
       data <- lift (pd_read_csv path) ;;
       log_info "Data successfully loaded" ;;
       ret (Some data))
    (fun e => log_error "Error loading data" (Some e) ;; ret None).

(** [split_data(data, test_size, random_state)] *)
Definition split_data `{RandomState} (data : DataFrame) (test_size random_state : yaml)
  : M (DataFrame * DataFrame) :=
  try_except
    (log_info "Splitting data" ;;
     '(train_data, test_data) <- train_test_split data test_size random_state ;;
     log_info "Data successfully split." ;;
     ret (train_data, test_data))
    (fun e => log_error "Error splitting data" (Some e) ;; sys_exit 1).

(** The defaults of [read_params]: [0.2] and [42]. *)
Definition default_test_size : yaml := YFloat (FFinite (1 # 5)).
Definition default_random_state : yaml := YInt 42.

(** [read_params(file_path)] *)
Definition read_params (file_path : config_file) : M (yaml * yaml) :=
  try_except
    (log_info "Reading parameters" ;;
     (if negb (config_exists file_path)
      then log_error "Parameters file not found" None ;; sys_exit 1
      else ret tt) ;;
     params_file <- lift (open_and_load file_path) ;;
     parameters <- lift (dict_get params_file "Data_Preparation" (YMap [])) ;;
     test_size <- lift (dict_get parameters "test_size" default_test_size) ;;
     random_state <- lift (dict_get parameters "random_state" default_random_state) ;;
     log_info "Parameters loaded" ;;
     ret (test_size, random_state))
    (fun e =>
       match e with
       | YAMLError => log_error "Error reading YAML file" (Some e) ;; sys_exit 1
       | _ => log_error "Unexpected error reading params" (Some e) ;; sys_exit 1
       end).

(** [save_file(path, data, file_name)] *)
Definition save_file (data : DataFrame) (file_name : string) : M unit :=
  try_except
    (mkdir ;;
     to_csv (file_name ++ ".csv") data ;;
     log_info "Successfully saved data")
    (fun e => log_error "Error saving file" (Some e) ;; sys_exit 1).

(** The [__main__] block. *)
Definition main `{RandomState} (file_path : table_file) (params_path : config_file) : M unit :=
  log_info "Script execution started" ;;
  try_except
    (data <- load_data file_path ;;
     data <- match data with
             | None => log_error "No data found. Exiting script." None ;; sys_exit 1
             | Some d => ret d
             end ;;
     '(test_size, random_state) <- read_params params_path ;;
     '(train_data, test_data) <- split_data data test_size random_state ;;
     save_file train_data "train" ;;
     save_file test_data "test" ;;
     log_info "Script execution completed successfully")
    (fun e => log_critical "Unexpected error in script execution" e ;; sys_exit 1).

End Preparation.

(** * Properties *)

(** ** Frames: lookup and assignment *)

Module FrameFacts.
Import Py Pandas.

Lemma lookup_assign_same name s cs : lookup name (assign name s cs) = Some s.
Proof.
  induction cs as [|[n x] cs IH]; simpl.
  - now rewrite String.eqb_refl.
  - destruct (String.eqb n name) eqn:E; simpl; rewrite E; auto.
Qed.

Lemma lookup_assign_other name other s cs :
  other <> name -> lookup other (assign name s cs) = lookup other cs.
Proof.
  intros Hne. induction cs as [|[n x] cs IH]; simpl.
  - destruct (String.eqb name other) eqn:E; auto.
    apply String.eqb_eq in E. congruence.
  - destruct (String.eqb n name) eqn:E; simpl.
    + apply String.eqb_eq in E. subst n.
      destruct (String.eqb name other) eqn:E'; auto.
      apply String.eqb_eq in E'. congruence.
    + now rewrite IH.
Qed.

Lemma assign_known name s cs : lookup name cs = Some s -> assign name s cs = cs.
Proof.
  induction cs as [|[n x] cs IH]; simpl; [discriminate|].
  destruct (String.eqb n name); intros H.
  - now inversion H.
  - now rewrite IH.
Qed.

Lemma labels_assign name s cs :
  lookup name cs <> None -> map fst (assign name s cs) = map fst cs.
Proof.
  induction cs as [|[n x] cs IH]; simpl; [congruence|].
  destruct (String.eqb n name); simpl; intros H; auto.
  now rewrite IH.
Qed.

Lemma lookup_in_labels name cs : lookup name cs <> None <-> In name (map fst cs).
Proof.
  induction cs as [|[n x] cs IH]; simpl.
  - split; [congruence | tauto].
  - destruct (String.eqb n name) eqn:E.
    + apply String.eqb_eq in E. split; [auto | congruence].
    + apply String.eqb_neq in E. rewrite IH. split; [auto | intros [?|?]; congruence || auto].
Qed.

Lemma has_column_spec name d : has_column name d = true <-> In name (columns d).
Proof.
  unfold has_column. rewrite existsb_exists. split.
  - intros [x [Hin E]]. apply String.eqb_eq in E. now subst.
  - intros H. exists name. split; auto. apply String.eqb_refl.
Qed.

Lemma lookup_filter_other name other cs :
  other <> name -> lookup other (filter (other_than name) cs) = lookup other cs.
Proof.
  intros Hne. induction cs as [|[n x] cs IH]; simpl; auto.
  unfold other_than at 1. simpl.
  destruct (String.eqb n name) eqn:E; simpl.
  - apply String.eqb_eq in E. subst n.
    destruct (String.eqb name other) eqn:E'; auto.
    apply String.eqb_eq in E'. congruence.
  - now rewrite IH.
Qed.

Lemma labels_filter name cs :
  map fst (filter (other_than name) cs)
  = filter (fun n => negb (String.eqb n name)) (map fst cs).
Proof.
  induction cs as [|[n x] cs IH]; simpl; auto.
  unfold other_than at 1. simpl.
  destruct (String.eqb n name); simpl; now rewrite IH.
Qed.

Lemma filter_labels_id name (l : list string) :
  ~ In name l -> filter (fun n => negb (String.eqb n name)) l = l.
Proof.
  induction l as [|n l IH]; simpl; auto.
  intros H. destruct (String.eqb n name) eqn:E; simpl.
  - apply String.eqb_eq in E. tauto.
  - rewrite IH; tauto.
Qed.

End FrameFacts.

(** ** Reasoning about computations *)

Module EffFacts.
Import Py Pandas Eff.

(** [m] never ends in [sys.exit]. *)
Definition safe {A} (m : M A) : Prop :=
  forall w, match fst (m w) with SysExit _ => False | _ => True end.

(** [m] always returns normally. *)
Definition total {A} (m : M A) : Prop :=
  forall w, exists a, fst (m w) = Ret a.

(** [I] holds of the final world whenever it holds of the first one,
    however [m] ends. *)
Definition preserves {A} (I : world -> Prop) (m : M A) : Prop :=
  forall w, I w -> I (snd (m w)).

(** The frame behind [data] exists and satisfies [I]. *)
Definition holds (I : DataFrame -> Prop) (w : world) : Prop :=
  exists d, w_data w = Some d /\ I d.

Lemma total_safe {A} (m : M A) : total m -> safe m.
Proof. intros H w. destruct (H w) as [a E]. now rewrite E. Qed.

Lemma safe_ret {A} (a : A) : safe (ret a).
Proof. now intros w. Qed.

Lemma safe_raise {A} e : safe (@raise A e).
Proof. now intros w. Qed.

Lemma safe_lift {A} (r : exn + A) : safe (lift r).
Proof. destruct r; [apply safe_raise | apply safe_ret]. Qed.

Lemma safe_bind {A B} (m : M A) (k : A -> M B) :
  safe m -> (forall a, safe (k a)) -> safe (bind m k).
Proof.
  intros Hm Hk w. unfold bind. specialize (Hm w).
  destruct (m w) as [[a|e|c] w1]; simpl in *; auto. apply Hk.
Qed.

Lemma safe_try {A} (body : M A) (h : exn -> M A) :
  safe body -> (forall e, safe (h e)) -> safe (try_except body h).
Proof.
  intros Hb Hh w. unfold try_except. specialize (Hb w).
  destruct (body w) as [[a|e|c] w1]; simpl in *; auto. apply Hh.
Qed.

Lemma total_try {A} (body : M A) (h : exn -> M A) :
  safe body -> (forall e, total (h e)) -> total (try_except body h).
Proof.
  intros Hb Hh w. unfold try_except. specialize (Hb w).
  destruct (body w) as [[a|e|c] w1]; simpl in *.
  - now exists a.
  - apply Hh.
  - tauto.
Qed.

Lemma total_bind {A B} (m : M A) (k : A -> M B) :
  total m -> (forall a, total (k a)) -> total (bind m k).
Proof.
  intros Hm Hk w. unfold bind. destruct (Hm w) as [a E].
  destruct (m w) as [o w1]. simpl in E. subst o. apply Hk.
Qed.

Lemma total_ret {A} (a : A) : total (ret a).
Proof. intros w. now exists a. Qed.

Lemma total_log lv text cause : total (log lv text cause).
Proof. intros w. now exists tt. Qed.

Lemma safe_log lv text cause : safe (log lv text cause).
Proof. apply total_safe, total_log. Qed.

Lemma total_log_info text : total (log_info text).
Proof. apply total_log. Qed.

Lemma total_log_error text cause : total (log_error text cause).
Proof. apply total_log. Qed.

Lemma total_log_critical text e : total (log_critical text e).
Proof. apply total_log. Qed.

Lemma safe_log_info text : safe (log_info text).
Proof. apply safe_log. Qed.

Lemma safe_log_error text cause : safe (log_error text cause).
Proof. apply safe_log. Qed.

Lemma safe_log_critical text e : safe (log_critical text e).
Proof. apply safe_log. Qed.

Lemma safe_for_each {A} (l : list A) (body : A -> M unit) :
  (forall x, safe (body x)) -> safe (for_each l body).
Proof.
  intros Hb. induction l as [|x l IH]; simpl.
  - apply safe_ret.
  - apply safe_bind; auto.
Qed.

Lemma safe_the_frame : safe the_frame.
Proof. intros w. unfold the_frame. now destruct (w_data w). Qed.

Lemma safe_set_data o : safe (set_data o).
Proof. now intros w. Qed.

Lemma safe_update f : safe (update f).
Proof.
  unfold update. apply safe_bind; [apply safe_the_frame|]. intros d.
  apply safe_bind; [apply safe_lift|]. intros d'. apply safe_set_data.
Qed.

Lemma safe_get name : safe (get name).
Proof.
  unfold get. apply safe_bind; [apply safe_the_frame|]. intros d. apply safe_lift.
Qed.

Lemma safe_set name s : safe (set name s).
Proof. apply safe_update. Qed.

Lemma safe_mkdir : safe mkdir.
Proof. intros w. unfold mkdir. now destruct (w_writable w). Qed.

Lemma safe_to_csv name d : safe (to_csv name d).
Proof. intros w. unfold to_csv. now destruct (w_writable w). Qed.

(** What the accessors compute when there is a frame behind [data]. *)
Lemma run_get w d col :
  w_data w = Some d ->
  get col w = match lookup col (df_columns d) with
              | Some s => (Ret s, w)
              | None => (Raise (KeyError col), w)
              end.
Proof.
  intros Hd. unfold get, the_frame, getitem, bind. rewrite Hd.
  now destruct (lookup col (df_columns d)).
Qed.

Lemma run_set w d col x :
  w_data w = Some d -> set col x w = (Ret tt, with_data w (Some (setitem col x d))).
Proof. intros Hd. unfold set, update, the_frame, bind. now rewrite Hd. Qed.

Lemma run_bind {A B} {m : M A} (k : A -> M B) {w a w1} :
  m w = (Ret a, w1) -> bind m k w = k a w1.
Proof. intros E. unfold bind. now rewrite E. Qed.

Lemma run_bind_raise {A B} {m : M A} (k : A -> M B) {w e w1} :
  m w = (Raise e, w1) -> bind m k w = (Raise e, w1).
Proof. intros E. unfold bind. now rewrite E. Qed.

Create HintDb effects.
#[export] Hint Resolve safe_ret safe_raise safe_lift safe_log safe_the_frame
  safe_set_data safe_update safe_get safe_set safe_mkdir safe_to_csv
  safe_log_info safe_log_error safe_log_critical
  total_ret total_log total_log_info total_log_error total_log_critical : effects.

(** Steps through a computation built from safe parts. *)
Ltac safe_steps :=
  repeat first
    [ apply safe_bind; [| intros ? ]
    | apply safe_for_each; intros ?
    | apply safe_try; [| intros ? ]
    | progress auto with effects ].

End EffFacts.

(** ** The cleaning stages are fail-soft *)

Module FailSoft.
Import Py Pandas Eff EffFacts Cleaning.

Lemma safe_numerical_body : safe numerical_body.
Proof.
  unfold numerical_body. safe_steps.
  destruct (has_column "Unnamed: 0" _); safe_steps.
Qed.

Lemma safe_clean_categorical_column c : safe (clean_categorical_column c).
Proof. unfold clean_categorical_column. destruct (String.eqb _ _); safe_steps. Qed.

Lemma safe_categorical_body cats : safe (categorical_body cats).
Proof. unfold categorical_body. safe_steps. apply safe_clean_categorical_column. Qed.

Lemma safe_comprehension fs keep :
  (forall f, safe (keep f)) -> safe (comprehension fs keep).
Proof.
  intros Hk. induction fs as [|f fs IH]; simpl; safe_steps; auto.
Qed.

Lemma safe_divide_body : safe divide_body.
Proof.
  unfold divide_body. safe_steps; apply safe_comprehension; intros f; safe_steps.
Qed.

(** A [try] whose handler only logs returns the world of the body, with
    the error record appended when the body raised. *)
Lemma logged_try (body : M unit) text :
  safe body ->
  forall w, exists w',
    try_except body (fun e => log_error text (Some e)) w = (Ret tt, w')
    /\ match body w with
       | (Ret _, w1) => w' = w1
       | (Raise e, w1) => w' = with_record w1 (mkRecord ERROR text (Some e))
       | (SysExit _, _) => False
       end.
Proof.
  intros Hs w. specialize (Hs w). unfold try_except.
  destruct (body w) as [[[]|e|c] w1]; simpl in *.
  - now exists w1.
  - eexists. split; reflexivity.
  - destruct Hs.
Qed.

Lemma total_numerical : total data_cleaning_numerical.
Proof.
  intros w. destruct (logged_try numerical_body "Error during numerical data cleaning"
                        safe_numerical_body w) as [w' [E _]].
  exists tt. unfold data_cleaning_numerical. now rewrite E.
Qed.

Lemma total_categorical cats : total (data_clean_categorical cats).
Proof.
  intros w. destruct (logged_try (categorical_body cats)
                        "Error during categorical data cleaning"
                        (safe_categorical_body cats) w) as [w' [E _]].
  exists tt. unfold data_clean_categorical. now rewrite E.
Qed.

Lemma total_divide : total divide_columns.
Proof.
  unfold divide_columns. apply total_try; [apply safe_divide_body|].
  intros e. apply total_bind; [apply total_log|]. intros _. apply total_ret.
Qed.

Lemma total_clean : total clean.
Proof.
  unfold clean. apply total_bind; [apply total_numerical|]. intros _.
  apply total_bind; [apply total_divide|]. intros [nums cats].
  apply total_categorical.
Qed.

Lemma total_read_csv path : total (read_csv path).
Proof.
  unfold read_csv. apply total_try; [safe_steps|].
  intros e. destruct e; (apply total_bind; [apply total_log | intros _; apply total_ret]).
Qed.

Lemma total_save_file : total save_file.
Proof.
  unfold save_file. apply total_try; [safe_steps|]. intros e. apply total_log.
Qed.

Lemma total_main raw_file : total (main raw_file).
Proof.
  unfold main. apply total_try; [|intros e; apply total_log].
  apply total_safe.
  apply total_bind; [apply total_log | intros _].
  apply total_bind; [apply total_read_csv | intros data].
  apply total_bind; [intros w; now exists tt | intros _].
  apply total_bind.
  { destruct data; [|apply total_ret].
    repeat (apply total_bind; [apply total_log | intros _]). apply total_log. }
  intros _. apply total_bind; [apply total_clean | intros _].
  apply total_bind; [apply total_save_file | intros _]. apply total_log.
Qed.

(** C2: each cleaning stage catches every error, logs it and returns:
    the two normalizers return the frame as the failing step left it, the
    classifier returns two empty lists and leaves the frame alone; the
    cleaning script ends with exit status 0 whatever the raw file holds. *)
Theorem C2_cleaning_is_fail_soft :
  (forall w, exists w',
      data_cleaning_numerical w = (Ret tt, w')
      /\ match numerical_body w with
         | (Ret _, w1) => w' = w1
         | (Raise e, w1) =>
             w_data w' = w_data w1
             /\ w_log w' = (w_log w1 ++
                  [mkRecord ERROR "Error during numerical data cleaning" (Some e)])%list
         | (SysExit _, _) => False
         end)
  /\ (forall cats w, exists w',
      data_clean_categorical cats w = (Ret tt, w')
      /\ match categorical_body cats w with
         | (Ret _, w1) => w' = w1
         | (Raise e, w1) =>
             w_data w' = w_data w1
             /\ w_log w' = (w_log w1 ++
                  [mkRecord ERROR "Error during categorical data cleaning" (Some e)])%list
         | (SysExit _, _) => False
         end)
  /\ (forall w, exists r w',
      divide_columns w = (Ret r, w')
      /\ match divide_body w with
         | (Ret r1, w1) => r = r1 /\ w' = w1
         | (Raise e, w1) =>
             r = ([], [])
             /\ w_data w' = w_data w1
             /\ w_log w' = (w_log w1 ++
                  [mkRecord ERROR "Error in dividing columns" (Some e)])%list
         | (SysExit _, _) => False
         end)
  /\ (forall raw_file w, exit_status (fst (main raw_file w)) = 0).
Proof.
  split; [|split; [|split]].
  - intros w.
    destruct (logged_try numerical_body "Error during numerical data cleaning"
                safe_numerical_body w) as [w' [E H]].
    exists w'. split; [exact E|].
    destruct (numerical_body w) as [[[]|e|c] w1]; auto. now subst w'.
  - intros cats w.
    destruct (logged_try (categorical_body cats)
                "Error during categorical data cleaning"
                (safe_categorical_body cats) w) as [w' [E H]].
    exists w'. split; [exact E|].
    destruct (categorical_body cats w) as [[[]|e|c] w1]; auto. now subst w'.
  - intros w. pose proof (safe_divide_body w) as Hs.
    unfold divide_columns, try_except.
    destruct (divide_body w) as [[r1|e|c] w1]; simpl in *.
    + now exists r1, w1.
    + eexists _, _. split; [reflexivity|]. simpl. auto.
    + tauto.
  - intros raw_file w. destruct (total_main raw_file w) as [a E]. now rewrite E.
Qed.

End FailSoft.

(** ** Invariants of the frame behind [data] *)

Module Invariants.
Import Py Pandas Eff EffFacts FrameFacts Cleaning.

Lemma preserves_ret {A} I (a : A) : preserves I (ret a).
Proof. now intros w. Qed.

Lemma preserves_raise {A} I e : preserves I (@raise A e).
Proof. now intros w. Qed.

Lemma preserves_lift {A} I (r : exn + A) : preserves I (lift r).
Proof. destruct r; [apply preserves_raise | apply preserves_ret]. Qed.

Lemma preserves_bind {A B} I (m : M A) (k : A -> M B) :
  preserves I m -> (forall a, preserves I (k a)) -> preserves I (bind m k).
Proof.
  intros Hm Hk w Hw. unfold bind. specialize (Hm w Hw).
  destruct (m w) as [[a|e|c] w1]; simpl in *; auto. now apply Hk.
Qed.

Lemma preserves_try {A} I (body : M A) (h : exn -> M A) :
  preserves I body -> (forall e, preserves I (h e)) -> preserves I (try_except body h).
Proof.
  intros Hb Hh w Hw. unfold try_except. specialize (Hb w Hw).
  destruct (body w) as [[a|e|c] w1]; simpl in *; auto. now apply Hh.
Qed.

Lemma preserves_for_each {A} I (l : list A) (body : A -> M unit) :
  (forall x, preserves I (body x)) -> preserves I (for_each l body).
Proof.
  intros Hb. induction l as [|x l IH]; simpl.
  - apply preserves_ret.
  - apply preserves_bind; auto.
Qed.

Lemma preserves_log I lv text cause : preserves (holds I) (log lv text cause).
Proof. now intros w Hw. Qed.

Lemma preserves_log_info I text : preserves (holds I) (log_info text).
Proof. apply preserves_log. Qed.

Lemma preserves_log_error I text cause : preserves (holds I) (log_error text cause).
Proof. apply preserves_log. Qed.

Lemma preserves_the_frame I : preserves I the_frame.
Proof. intros w Hw. unfold the_frame. now destruct (w_data w). Qed.

Lemma preserves_get I name : preserves I (get name).
Proof.
  unfold get. apply preserves_bind; [apply preserves_the_frame|].
  intros d. apply preserves_lift.
Qed.

Lemma preserves_update (I : DataFrame -> Prop) f :
  (forall d d', I d -> f d = inr d' -> I d') -> preserves (holds I) (update f).
Proof.
  intros Hf w [d [Hd Hi]]. unfold update, bind, the_frame. rewrite Hd.
  destruct (f d) as [e|d'] eqn:E; simpl.
  - now exists d.
  - exists d'. split; auto. eapply Hf; eauto.
Qed.

(** [I] survives an assignment to a column that is there. *)
Definition stable (I : DataFrame -> Prop) (col : string) : Prop :=
  forall d x, I d -> lookup col (df_columns d) <> None -> I (setitem col x d).

Definition with_col (col : string) (I : DataFrame -> Prop) (d : DataFrame) : Prop :=
  I d /\ lookup col (df_columns d) <> None.

Lemma preserves_set_present I col x :
  stable I col -> preserves (holds (with_col col I)) (set col x).
Proof.
  intros Hs. apply preserves_update. intros d d' [Hi Hp] E. inversion E; subst d'.
  split; [now apply Hs|]. simpl. rewrite lookup_assign_same. discriminate.
Qed.

(** After [data[col]] has been read, the column is known to be there. *)
Lemma preserves_get_bind {B} I col (k : Series -> M B) :
  (forall s, preserves (holds (with_col col I)) (k s)) ->
  preserves (holds I) (bind (get col) k).
Proof.
  intros Hk w [d [Hd Hi]].
  pose proof (run_get w d col Hd) as Hg.
  destruct (lookup col (df_columns d)) as [s|] eqn:E.
  - rewrite (run_bind _ Hg).
    destruct (Hk s w) as [d' [Hd' [Hi' _]]].
    + exists d. repeat split; auto. congruence.
    + now exists d'.
  - rewrite (run_bind_raise _ Hg). now exists d.
Qed.

(** [s = data[col]; data[col] = f(s)] *)
Lemma preserves_modify (I : DataFrame -> Prop) col f :
  (forall d s, I d -> lookup col (df_columns d) = Some s -> I (setitem col (f s) d)) ->
  preserves (holds I) (bind (get col) (fun s => set col (f s))).
Proof.
  intros Hf w [d [Hd Hi]].
  pose proof (run_get w d col Hd) as Hg.
  destruct (lookup col (df_columns d)) as [s|] eqn:E.
  - rewrite (run_bind _ Hg), (run_set w d col (f s) Hd).
    exists (setitem col (f s) d). split; auto.
  - rewrite (run_bind_raise _ Hg). now exists d.
Qed.

Lemma preserves_clean_column I col : stable I col -> preserves (holds I) (clean_column col).
Proof.
  intros Hs. unfold clean_column.
  apply preserves_get_bind. intros s.
  repeat first
    [ apply preserves_set_present; assumption
    | apply preserves_get
    | apply preserves_lift
    | apply preserves_bind; [| intros ? ] ].
Qed.

(** The statements of [data_cleaning_numerical] that follow the removal of
    the index column. *)
Definition convert_columns : M unit :=
  s <- get "date" ;;
  s' <- lift (astype_float (replace "na" nan s)) ;;
  set "date" s' ;;
  for_each ["price"; "mileage"] clean_column ;;
  log_info "Numerical data cleaning completed successfully.".

Lemma numerical_body_eq :
  numerical_body =
  (log_info "Starting numerical data cleaning process." ;;
   d <- the_frame ;;
   (if has_column "Unnamed: 0" d
    then update (drop "Unnamed: 0") ;; log_info "Dropped 'Unnamed: 0' column."
    else ret tt) ;;
   convert_columns).
Proof. reflexivity. Qed.

Lemma preserves_convert_columns I :
  stable I "date" -> stable I "price" -> stable I "mileage" ->
  preserves (holds I) convert_columns.
Proof.
  intros Hd Hp Hm. unfold convert_columns.
  apply preserves_get_bind. intros s.
  apply preserves_bind; [apply preserves_lift | intros s'].
  apply preserves_bind; [now apply preserves_set_present | intros _].
  assert (Hw : forall c, stable I c -> stable (with_col "date" I) c).
  { intros c Hc d x [Hi Hl] Hpres. split; [now apply Hc|].
    simpl. destruct (string_dec "date" c) as [<-|Hne].
    - rewrite lookup_assign_same. discriminate.
    - now rewrite lookup_assign_other. }
  apply preserves_bind; [| intros _; apply preserves_log_info].
  simpl. apply preserves_bind; [apply preserves_clean_column; auto | intros _].
  apply preserves_bind; [apply preserves_clean_column; auto | intros _].
  apply preserves_ret.
Qed.

(** An invariant that survives the removal of the index column and
    assignments to the three numeric columns survives the numeric
    normalizer. *)
Lemma preserves_numerical (I : DataFrame -> Prop) :
  (forall d d', I d -> drop "Unnamed: 0" d = inr d' -> I d') ->
  stable I "date" -> stable I "price" -> stable I "mileage" ->
  preserves (holds I) data_cleaning_numerical.
Proof.
  intros Hdrop Hd Hp Hm. unfold data_cleaning_numerical.
  apply preserves_try; [| intros e; apply preserves_log_error].
  rewrite numerical_body_eq.
  apply preserves_bind; [apply preserves_log_info | intros _].
  apply preserves_bind; [apply preserves_the_frame | intros d].
  apply preserves_bind; [| intros _; now apply preserves_convert_columns].
  destruct (has_column "Unnamed: 0" d); [| apply preserves_ret].
  apply preserves_bind; [now apply preserves_update | intros _].
  apply preserves_log_info.
Qed.

Lemma preserves_comprehension I fs keep :
  (forall f, preserves I (keep f)) -> preserves I (comprehension fs keep).
Proof.
  intros Hk. induction fs as [|f fs IH]; simpl.
  - apply preserves_ret.
  - apply preserves_bind; [apply Hk | intros b].
    apply preserves_bind; [apply IH | intros r]. apply preserves_ret.
Qed.

(** The classifier does not touch the frame. *)
Lemma preserves_divide I : preserves (holds I) divide_columns.
Proof.
  unfold divide_columns. apply preserves_try.
  - unfold divide_body.
    apply preserves_bind; [apply preserves_the_frame | intros d].
    apply preserves_bind.
    { apply preserves_comprehension. intros f.
      apply preserves_bind; [apply preserves_get | intros s; apply preserves_ret]. }
    intros nums.
    apply preserves_bind; [apply preserves_the_frame | intros d'].
    apply preserves_bind.
    { apply preserves_comprehension. intros f. apply preserves_ret. }
    intros cats.
    apply preserves_bind; [apply preserves_log_info | intros _; apply preserves_ret].
  - intros e. apply preserves_bind; [apply preserves_log_error | intros _; apply preserves_ret].
Qed.

(** An invariant that survives the two substitutions survives the
    categorical normalizer, whatever columns it is asked to clean. *)
Lemma preserves_categorical (I : DataFrame -> Prop) cats :
  (forall d s, I d -> lookup "transmission" (df_columns d) = Some s ->
               I (setitem "transmission" (replace "0" (VStr "Other") s) d)) ->
  (forall c d s, c <> "transmission" -> I d -> lookup c (df_columns d) = Some s ->
                 I (setitem c (replace "na" nan s) d)) ->
  preserves (holds I) (data_clean_categorical cats).
Proof.
  intros Ht Ho. unfold data_clean_categorical.
  apply preserves_try; [| intros e; apply preserves_log_error].
  unfold categorical_body.
  apply preserves_bind; [apply preserves_log_info | intros _].
  apply preserves_bind; [| intros _; apply preserves_log_info].
  apply preserves_for_each. intros c. unfold clean_categorical_column.
  destruct (String.eqb c "transmission") eqn:E.
  - apply String.eqb_eq in E. subst c. now apply preserves_modify.
  - apply String.eqb_neq in E. apply preserves_modify. intros d s. now apply Ho.
Qed.

Lemma result_of_holds (I : DataFrame -> Prop) m d :
  preserves (holds I) m -> I d -> exists d', result_of m d = Some d' /\ I d'.
Proof.
  intros Hm Hi. unfold result_of. apply Hm. now exists d.
Qed.

End Invariants.

(** ** Removal of the index column *)

Module IndexColumn.
Import Py Pandas Eff EffFacts FrameFacts Cleaning Invariants.

(** The frame once the index column is gone. *)
Definition without_index (d : DataFrame) : DataFrame :=
  if has_column "Unnamed: 0" d
  then mkFrame (df_index d) (filter (other_than "Unnamed: 0") (df_columns d))
  else d.

(** [d'] has the row labels and the column labels of [d], and the columns
    of [d] apart from the three numeric ones. *)
Definition keeps (d d' : DataFrame) : Prop :=
  df_index d' = df_index d
  /\ columns d' = columns d
  /\ forall name, name <> "date" -> name <> "price" -> name <> "mileage" ->
                  lookup name (df_columns d') = lookup name (df_columns d).

Lemma stable_keeps d col :
  col = "date" \/ col = "price" \/ col = "mileage" -> stable (keeps d) col.
Proof.
  intros Hc d' x [Hi [Hl Hf]] Hp. repeat split; simpl; auto.
  - unfold columns in *. simpl. now rewrite labels_assign.
  - intros name H1 H2 H3. rewrite lookup_assign_other; auto.
    destruct Hc as [-> | [-> | ->]]; auto.
Qed.

Lemma try_log_data (body : M unit) text w :
  w_data (snd (try_except body (fun e => log_error text (Some e)) w))
  = w_data (snd (body w)).
Proof. unfold try_except. now destruct (body w) as [[[]|e|c] w1]. Qed.

(** From a world with a frame, the body of the numeric normalizer comes to
    the conversions with the index column gone. *)
Lemma numerical_body_start w d :
  w_data w = Some d ->
  exists w2, numerical_body w = convert_columns w2
             /\ w_data w2 = Some (without_index d).
Proof.
  intros Hd. rewrite numerical_body_eq. unfold without_index.
  unfold bind at 1. simpl.
  unfold bind at 1. unfold the_frame at 1. simpl. rewrite Hd.
  destruct (has_column "Unnamed: 0" d) eqn:E.
  - unfold bind at 1. unfold bind at 1.
    unfold update, bind, the_frame, drop. simpl. rewrite Hd, E. simpl.
    eexists. split; [reflexivity|]. reflexivity.
  - unfold bind at 1. simpl. eexists. split; [reflexivity|]. simpl. exact Hd.
Qed.

Lemma numerical_keeps d :
  exists d', result_of data_cleaning_numerical d = Some d' /\ keeps (without_index d) d'.
Proof.
  unfold result_of, data_cleaning_numerical. rewrite try_log_data.
  destruct (numerical_body_start (start (Some d)) d eq_refl) as [w2 [E Hw2]].
  rewrite E.
  apply (preserves_convert_columns (keeps (without_index d))).
  - apply stable_keeps; auto.
  - apply stable_keeps; auto.
  - apply stable_keeps; auto.
  - exists (without_index d). split; auto. repeat split; auto.
Qed.

Lemma columns_without_index d :
  columns (without_index d)
  = filter (fun n => negb (String.eqb n "Unnamed: 0")) (columns d).
Proof.
  unfold without_index. destruct (has_column "Unnamed: 0" d) eqn:E.
  - unfold columns. simpl. apply labels_filter.
  - symmetry. apply filter_labels_id. rewrite <- has_column_spec. congruence.
Qed.

Lemma lookup_without_index d name :
  name <> "Unnamed: 0" ->
  lookup name (df_columns (without_index d)) = lookup name (df_columns d).
Proof.
  intros Hne. unfold without_index. destruct (has_column "Unnamed: 0" d); auto.
  simpl. now apply lookup_filter_other.
Qed.

(** C8: the numeric normalizer leaves the column labels of its input
    without [Unnamed: 0], in their order, and the row labels as they were;
    the removal itself changes no other column, and the columns the
    normalizer does not convert come out as they went in; a frame without
    that column keeps all its column labels. *)
Theorem C8_index_column_removed (d : DataFrame) :
  exists d',
    result_of data_cleaning_numerical d = Some d'
    /\ columns d' = filter (fun n => negb (String.eqb n "Unnamed: 0")) (columns d)
    /\ df_index d' = df_index d
    /\ (forall d1 name, drop "Unnamed: 0" d = inr d1 -> name <> "Unnamed: 0" ->
                        lookup name (df_columns d1) = lookup name (df_columns d))
    /\ (forall name, name <> "Unnamed: 0" ->
                     name <> "date" -> name <> "price" -> name <> "mileage" ->
                     lookup name (df_columns d') = lookup name (df_columns d))
    /\ (has_column "Unnamed: 0" d = false -> columns d' = columns d).
Proof.
  destruct (numerical_keeps d) as [d' [E [Hi [Hl Hf]]]].
  exists d'. split; [exact E|].
  assert (Hc : columns d' = filter (fun n => negb (String.eqb n "Unnamed: 0")) (columns d)).
  { rewrite Hl. apply columns_without_index. }
  repeat split.
  - exact Hc.
  - rewrite Hi. unfold without_index. now destruct (has_column "Unnamed: 0" d).
  - intros d1 name Hd Hne. unfold drop in Hd.
    destruct (has_column "Unnamed: 0" d); inversion Hd; subst d1. simpl.
    now apply lookup_filter_other.
  - intros name H0 H1 H2 H3. rewrite Hf; auto. now apply lookup_without_index.
  - intros Hno. rewrite Hc. apply filter_labels_id. rewrite <- has_column_spec. congruence.
Qed.

End IndexColumn.

(** ** The transmission column *)

Module Transmission.
Import Py Pandas Eff EffFacts FrameFacts Cleaning Invariants.

(** A cell is what it was, or it was ["0"] and is ["Other"]. *)
Definition zero_to_other (v v' : value) : Prop :=
  v' = v \/ (v = VStr "0" /\ v' = VStr "Other").

(** The transmission column of [d] holds the cells [vs] up to
    [zero_to_other]. *)
Definition transmission_kept (vs : list value) (d : DataFrame) : Prop :=
  exists s, lookup "transmission" (df_columns d) = Some s
            /\ Forall2 zero_to_other vs (s_values s).

Lemma subst_typed {A} (inj : A -> value) old new (l : list A) :
  (forall a, value_is old (inj a) = false) ->
  map (subst old new) (map inj l) = map inj l.
Proof.
  intros H. rewrite map_map. apply map_ext. intros a. unfold subst. now rewrite H.
Qed.

Lemma subst_absent old new vs :
  existsb (value_is old) vs = false -> map (subst old new) vs = vs.
Proof.
  induction vs as [|v vs IH]; simpl; auto.
  intros H. apply orb_false_iff in H as [H1 H2].
  unfold subst at 1. now rewrite H1, IH.
Qed.

Lemma existsb_subst_new old s vs :
  existsb (value_is old) vs = true ->
  existsb is_str (map (subst old (VStr s)) vs) = true.
Proof.
  induction vs as [|v vs IH]; simpl; [discriminate|].
  unfold subst at 1. destruct (value_is old v); simpl; auto.
  intros H. rewrite IH; auto. apply orb_true_r.
Qed.

(** Replacing a string by a string rewrites the cells and nothing else. *)
Lemma values_replace_str old s x :
  s_values (replace old (VStr s) x) = map (subst old (VStr s)) (s_values x).
Proof.
  destruct x as [vs|xs|zs|bs]; simpl;
    try (symmetry; apply subst_typed; reflexivity).
  destruct (existsb (value_is old) vs) eqn:E.
  - unfold convert. now rewrite existsb_subst_new.
  - simpl. symmetry. now apply subst_absent.
Qed.

Lemma zero_to_other_subst vs vs' :
  Forall2 zero_to_other vs vs' ->
  Forall2 zero_to_other vs (map (subst "0" (VStr "Other")) vs').
Proof.
  induction 1 as [|v v' vs vs' H _ IH]; simpl; constructor; auto.
  unfold subst. destruct (value_is "0" v') eqn:E; auto.
  destruct v' as [t| | |]; simpl in E; try discriminate.
  apply String.eqb_eq in E. subst t.
  destruct H as [<- | [_ H]]; [right; auto | discriminate].
Qed.

Lemma categorical_keeps_transmission vs cats :
  preserves (holds (transmission_kept vs)) (data_clean_categorical cats).
Proof.
  apply preserves_categorical.
  - intros d s [s0 [Hl Hr]] Hs. rewrite Hl in Hs. inversion Hs; subst s0.
    exists (replace "0" (VStr "Other") s). split.
    + simpl. apply lookup_assign_same.
    + rewrite values_replace_str. now apply zero_to_other_subst.
  - intros c d s Hne [s0 [Hl Hr]] Hs. exists s0. split; auto.
    simpl. rewrite lookup_assign_other; auto.
Qed.

Lemma numerical_keeps_transmission vs :
  preserves (holds (transmission_kept vs)) data_cleaning_numerical.
Proof.
  assert (Hst : forall col, col <> "transmission" -> stable (transmission_kept vs) col).
  { intros col Hne d x [s0 [Hl Hr]] _. exists s0. split; auto.
    simpl. rewrite lookup_assign_other; auto. }
  apply preserves_numerical; try (apply Hst; discriminate).
  intros d d' [s0 [Hl Hr]] E. exists s0. split; auto.
  unfold drop in E. destruct (has_column "Unnamed: 0" d); inversion E; subst d'.
  simpl. rewrite lookup_filter_other; auto. discriminate.
Qed.

Lemma clean_keeps_transmission vs : preserves (holds (transmission_kept vs)) clean.
Proof.
  unfold clean.
  apply preserves_bind; [apply numerical_keeps_transmission | intros _].
  apply preserves_bind; [apply preserves_divide | intros [nums cats]].
  apply categorical_keeps_transmission.
Qed.

Lemma zero_to_other_cells vs vs' :
  Forall2 zero_to_other vs vs' ->
  length vs' = length vs
  /\ forall i v, nth_error vs i = Some v -> v <> VStr "0" -> nth_error vs' i = Some v.
Proof.
  induction 1 as [|v v' vs vs' H _ [IHl IHn]]; simpl.
  - split; [reflexivity|]. intros [|i] v; discriminate.
  - split; [congruence|]. intros [|i] u; simpl.
    + intros Hu Hne. inversion Hu; subst u.
      destruct H as [-> | [H _]]; congruence.
    + apply IHn.
Qed.

Lemma kept_cells vs m d :
  preserves (holds (transmission_kept vs)) m ->
  cells "transmission" d = Some vs ->
  exists d' vs',
    result_of m d = Some d'
    /\ cells "transmission" d' = Some vs'
    /\ length vs' = length vs
    /\ forall i v, nth_error vs i = Some v -> v <> VStr "0" -> nth_error vs' i = Some v.
Proof.
  intros Hm Hc. unfold cells in Hc.
  destruct (lookup "transmission" (df_columns d)) as [s|] eqn:E; [|discriminate].
  inversion Hc; subst vs.
  destruct (result_of_holds (transmission_kept (s_values s)) m d Hm) as [d' [Hr [s' [Hl HF]]]].
  { exists s. split; auto. clear. induction (s_values s); constructor; auto. now left. }
  exists d', (s_values s'). split; [exact Hr|]. split.
  - unfold cells. now rewrite Hl.
  - now apply zero_to_other_cells.
Qed.

(** C10: whatever columns the categorical normalizer is asked to clean, and
    over the whole cleaning pipeline as well, every cell of [transmission]
    that is not the string ["0"] comes out as it went in; so a cell holding
    ["na"] still holds ["na"]. *)
Theorem C10_transmission_keeps_other_values (d : DataFrame) (vs : list value) :
  cells "transmission" d = Some vs ->
  (forall cats, exists d' vs',
      result_of (data_clean_categorical cats) d = Some d'
      /\ cells "transmission" d' = Some vs'
      /\ length vs' = length vs
      /\ forall i v, nth_error vs i = Some v -> v <> VStr "0" -> nth_error vs' i = Some v)
  /\ (exists d' vs',
      result_of clean d = Some d'
      /\ cells "transmission" d' = Some vs'
      /\ length vs' = length vs
      /\ (forall i v, nth_error vs i = Some v -> v <> VStr "0" -> nth_error vs' i = Some v)
      /\ (forall i, nth_error vs i = Some (VStr "na") -> nth_error vs' i = Some (VStr "na"))).
Proof.
  intros Hc. split.
  - intros cats. apply kept_cells; auto. apply categorical_keeps_transmission.
  - destruct (kept_cells vs clean d (clean_keeps_transmission vs) Hc)
      as [d' [vs' [Hr [Hc' [Hl Hn]]]]].
    exists d', vs'. repeat split; auto.
    intros i Hi. apply Hn; auto. discriminate.
Qed.

End Transmission.

(** ** The categorical normalizer, column by column *)

Module Categorical.
Import Py Pandas Eff EffFacts FrameFacts Cleaning IndexColumn Transmission.

(** What the loop body does to the column it is given. *)
Definition cat_fn (column : string) (s : Series) : Series :=
  if String.eqb column "transmission"
  then replace "0" (VStr "Other") s
  else replace "na" nan s.

Definition cat_step (d : DataFrame) (column : string) : DataFrame :=
  match lookup column (df_columns d) with
  | Some s => setitem column (cat_fn column s) d
  | None => d
  end.

Lemma with_data_same w : with_data w (w_data w) = w.
Proof. now destruct w. Qed.

Lemma run_column w d c s :
  w_data w = Some d -> lookup c (df_columns d) = Some s ->
  clean_categorical_column c w = (Ret tt, with_data w (Some (cat_step d c))).
Proof.
  intros Hd Hl. unfold clean_categorical_column, cat_step, cat_fn. rewrite Hl.
  pose proof (run_get w d c Hd) as Hg. rewrite Hl in Hg.
  destruct (String.eqb c "transmission");
    rewrite (run_bind _ Hg); now apply run_set.
Qed.

Lemma columns_cat_step d c : columns (cat_step d c) = columns d.
Proof.
  unfold cat_step. destruct (lookup c (df_columns d)) eqn:E; auto.
  unfold columns. simpl. apply labels_assign. congruence.
Qed.

Lemma run_columns cats : forall w d,
  w_data w = Some d ->
  (forall c, In c cats -> In c (columns d)) ->
  for_each cats clean_categorical_column w
  = (Ret tt, with_data w (Some (fold_left cat_step cats d))).
Proof.
  induction cats as [|c cats IH]; intros w d Hd Hin; simpl.
  - unfold ret. rewrite <- Hd. now rewrite with_data_same.
  - assert (Hc : In c (columns d)) by (apply Hin; now left).
    apply lookup_in_labels in Hc.
    destruct (lookup c (df_columns d)) as [s|] eqn:E; [|congruence].
    rewrite (run_bind _ (run_column w d c s Hd E)).
    rewrite (IH _ (cat_step d c)); auto.
    intros c' Hc'. rewrite columns_cat_step. apply Hin. now right.
Qed.

(** With every listed column in the frame, the normalizer runs through. *)
Lemma categorical_data w d cats :
  w_data w = Some d ->
  (forall c, In c cats -> In c (columns d)) ->
  w_data (snd (data_clean_categorical cats w)) = Some (fold_left cat_step cats d).
Proof.
  intros Hd Hin. unfold data_clean_categorical. rewrite try_log_data.
  unfold categorical_body.
  unfold bind at 1. simpl.
  unfold bind at 1.
  rewrite (run_columns cats (with_record w _) d Hd Hin). reflexivity.
Qed.

Lemma categorical_result d cats :
  (forall c, In c cats -> In c (columns d)) ->
  result_of (data_clean_categorical cats) d = Some (fold_left cat_step cats d).
Proof. intros Hin. now apply categorical_data. Qed.

Lemma not_value_is_after old new vs :
  value_is old new = false ->
  existsb (value_is old) (map (subst old new) vs) = false.
Proof.
  intros Hn. induction vs as [|v vs IH]; simpl; auto.
  rewrite IH, orb_false_r. unfold subst. now destruct (value_is old v) eqn:E.
Qed.

Lemma replace_idempotent old new s :
  value_is old new = false ->
  replace old new (replace old new s) = replace old new s.
Proof.
  intros Hn. destruct s as [vs|xs|zs|bs]; simpl; auto.
  destruct (existsb (value_is old) vs) eqn:E.
  - unfold convert.
    destruct (existsb is_str _); [| destruct (existsb is_bool _);
      [destruct (forallb is_bool _) |  destruct (forallb is_int _)]]; simpl; auto;
      now rewrite not_value_is_after.
  - simpl. now rewrite E.
Qed.

Lemma cat_fn_idempotent c s : cat_fn c (cat_fn c s) = cat_fn c s.
Proof.
  unfold cat_fn. destruct (String.eqb c "transmission");
    now apply replace_idempotent.
Qed.

Lemma lookup_cat_step d c c' :
  lookup c (df_columns (cat_step d c'))
  = if String.eqb c c' then option_map (cat_fn c) (lookup c (df_columns d))
    else lookup c (df_columns d).
Proof.
  unfold cat_step. destruct (String.eqb c c') eqn:E.
  - apply String.eqb_eq in E. subst c'.
    destruct (lookup c (df_columns d)) as [s|] eqn:El; simpl.
    + apply lookup_assign_same.
    + exact El.
  - apply String.eqb_neq in E.
    destruct (lookup c' (df_columns d)) as [s|] eqn:El; simpl; auto.
    now apply lookup_assign_other.
Qed.

(** A listed column ends up cleaned once, the others are as they were. *)
Lemma lookup_cleaned c cats : forall d,
  lookup c (df_columns (fold_left cat_step cats d))
  = if existsb (String.eqb c) cats
    then option_map (cat_fn c) (lookup c (df_columns d))
    else lookup c (df_columns d).
Proof.
  induction cats as [|c' cats IH]; intros d; simpl; auto.
  rewrite IH, lookup_cat_step.
  destruct (String.eqb c c'); simpl; auto.
  destruct (lookup c (df_columns d)); simpl.
  - rewrite cat_fn_idempotent. now destruct (existsb (String.eqb c) cats).
  - now destruct (existsb (String.eqb c) cats).
Qed.

Lemma existsb_in c cats : In c cats -> existsb (String.eqb c) cats = true.
Proof.
  intros H. apply existsb_exists. exists c. split; auto. apply String.eqb_refl.
Qed.

Lemma forallb_nth {A} {p : A -> bool} {l i a} :
  forallb p l = true -> nth_error l i = Some a -> p a = true.
Proof.
  intros H Hn. rewrite forallb_forall in H. apply H. eapply nth_error_In; eauto.
Qed.

Lemma existsb_nth {A} {p : A -> bool} {l i a} :
  existsb p l = false -> nth_error l i = Some a -> p a = false.
Proof.
  intros H Hn. destruct (p a) eqn:E; auto.
  rewrite <- H. symmetry. apply existsb_exists. exists a. split; auto.
  eapply nth_error_In; eauto.
Qed.

Lemma length_convert vs : length (s_values (convert vs)) = length vs.
Proof.
  unfold convert.
  destruct (existsb is_str vs); [| destruct (existsb is_bool vs);
    [destruct (forallb is_bool vs) | destruct (forallb is_int vs)]]; simpl;
    now rewrite ?length_map.
Qed.

(** Conversion keeps strings and NaN where they are. *)
Lemma convert_keeps vs i v :
  nth_error vs i = Some v -> is_str v = true \/ v = nan ->
  nth_error (s_values (convert vs)) i = Some v.
Proof.
  intros Hn Hv. unfold convert.
  destruct (existsb is_str vs) eqn:Es; [exact Hn|].
  pose proof (existsb_nth Es Hn) as Hs.
  destruct Hv as [Hv | ->]; [congruence|].
  destruct (existsb is_bool vs) eqn:Eb.
  - destruct (forallb is_bool vs) eqn:Ef; [|exact Hn].
    now pose proof (forallb_nth Ef Hn).
  - destruct (forallb is_int vs) eqn:Ei.
    + now pose proof (forallb_nth Ei Hn).
    + simpl. rewrite map_map. now rewrite nth_error_map, Hn.
Qed.

(** [replace("na", np.nan)], cell by cell. *)
Lemma replace_na_cells s :
  length (s_values (replace "na" nan s)) = length (s_values s)
  /\ forall i,
      (nth_error (s_values s) i = Some (VStr "0") ->
       nth_error (s_values (replace "na" nan s)) i = Some (VStr "0"))
      /\ (nth_error (s_values s) i = Some (VStr "na") ->
          nth_error (s_values (replace "na" nan s)) i = Some nan).
Proof.
  destruct s as [vs|xs|zs|bs]; simpl.
  2-4: split; [reflexivity|]; intros i; split; intros H;
       rewrite nth_error_map in H; destruct (nth_error _ i); discriminate.
  destruct (existsb (value_is "na") vs) eqn:E.
  - split; [now rewrite length_convert, length_map|].
    intros i. split; intros H; apply convert_keeps;
      try (rewrite nth_error_map, H; reflexivity); auto.
  - split; [reflexivity|]. intros i. split; auto.
    intros H. now pose proof (existsb_nth E H).
Qed.

(** C3: when the listed columns are columns of the frame, the categorical
    normalizer rewrites ["0"] to ["Other"] in [transmission] (if listed) and
    nothing else there, and in every other listed column a cell ["0"] stays
    ["0"] and a cell ["na"] becomes NaN. *)
Theorem C3_sentinel_asymmetry (d : DataFrame) (cats : list string) :
  (forall c, In c cats -> In c (columns d)) ->
  exists d',
    result_of (data_clean_categorical cats) d = Some d'
    /\ (In "transmission" cats ->
        forall vs, cells "transmission" d = Some vs ->
                   cells "transmission" d' = Some (map (subst "0" (VStr "Other")) vs))
    /\ (forall c vs, In c cats -> c <> "transmission" -> cells c d = Some vs ->
        exists vs',
          cells c d' = Some vs'
          /\ length vs' = length vs
          /\ forall i,
              (nth_error vs i = Some (VStr "0") -> nth_error vs' i = Some (VStr "0"))
              /\ (nth_error vs i = Some (VStr "na") -> nth_error vs' i = Some nan)).
Proof.
  intros Hin. exists (fold_left cat_step cats d).
  split; [now apply categorical_result|]. split.
  - intros Ht vs Hc. unfold cells in *. rewrite lookup_cleaned, (existsb_in _ _ Ht).
    destruct (lookup "transmission" (df_columns d)) as [s|]; [|discriminate].
    inversion Hc; subst vs. simpl. f_equal. apply values_replace_str.
  - intros c vs Hc Hne Hcells. unfold cells in *.
    rewrite lookup_cleaned, (existsb_in _ _ Hc).
    destruct (lookup c (df_columns d)) as [s|]; [|discriminate].
    inversion Hcells; subst vs. simpl.
    exists (s_values (cat_fn c s)). split; auto.
    unfold cat_fn. apply String.eqb_neq in Hne. rewrite Hne.
    apply replace_na_cells.
Qed.

End Categorical.

(** ** A numeric normalization that runs through *)

Module NumericSuccess.
Import Py Pandas Eff EffFacts FrameFacts Cleaning Invariants IndexColumn.

Lemma bind_ret_inv {A B} (m : M A) (k : A -> M B) w b w' :
  bind m k w = (Ret b, w') ->
  exists a w1, m w = (Ret a, w1) /\ k a w1 = (Ret b, w').
Proof.
  unfold bind. destruct (m w) as [[a|e|c] w1]; intros H; try discriminate.
  now exists a, w1.
Qed.

Lemma get_ret_inv col w s w1 :
  get col w = (Ret s, w1) ->
  w1 = w /\ exists d, w_data w = Some d /\ lookup col (df_columns d) = Some s.
Proof.
  unfold get, bind, the_frame, getitem.
  destruct (w_data w) as [d|] eqn:Hd; [|discriminate].
  destruct (lookup col (df_columns d)) as [s0|] eqn:E; simpl; intros H;
    inversion H; subst. split; auto. now exists d.
Qed.

Lemma set_ret_inv col x w u w1 :
  set col x w = (Ret u, w1) ->
  exists d, w_data w = Some d /\ w1 = with_data w (Some (setitem col x d)).
Proof.
  unfold set, update, bind, the_frame.
  destruct (w_data w) as [d|] eqn:Hd; [|discriminate].
  simpl. intros H. inversion H. now exists d.
Qed.

Lemma lift_ret_inv {A} (r : exn + A) w a w1 :
  lift r w = (Ret a, w1) -> r = inr a /\ w1 = w.
Proof. destruct r; simpl; intros H; inversion H; auto. Qed.

(** [d'] is [d] with the column [col] rewritten. *)
Definition rewritten (col : string) (d d' : DataFrame) : Prop :=
  df_index d' = df_index d
  /\ columns d' = columns d
  /\ forall c, c <> col -> lookup c (df_columns d') = lookup c (df_columns d).

(** One read-convert-write round on a column that runs through. *)
Lemma round_ret (col : string) (f : Series -> exn + Series) (k : M unit) w w' :
  (s <- get col ;; s' <- lift (f s) ;; set col s' ;; k) w = (Ret tt, w') ->
  exists d s s' w1,
    w_data w = Some d /\ lookup col (df_columns d) = Some s /\ f s = inr s'
    /\ w_data w1 = Some (setitem col s' d)
    /\ k w1 = (Ret tt, w').
Proof.
  intros H.
  apply bind_ret_inv in H as (s & w1 & Hg & H).
  apply get_ret_inv in Hg as (-> & d & Hd & Hl).
  apply bind_ret_inv in H as (s' & w2 & Hf & H).
  apply lift_ret_inv in Hf as (Hf & ->).
  apply bind_ret_inv in H as (u & w3 & Hs & H).
  apply set_ret_inv in Hs as (d0 & Hd0 & ->).
  assert (d0 = d) by congruence. subst d0.
  exists d, s, s', (with_data w (Some (setitem col s' d))). auto.
Qed.

Lemma astype_float_float64 s s' :
  astype_float s = inr s' -> exists xs, s' = SFloat64 xs.
Proof.
  unfold astype_float. destruct s; try (intros H; inversion H; eauto; fail);
    destruct (floats_of _); intros H; inversion H; eauto.
Qed.

Lemma last_round_ret (col : string) (f : Series -> exn + Series) w w' :
  (s <- get col ;; s' <- lift (f s) ;; set col s') w = (Ret tt, w') ->
  exists d s s',
    w_data w = Some d /\ lookup col (df_columns d) = Some s /\ f s = inr s'
    /\ w_data w' = Some (setitem col s' d).
Proof.
  intros H.
  apply bind_ret_inv in H as (s & w1 & Hg & H).
  apply get_ret_inv in Hg as (-> & d & Hd & Hl).
  apply bind_ret_inv in H as (s' & w2 & Hf & H).
  apply lift_ret_inv in Hf as (Hf & ->).
  apply set_ret_inv in H as (d0 & Hd0 & ->).
  assert (d0 = d) by congruence. subst d0.
  now exists d, s, s'.
Qed.

(** When [clean_column] returns, the column is a float column and the
    other columns are as they were. *)
Lemma clean_column_ret col w w' :
  clean_column col w = (Ret tt, w') ->
  exists d d' xs,
    w_data w = Some d /\ w_data w' = Some d'
    /\ lookup col (df_columns d') = Some (SFloat64 xs)
    /\ rewritten col d d'.
Proof.
  unfold clean_column. intros H.
  apply (round_ret col (fun s => inr (replace "na" nan s))) in H
    as (d & s1 & t1 & w1 & Hd & Hl1 & _ & Hd1 & H).
  apply round_ret in H as (d1 & s2 & t2 & w2 & Hd1' & Hl2 & _ & Hd2 & H).
  apply round_ret in H as (d2 & s3 & t3 & w3 & Hd2' & Hl3 & _ & Hd3 & H).
  apply last_round_ret in H as (d3 & s4 & t4 & Hd3' & Hl4 & Hf & Hd4).
  destruct (astype_float_float64 _ _ Hf) as [xs ->].
  assert (d1 = setitem col t1 d) by congruence. subst d1.
  assert (d2 = setitem col t2 (setitem col t1 d)) by congruence. subst d2.
  assert (d3 = setitem col t3 (setitem col t2 (setitem col t1 d))) by congruence.
  subst d3.
  exists d, (setitem col (SFloat64 xs) (setitem col t3 (setitem col t2 (setitem col t1 d)))), xs.
  repeat split; auto.
  - simpl. apply lookup_assign_same.
  - unfold columns. simpl. rewrite !labels_assign; auto;
      try (rewrite ?lookup_assign_same; discriminate); congruence.
  - intros c Hc. simpl. now rewrite !lookup_assign_other.
Qed.

(** The frame has no index column and its three numeric columns are float
    columns: what the numeric normalizer leaves when it runs through. *)
Definition numeric_done (d : DataFrame) : Prop :=
  has_column "Unnamed: 0" d = false
  /\ (exists xs, lookup "date" (df_columns d) = Some (SFloat64 xs))
  /\ (exists xs, lookup "price" (df_columns d) = Some (SFloat64 xs))
  /\ (exists xs, lookup "mileage" (df_columns d) = Some (SFloat64 xs)).

Lemma has_column_without_index d : has_column "Unnamed: 0" (without_index d) = false.
Proof.
  destruct (has_column "Unnamed: 0" (without_index d)) eqn:E; auto.
  apply has_column_spec in E. rewrite columns_without_index in E.
  apply filter_In in E as [_ E]. now rewrite String.eqb_refl in E.
Qed.

Lemma has_column_labels d d' name :
  columns d' = columns d -> has_column name d' = has_column name d.
Proof. unfold has_column. now intros ->. Qed.

Lemma convert_columns_ret w w' d :
  w_data w = Some d ->
  convert_columns w = (Ret tt, w') ->
  exists d', w_data w' = Some d'
    /\ columns d' = columns d
    /\ (exists xs, lookup "date" (df_columns d') = Some (SFloat64 xs))
    /\ (exists xs, lookup "price" (df_columns d') = Some (SFloat64 xs))
    /\ (exists xs, lookup "mileage" (df_columns d') = Some (SFloat64 xs)).
Proof.
  intros Hd H. unfold convert_columns in H.
  apply round_ret in H as (d0 & s & s' & w1 & Hd0 & Hl & Hf & Hd1 & H).
  assert (d0 = d) by congruence. subst d0.
  destruct (astype_float_float64 _ _ Hf) as [xs ->].
  apply bind_ret_inv in H as (u & w2 & H & Hlog).
  simpl in H.
  apply bind_ret_inv in H as (u1 & w3 & Hp & H).
  apply bind_ret_inv in H as (u2 & w4 & Hm & H).
  destruct u1, u2. inversion H; subst w4. inversion Hlog; subst w'.
  apply clean_column_ret in Hp as (d1 & d2 & ps & Hd1' & Hd2 & Hlp & Hrp).
  apply clean_column_ret in Hm as (d2' & d3 & ms & Hd2' & Hd3 & Hlm & Hrm).
  assert (d1 = setitem "date" (SFloat64 xs) d) by congruence. subst d1.
  assert (d2' = d2) by congruence. subst d2'.
  exists d3. simpl. split; [exact Hd3|].
  destruct Hrp as [_ [Hcp Hfp]]. destruct Hrm as [_ [Hcm Hfm]].
  repeat split.
  - rewrite Hcm, Hcp. unfold columns. simpl. apply labels_assign. congruence.
  - exists xs. rewrite Hfm, Hfp by discriminate. simpl. apply lookup_assign_same.
  - exists ps. rewrite Hfm by discriminate. exact Hlp.
  - now exists ms.
Qed.

(** A run of the numeric normalizer without an error ends in a frame with
    the numeric columns done. *)
Lemma numerical_success d :
  fst (numerical_body (start (Some d))) = Ret tt ->
  exists d1, result_of data_cleaning_numerical d = Some d1 /\ numeric_done d1.
Proof.
  intros H. unfold result_of, data_cleaning_numerical. rewrite try_log_data.
  destruct (numerical_body_start (start (Some d)) d eq_refl) as [w2 [E Hw2]].
  rewrite E in *.
  destruct (convert_columns w2) as [o w3] eqn:Ec. simpl in H. subst o.
  destruct (convert_columns_ret w2 w3 _ Hw2 Ec) as (d1 & Hd1 & Hc & Hdate & Hprice & Hmil).
  exists d1. split; [exact Hd1|]. repeat split; auto.
  rewrite (has_column_labels _ _ _ Hc). apply has_column_without_index.
Qed.

End NumericSuccess.

(** ** Running the pipeline on its own output *)

Module Idempotence.
Import Py Pandas Eff EffFacts FrameFacts Cleaning Invariants IndexColumn.
Import Transmission Categorical NumericSuccess.

Lemma setitem_known col s d :
  lookup col (df_columns d) = Some s -> setitem col s d = d.
Proof. intros H. unfold setitem. rewrite assign_known; auto. now destruct d. Qed.

Lemma get_float w d col xs :
  w_data w = Some d -> lookup col (df_columns d) = Some (SFloat64 xs) ->
  get col w = (Ret (SFloat64 xs), w).
Proof. intros Hd Hl. rewrite (run_get w d col Hd). now rewrite Hl. Qed.

Lemma set_float w d col xs :
  w_data w = Some d -> lookup col (df_columns d) = Some (SFloat64 xs) ->
  set col (SFloat64 xs) w = (Ret tt, w).
Proof.
  intros Hd Hl. rewrite (run_set w d col _ Hd), setitem_known; auto.
  rewrite <- Hd. now rewrite with_data_same.
Qed.

(** On a frame whose numeric columns are done the conversions change
    nothing and stop at [price]: a float column has no [.str]. *)
Lemma convert_columns_done w d :
  w_data w = Some d -> numeric_done d ->
  exists e, convert_columns w = (Raise e, w).
Proof.
  intros Hd (_ & [ds Hdate] & [ps Hprice] & _).
  unfold convert_columns.
  rewrite (run_bind _ (get_float w d "date" ds Hd Hdate)).
  change (astype_float (replace "na" nan (SFloat64 ds))) with (@inr exn _ (SFloat64 ds)).
  rewrite (run_bind _ (eq_refl : lift (inr (SFloat64 ds)) w = (Ret (SFloat64 ds), w))).
  rewrite (run_bind _ (set_float w d "date" ds Hd Hdate)).
  eexists. apply run_bind_raise. simpl. apply run_bind_raise.
  unfold clean_column.
  rewrite (run_bind _ (get_float w d "price" ps Hd Hprice)).
  change (replace "na" nan (SFloat64 ps)) with (SFloat64 ps).
  rewrite (run_bind _ (set_float w d "price" ps Hd Hprice)).
  rewrite (run_bind _ (get_float w d "price" ps Hd Hprice)).
  reflexivity.
Qed.

Lemma without_index_absent d : has_column "Unnamed: 0" d = false -> without_index d = d.
Proof. unfold without_index. now intros ->. Qed.

Lemma numerical_fixed w d :
  w_data w = Some d -> numeric_done d ->
  w_data (snd (data_cleaning_numerical w)) = Some d.
Proof.
  intros Hd Hn. unfold data_cleaning_numerical. rewrite try_log_data.
  destruct (numerical_body_start w d Hd) as [w2 [E Hw2]]. rewrite E.
  rewrite without_index_absent in Hw2 by apply Hn.
  destruct (convert_columns_done w2 d Hw2 Hn) as [e ->]. exact Hw2.
Qed.

(** The two lists [divide_columns] builds. *)
Definition is_object_column (d : DataFrame) (c : string) : bool :=
  match lookup c (df_columns d) with
  | Some s => dtype_eqb (s_dtype s) Object
  | None => false
  end.

Definition numeric_labels (d : DataFrame) : list string :=
  filter (fun c => negb (is_object_column d c)) (columns d).

Definition object_labels (d : DataFrame) : list string :=
  filter (fun c => negb (existsb (String.eqb c) (numeric_labels d))) (columns d).

Lemma run_comprehension_dtype w d fs :
  w_data w = Some d ->
  (forall f, In f fs -> In f (columns d)) ->
  comprehension fs
    (fun feature => s <- get feature ;; ret (negb (dtype_eqb (s_dtype s) Object))) w
  = (Ret (filter (fun c => negb (is_object_column d c)) fs), w).
Proof.
  intros Hd. induction fs as [|f fs IH]; intros Hin; simpl; auto.
  assert (Hf : In f (columns d)) by (apply Hin; now left).
  apply lookup_in_labels in Hf.
  unfold is_object_column at 1.
  destruct (lookup f (df_columns d)) as [s|] eqn:E; [|congruence].
  pose proof (run_get w d f Hd) as Hg. rewrite E in Hg.
  unfold bind at 1. unfold bind at 1. rewrite Hg. unfold ret at 1.
  unfold bind at 1. rewrite IH by (intros; apply Hin; now right).
  unfold ret. now destruct (dtype_eqb (s_dtype s) Object).
Qed.

Lemma run_comprehension_pure (p : string -> bool) fs w :
  comprehension fs (fun f => ret (p f)) w = (Ret (filter p fs), w).
Proof.
  induction fs as [|f fs IH]; simpl; auto.
  unfold bind at 1. unfold ret at 1. unfold bind at 1. rewrite IH.
  unfold ret. now destruct (p f).
Qed.

Lemma divide_run w d :
  w_data w = Some d ->
  exists w', divide_columns w = (Ret (numeric_labels d, object_labels d), w')
             /\ w_data w' = Some d.
Proof.
  intros Hd. unfold divide_columns, try_except, divide_body.
  unfold bind at 1. unfold the_frame at 1. rewrite Hd.
  unfold bind at 1. rewrite (run_comprehension_dtype w d (columns d) Hd) by auto.
  unfold bind at 1. unfold the_frame at 1. rewrite Hd.
  unfold bind at 1. rewrite run_comprehension_pure.
  eexists. split; [reflexivity|]. exact Hd.
Qed.

(** The frame the pipeline leaves, from the frame the numeric normalizer
    leaves. *)
Lemma clean_data w d1 :
  w_data (snd (data_cleaning_numerical w)) = Some d1 ->
  w_data (snd (clean w)) = Some (fold_left cat_step (object_labels d1) d1).
Proof.
  intros H1. unfold clean.
  destruct (FailSoft.total_numerical w) as [[] E].
  destruct (data_cleaning_numerical w) as [o w1] eqn:En. simpl in *. subst o.
  rewrite (run_bind _ En).
  destruct (divide_run w1 d1 H1) as [w2 [Ed Hw2]].
  rewrite (run_bind _ Ed).
  apply categorical_data; auto.
  intros c Hc. unfold object_labels in Hc. now apply filter_In in Hc.
Qed.

Lemma columns_cleaned cats : forall d, columns (fold_left cat_step cats d) = columns d.
Proof.
  induction cats as [|c cats IH]; intros d; simpl; auto.
  now rewrite IH, columns_cat_step.
Qed.

Lemma cat_fn_typed c s : dtype_eqb (s_dtype s) Object = false -> cat_fn c s = s.
Proof.
  unfold cat_fn. destruct s; simpl; try discriminate;
    now destruct (String.eqb c "transmission").
Qed.

Lemma existsb_filter (p : string -> bool) c l :
  In c l -> existsb (String.eqb c) (filter p l) = p c.
Proof.
  intros Hin. destruct (p c) eqn:E.
  - apply existsb_exists. exists c. split; [|apply String.eqb_refl].
    apply filter_In. auto.
  - destruct (existsb (String.eqb c) (filter p l)) eqn:E'; auto.
    apply existsb_exists in E' as [x [Hx Hc]]. apply String.eqb_eq in Hc. subst x.
    apply filter_In in Hx. destruct Hx. congruence.
Qed.

(** After the categorical normalizer every column is a fixed point of its
    substitution. *)
Lemma cleaned_fixed d c s :
  lookup c (df_columns (fold_left cat_step (object_labels d) d)) = Some s ->
  cat_fn c s = s.
Proof.
  rewrite lookup_cleaned.
  destruct (lookup c (df_columns d)) as [s1|] eqn:El;
    [| now destruct (existsb (String.eqb c) (object_labels d))].
  assert (Hin : In c (columns d)) by (apply lookup_in_labels; congruence).
  unfold object_labels. rewrite existsb_filter by exact Hin.
  unfold numeric_labels. rewrite existsb_filter by exact Hin.
  unfold is_object_column. rewrite El. rewrite negb_involutive.
  destruct (dtype_eqb (s_dtype s1) Object) eqn:Eo; simpl; intros H; inversion H.
  - apply cat_fn_idempotent.
  - subst s. now apply cat_fn_typed.
Qed.

Lemma fold_fixed cats d :
  (forall c, In c cats -> cat_step d c = d) -> fold_left cat_step cats d = d.
Proof.
  induction cats as [|c cats IH]; simpl; auto.
  intros H. rewrite (H c) by now left. apply IH. intros c' Hc'. apply H. now right.
Qed.

Lemma numeric_done_cleaned cats d :
  numeric_done d -> numeric_done (fold_left cat_step cats d).
Proof.
  intros (Hu & Hd & Hp & Hm).
  assert (Hk : forall c, (exists xs, lookup c (df_columns d) = Some (SFloat64 xs)) ->
                         exists xs, lookup c (df_columns (fold_left cat_step cats d))
                                    = Some (SFloat64 xs)).
  { intros c [xs Hl]. exists xs. rewrite lookup_cleaned, Hl.
    destruct (existsb (String.eqb c) cats); simpl; auto.
    now rewrite cat_fn_typed. }
  repeat split; auto.
  now rewrite (has_column_labels _ _ _ (columns_cleaned cats d)).
Qed.

(** C7, amended: when the numeric normalizer runs through without an
    error, the frame the pipeline produces is a fixed point of the
    pipeline. *)
Theorem C7_idempotent_after_clean_run (d d' : DataFrame) :
  fst (numerical_body (start (Some d))) = Ret tt ->
  result_of clean d = Some d' ->
  result_of clean d' = Some d'.
Proof.
  intros Hok Hd'.
  destruct (numerical_success d Hok) as [d1 [H1 Hdone]].
  unfold result_of in *.
  rewrite (clean_data _ _ H1) in Hd'. inversion Hd'; subst d'. clear Hd'.
  pose proof (numeric_done_cleaned (object_labels d1) d1 Hdone) as Hdone'.
  set (d2 := fold_left cat_step (object_labels d1) d1) in *.
  rewrite (clean_data (start (Some d2)) d2
             (numerical_fixed (start (Some d2)) d2 eq_refl Hdone')).
  f_equal. apply fold_fixed. intros c Hc. unfold cat_step.
  destruct (lookup c (df_columns d2)) as [s|] eqn:E; auto.
  rewrite (cleaned_fixed _ _ _ E). now apply setitem_known.
Qed.

End Idempotence.

(** ** Concrete frames *)

Module Examples.
Import Py Pandas Eff Cleaning.

Definition strings (l : list string) : Series := SObject (map VStr l).

(** Two raw listings with decorated prices. *)
Definition listings : DataFrame :=
  mkFrame [0; 1]
    [("Unnamed: 0", SInt64 [0; 1]);
     ("date", strings ["2015"; "na"]);
     ("price", strings ["$12,345"; "na"]);
     ("mileage", strings ["1,000"; "na"]);
     ("transmission", strings ["0"; "na"]);
     ("color", strings ["0"; "na"])].

(** The same listings with prices that carry no dollar sign. *)
Definition plain_listings : DataFrame :=
  mkFrame [0; 1]
    [("Unnamed: 0", SInt64 [0; 1]);
     ("date", strings ["2015"; "na"]);
     ("price", strings ["12,345"; "na"]);
     ("mileage", strings ["1,000"; "na"]);
     ("transmission", strings ["0"; "na"]);
     ("color", strings ["0"; "na"])].

(** A price column in which the sentinel is decorated with a comma. *)
Definition decorated_sentinel : DataFrame :=
  mkFrame [0; 1]
    [("date", strings ["2015"; "na"]);
     ("price", strings ["n,a"; "5"]);
     ("mileage", strings ["1,000"; "na"])].

Definition decorated_once : DataFrame :=
  mkFrame [0; 1]
    [("date", SFloat64 [FFinite 2015; FNaN]);
     ("price", SObject [nan; VStr "5"]);
     ("mileage", SObject [VStr "1,000"; nan])].

Definition decorated_twice : DataFrame :=
  mkFrame [0; 1]
    [("date", SFloat64 [FFinite 2015; FNaN]);
     ("price", SFloat64 [FNaN; FFinite 5]);
     ("mileage", SFloat64 [FFinite 1000; FNaN])].

End Examples.

(** ** Currency parsing *)

Module Currency.
Import Py Pandas Eff Cleaning Examples.

(** C1, the code at a decorated price: with [regex=True] the pattern [$]
    is the end-of-string anchor, so the second [str.replace] removes
    nothing; [astype(float)] then raises on ["$12345"], the handler logs it,
    [price] is left as text and [mileage] is never reached ("na" included).
    Without the dollar sign the same value parses to 12345.0. *)
Theorem C1_dollar_sign_survives :
  re_sub "$" "" "$12,345" = Some "$12,345"
  /\ (exists d',
        result_of data_cleaning_numerical listings = Some d'
        /\ cells "price" d' = Some [VStr "$12345"; nan]
        /\ cells "mileage" d' = Some [VStr "1,000"; VStr "na"])
  /\ raised numerical_body (start (Some listings))
     = Some (ValueError "could not convert string to float")
  /\ to_float (VStr "12345") = Some (FFinite (12345 # 1))
  /\ (exists d',
        result_of data_cleaning_numerical plain_listings = Some d'
        /\ cells "price" d' = Some [VFloat (FFinite (12345 # 1)); nan]).
Proof.
  split; [reflexivity|]. split.
  - eexists. split; [vm_compute; reflexivity|]. split; reflexivity.
  - split; [vm_compute; reflexivity|]. split; [vm_compute; reflexivity|].
    eexists. split; [vm_compute; reflexivity|]. reflexivity.
Qed.

End Currency.

(** ** Witnesses and counterexamples for the cleaning stage *)

Module CleaningChecks.
Import Py Pandas Eff Cleaning Examples.

(** C7 as stated fails: the first run stops at the price ["na"] that the
    comma removal produced, the categorical stage then turns that cell into
    NaN, and the second run converts [price] and goes on to [mileage]. *)
Lemma C7_counterexample :
  result_of clean decorated_sentinel = Some decorated_once
  /\ result_of clean decorated_once = Some decorated_twice
  /\ decorated_once <> decorated_twice.
Proof.
  split; [vm_compute; reflexivity|]. split; [vm_compute; reflexivity|].
  discriminate.
Qed.

Lemma C7_witness :
  fst (numerical_body (start (Some plain_listings))) = Ret tt
  /\ exists d', result_of clean plain_listings = Some d'
                /\ result_of clean d' = Some d'.
Proof.
  split; [vm_compute; reflexivity|].
  eexists. split; [vm_compute; reflexivity|].
  apply (Idempotence.C7_idempotent_after_clean_run plain_listings);
    vm_compute; reflexivity.
Defined.

Lemma C3_witness :
  (forall c, In c ["transmission"; "color"] -> In c (columns listings))
  /\ exists d',
      result_of (data_clean_categorical ["transmission"; "color"]) listings = Some d'
      /\ cells "transmission" d' = Some [VStr "Other"; VStr "na"]
      /\ exists vs', cells "color" d' = Some vs'
                     /\ nth_error vs' 0 = Some (VStr "0")
                     /\ nth_error vs' 1 = Some nan.
Proof.
  assert (H : forall c, In c ["transmission"; "color"] -> In c (columns listings)).
  { intros c [<-|[<-|[]]]; simpl; auto 10. }
  split; [exact H|].
  destruct (Categorical.C3_sentinel_asymmetry listings ["transmission"; "color"] H)
    as [d' [Hr [Ht Ho]]].
  exists d'. split; [exact Hr|]. split.
  - apply (Ht (or_introl eq_refl) [VStr "0"; VStr "na"]). reflexivity.
  - destruct (Ho "color" [VStr "0"; VStr "na"]) as [vs' [Hc [_ Hn]]].
    + simpl. auto.
    + discriminate.
    + reflexivity.
    + exists vs'. split; [exact Hc|]. split.
      * now apply (Hn 0%nat).
      * now apply (Hn 1%nat).
Defined.

Lemma C10_witness :
  cells "transmission" listings = Some [VStr "0"; VStr "na"]
  /\ exists d' vs',
      result_of clean listings = Some d'
      /\ cells "transmission" d' = Some vs'
      /\ nth_error vs' 1 = Some (VStr "na").
Proof.
  split; [reflexivity|].
  destruct (Transmission.C10_transmission_keeps_other_values
              listings [VStr "0"; VStr "na"] eq_refl)
    as [_ [d' [vs' [Hr [Hc [_ [_ Hna]]]]]]].
  exists d', vs'. split; [exact Hr|]. split; [exact Hc|].
  now apply (Hna 1%nat).
Defined.

End CleaningChecks.

(** ** Binary64 rounding *)

Module Rounding.
Import Py Sklearn.

(** The ceiling of the product taken exactly. *)
Definition exact_ceiling (q : Q) (n : nat) : Z := Qceiling (q * inject_Z (Z.of_nat n)).

(** The float written 0.1, as [(0.1).as_integer_ratio()] gives it. *)
Example stored_tenth :
  Qred (binary64 (1 # 10)) = 3602879701896397 # 36028797018963968.
Proof. vm_compute. reflexivity. Qed.













End Rounding.

(** ** The split *)

Module Split.
Import Py Pandas Eff EffFacts Yaml Sklearn Preparation Rounding.
Local Open Scope list_scope.

(** A generator to run the split on: it rotates the positions by its
    state. *)
Definition rotate (k : nat) (l : list nat) : list nat := skipn k l ++ firstn k l.

Lemma rotating_is_permutation (st : Z) (n : nat) :
  Permutation (fst (rotate (Z.to_nat (st mod 7)) (seq 0 n), st + 1)) (seq 0 n).
Proof.
  simpl. unfold rotate. rewrite Permutation_app_comm. now rewrite firstn_skipn.
Qed.

Definition rotating : RandomState :=
  Build_RandomState (fun seed => seed)
    (fun st n => (rotate (Z.to_nat (st mod 7)) (seq 0 n), st + 1))
    rotating_is_permutation.


(** A frame of [n] rows with a numbered column. *)
Definition numbered (n : nat) : DataFrame :=
  mkFrame (map Z.of_nat (seq 0 n)) [("price", SInt64 (map Z.of_nat (seq 100 n)))].

(** *** Row selection *)






Lemma len_iloc idx d : len (iloc idx d) = length idx.
Proof. unfold len, iloc, take. simpl. apply length_map. Qed.

(** *** What the split computes *)

Section WithGenerator.
Context `{RandomState}.

(** The shuffled positions for a seed, and the two slices of them. *)
Definition shuffle (seed : Z) (n : nat) : list nat := fst (permutation (seeded seed) n).

Definition test_positions (q : Q) (seed : Z) (n : nat) : list nat :=
  firstn (ceil_fraction q n) (shuffle seed n).

Definition train_positions (q : Q) (seed : Z) (n : nat) : list nat :=
  firstn (n - ceil_fraction q n) (skipn (ceil_fraction q n) (shuffle seed n)).

Lemma sizes_valid (q : Q) n :
  (0 < q)%Q -> (q < 1)%Q -> (ceil_fraction q n < n)%nat ->
  validate_shuffle_split n (YFloat (FFinite q))
  = inr ((n - ceil_fraction q n)%nat, ceil_fraction q n).
Proof.
  intros H0 H1 Hn. unfold validate_shuffle_split.
  assert (E0 : Qle_bool q 0 = false).
  { destruct (Qle_bool q 0) eqn:E; auto. apply Qle_bool_iff in E.
    now apply Qlt_not_le in H0. }
  assert (E1 : Qle_bool 1 q = false).
  { destruct (Qle_bool 1 q) eqn:E; auto. apply Qle_bool_iff in E.
    now apply Qlt_not_le in H1. }
  rewrite E0, E1. simpl.
  destruct (Nat.eqb (n - ceil_fraction q n) 0) eqn:E; auto.
  apply Nat.eqb_eq in E. lia.
Qed.

Lemma split_run data (q : Q) seed w :
  (0 < q)%Q -> (q < 1)%Q -> 0 <= seed < 2 ^ 32 ->
  (ceil_fraction q (len data) < len data)%nat ->
  exists w',
    split_data data (YFloat (FFinite q)) (YInt seed) w
    = (Ret (iloc (train_positions q seed (len data)) data,
            iloc (test_positions q seed (len data)) data), w').
Proof.
  intros H0 H1 Hs Hn.
  unfold split_data, try_except, train_test_split.
  unfold bind at 1. simpl.
  unfold bind at 1. unfold bind at 1.
  rewrite (sizes_valid _ _ H0 H1 Hn). simpl.
  unfold bind at 1. unfold shuffled.
  assert (Er : ((0 <=? seed) && (seed <? 2 ^ 32))%bool = true).
  { apply andb_true_iff. split; [apply Z.leb_le | apply Z.ltb_lt]; lia. }
  change (2 ^ 32) with (Z.pow_pos 2 32) in Er.
  rewrite Er. simpl. eexists. reflexivity.
Qed.

Lemma shuffle_permutation seed n : Permutation (shuffle seed n) (seq 0 n).
Proof. apply permutation_spec. Qed.

Lemma shuffle_length seed n : length (shuffle seed n) = n.
Proof.
  rewrite (Permutation_length (shuffle_permutation seed n)). apply length_seq.
Qed.




End WithGenerator.


(** C5: with an integer seed the outcome of the split (the two frames, or
    the exit) is the same in every world: it depends on the frame, the
    fraction and the seed only, not on numpy's global generator, the log or
    the files. *)
Theorem C5_split_is_deterministic `{RandomState}
    (data : DataFrame) (test_size : yaml) (seed : Z) (w1 w2 : world) :
  fst (split_data data test_size (YInt seed) w1)
  = fst (split_data data test_size (YInt seed) w2).
Proof.
  unfold split_data, try_except, train_test_split.
  unfold bind at 1. simpl.
  unfold bind at 1. unfold bind at 1.
  unfold bind at 2. unfold bind at 2.
  destruct (validate_shuffle_split (len data) test_size) as [e|[n_train n_test]]; simpl;
    [reflexivity|].
  unfold bind. destruct ((0 <=? seed) && (seed <? Z.pow_pos 2 32))%bool; reflexivity.
Qed.

(** Without a seed the split draws from numpy's global generator, and two
    runs from different generator states differ. *)
Example unseeded_split_depends_on_the_world :
  fst (@split_data rotating (numbered 4) (YFloat (FFinite (1 # 4))) YNull
         (mkWorld None [] true [] 0))
  <> fst (@split_data rotating (numbered 4) (YFloat (FFinite (1 # 4))) YNull
            (mkWorld None [] true [] 1)).
Proof. vm_compute. discriminate. Qed.


End Split.

(** ** Checks of the split on concrete frames *)

Module SplitChecks.
Import Py Pandas Eff Yaml Sklearn Preparation Rounding Split.
Local Open Scope list_scope.





(** The rounding of the product shows in the counts.  The float written
    0.07 is stored a little above 7/100, and its product with 100 rounds to
    7.000000000000001: 8 test rows, where the exact product gives 7. *)
Example rounded_product_adds_a_row :
  exact_ceiling (7 # 100) 100 = 7
  /\ exists train test w',
      @split_data rotating (numbered 100) (YFloat (FFinite (7 # 100))) (YInt 42) (start None)
      = (Ret (train, test), w')
      /\ len test = 8%nat /\ len train = 92%nat.
Proof.
  split; [reflexivity|]. eexists _, _, _. split; [vm_compute; reflexivity|].
  split; reflexivity.
Qed.

(** The float written 0.10000000000000001 is stored as 0.1 is, and its
    product with 10 rounds to 1.0: 1 test row, where the exact product
    gives 2. *)
Example rounded_product_drops_a_row :
  exact_ceiling (10000000000000001 # 100000000000000000) 10 = 2
  /\ exists train test w',
      @split_data rotating (numbered 10)
        (YFloat (FFinite (10000000000000001 # 100000000000000000))) (YInt 42) (start None)
      = (Ret (train, test), w')
      /\ len test = 1%nat /\ len train = 9%nat.
Proof.
  split; [reflexivity|]. eexists _, _, _. split; [vm_compute; reflexivity|].
  split; reflexivity.
Qed.

End SplitChecks.

(** ** The configuration resource *)

Module Config.
Import Py Pandas Eff Yaml Sklearn Preparation.








End Config.

(** * Further properties of the two scripts *)

(** ** Reading the raw table and classifying the columns *)

Module Loading.
Import Py Pandas Eff EffFacts FrameFacts Cleaning Idempotence.
Local Open Scope list_scope.

(** Two worlds that differ in their logs only, the second log extending
    the first. *)
Definition only_logged (w w' : world) : Prop :=
  w_data w' = w_data w
  /\ w_writable w' = w_writable w
  /\ w_saved w' = w_saved w
  /\ w_rng w' = w_rng w
  /\ exists records, w_log w' = w_log w ++ records.

Lemma only_logged_refl w : only_logged w w.
Proof. repeat split. exists []. now rewrite app_nil_r. Qed.

Lemma only_logged_trans w1 w2 w3 :
  only_logged w1 w2 -> only_logged w2 w3 -> only_logged w1 w3.
Proof.
  intros (A1 & A2 & A3 & A4 & [l1 A5]) (B1 & B2 & B3 & B4 & [l2 B5]).
  repeat split; try congruence.
  exists (l1 ++ l2). now rewrite B5, A5, app_assoc.
Qed.

Lemma only_logged_record w r : only_logged w (with_record w r).
Proof. repeat split. now exists [r]. Qed.

(** What is in the file, if it can be read. *)
Definition table_of (path : table_file) : option DataFrame :=
  match path with Table d => Some d | _ => None end.

Lemma read_csv_run (path : table_file) (w : world) :
  exists w',
    read_csv path w = (Ret (table_of path), w')
    /\ w_saved w' = w_saved w /\ w_writable w' = w_writable w.
Proof.
  destruct path as [|e|d]; [|destruct e|]; eexists; repeat split.
Qed.

(** X1: [read_csv] never raises and never exits: it returns the table when
    the file holds one and None when the file is missing or unreadable
    (with an error record in the log), and it changes nothing but the
    log. *)
Theorem X1_read_csv_returns_table_or_none (path : table_file) (w : world) :
  exists w',
    read_csv path w = (Ret (table_of path), w')
    /\ only_logged w w'
    /\ (table_of path = None -> exists r, In r (w_log w') /\ r_level r = ERROR).
Proof.
  destruct path as [|e|d].
  - eexists. split; [reflexivity|]. split.
    + repeat split. simpl. rewrite <- app_assoc. eexists. reflexivity.
    + intros _. eexists. split; [apply in_or_app; right; now left | reflexivity].
  - destruct e; (eexists; split; [reflexivity|]; split;
      [ repeat split; simpl; rewrite <- app_assoc; eexists; reflexivity
      | intros _; eexists; split; [apply in_or_app; right; now left | reflexivity] ]).
  - eexists. split; [reflexivity|]. split.
    + repeat split. simpl. rewrite <- app_assoc. eexists. reflexivity.
    + discriminate.
Qed.

Lemma filter_split {A} (p : A -> bool) (l : list A) :
  Permutation (filter p l ++ filter (fun a => negb (p a)) l) l.
Proof.
  induction l as [|a l IH]; simpl; auto.
  destruct (p a); simpl.
  - now constructor.
  - rewrite <- Permutation_middle. now constructor.
Qed.

Lemma object_labels_spec d :
  object_labels d = filter (is_object_column d) (columns d).
Proof.
  unfold object_labels. apply filter_ext_in. intros c Hc.
  unfold numeric_labels. rewrite existsb_filter by exact Hc.
  apply negb_involutive.
Qed.

(** X2: on a frame, [divide_columns] returns the labels of the columns
    whose dtype is not object and the labels of the object columns, each
    list in column order; the two lists together are the column labels up
    to order and no label is in both; the frame is not touched. *)
Theorem X2_divide_columns_partitions (d : DataFrame) (w : world) :
  w_data w = Some d ->
  exists nums cats w',
    divide_columns w = (Ret (nums, cats), w')
    /\ only_logged w w'
    /\ nums = filter (fun c => negb (is_object_column d c)) (columns d)
    /\ cats = filter (is_object_column d) (columns d)
    /\ Permutation (cats ++ nums) (columns d)
    /\ (forall c, In c nums -> ~ In c cats).
Proof.
  intros Hd.
  exists (numeric_labels d), (object_labels d).
  unfold divide_columns, try_except, divide_body.
  unfold bind at 1. unfold the_frame at 1. rewrite Hd.
  unfold bind at 1. rewrite (run_comprehension_dtype w d (columns d) Hd) by auto.
  unfold bind at 1. unfold the_frame at 1. rewrite Hd.
  unfold bind at 1. rewrite run_comprehension_pure.
  eexists. split; [reflexivity|]. split; [apply only_logged_record|].
  split; [reflexivity|]. split; [apply object_labels_spec|]. split.
  - rewrite object_labels_spec. unfold numeric_labels. apply filter_split.
  - intros c Hn Hc. rewrite object_labels_spec in Hc.
    apply filter_In in Hn as [_ Hn]. apply filter_In in Hc as [_ Hc].
    rewrite Hc in Hn. discriminate.
Qed.

End Loading.

(** ** What an error-free numeric normalization computes *)

Module NumericValues.
Import Py Pandas Eff EffFacts FrameFacts Cleaning Invariants IndexColumn.
Import Categorical NumericSuccess.
Local Open Scope list_scope.

(** The four statements of the loop body, on the column itself. *)
Definition column_pipeline (s : Series) : exn + Series :=
  match str_replace "," "" (replace "na" nan s) with
  | inl e => inl e
  | inr t2 =>
      match str_replace "$" "" t2 with
      | inl e => inl e
      | inr t3 => astype_float t3
      end
  end.

(** The statement for [date], on the column itself. *)
Definition date_pipeline (s : Series) : exn + Series :=
  astype_float (replace "na" nan s).

Lemma clean_column_pipeline col w w' :
  clean_column col w = (Ret tt, w') ->
  exists d d' s s',
    w_data w = Some d /\ w_data w' = Some d'
    /\ lookup col (df_columns d) = Some s
    /\ column_pipeline s = inr s'
    /\ lookup col (df_columns d') = Some s'
    /\ rewritten col d d'.
Proof.
  unfold clean_column. intros H.
  apply (round_ret col (fun s => inr (replace "na" nan s))) in H
    as (d & s1 & t1 & w1 & Hd & Hl1 & Hf1 & Hd1 & H).
  apply round_ret in H as (d1 & s2 & t2 & w2 & Hd1' & Hl2 & Hf2 & Hd2 & H).
  apply round_ret in H as (d2 & s3 & t3 & w3 & Hd2' & Hl3 & Hf3 & Hd3 & H).
  apply last_round_ret in H as (d3 & s4 & t4 & Hd3' & Hl4 & Hf4 & Hd4).
  assert (d1 = setitem col t1 d) by congruence. subst d1.
  assert (d2 = setitem col t2 (setitem col t1 d)) by congruence. subst d2.
  assert (d3 = setitem col t3 (setitem col t2 (setitem col t1 d))) by congruence.
  subst d3.
  simpl in Hl2, Hl3, Hl4. rewrite lookup_assign_same in Hl2, Hl3, Hl4.
  inversion Hl2; subst s2. inversion Hl3; subst s3. inversion Hl4; subst s4.
  inversion Hf1; subst t1.
  exists d, (setitem col t4 (setitem col t3 (setitem col t2
               (setitem col (replace "na" nan s1) d)))), s1, t4.
  repeat split; auto.
  - unfold column_pipeline. now rewrite Hf2, Hf3.
  - simpl. apply lookup_assign_same.
  - unfold columns. simpl. rewrite !labels_assign; auto;
      try (rewrite ?lookup_assign_same; discriminate); congruence.
  - intros c Hc. simpl. now rewrite !lookup_assign_other.
Qed.

(** *** Cell by cell *)

Lemma floats_of_cells vs : forall xs,
  floats_of vs = inr xs ->
  length xs = length vs
  /\ forall i v, nth_error vs i = Some v ->
                 exists x, to_float v = Some x /\ nth_error xs i = Some x.
Proof.
  induction vs as [|v vs IH]; simpl; intros xs H.
  - inversion H. split; auto. intros [|i] u; discriminate.
  - destruct (to_float v) as [x|] eqn:Ev; [|discriminate].
    destruct (floats_of vs) as [e|r] eqn:Er; [discriminate|].
    inversion H; subst xs. destruct (IH r eq_refl) as [Hl Hn].
    split; [simpl; congruence|].
    intros [|i] u Hu; simpl in *.
    + inversion Hu; subst u. now exists x.
    + now apply Hn.
Qed.

Lemma astype_float_cells s s' :
  astype_float s = inr s' ->
  exists xs, s' = SFloat64 xs
    /\ length xs = length (s_values s)
    /\ forall i v, nth_error (s_values s) i = Some v ->
                   exists x, to_float v = Some x /\ nth_error xs i = Some x.
Proof.
  intros H.
  assert (G : forall xs, floats_of (s_values s) = inr xs ->
              length xs = length (s_values s)
              /\ forall i v, nth_error (s_values s) i = Some v ->
                   exists x, to_float v = Some x /\ nth_error xs i = Some x).
  { intros xs. apply floats_of_cells. }
  unfold astype_float in H. destruct s as [vs|xs|zs|bs].
  - destruct (floats_of (s_values (SObject vs))) as [e|l]; inversion H.
    exists l. split; auto.
  - inversion H. exists xs. simpl. split; auto. split; [now rewrite length_map|].
    intros i v Hv. rewrite nth_error_map in Hv.
    destruct (nth_error xs i) as [x|]; inversion Hv. now exists x.
  - destruct (floats_of (s_values (SInt64 zs))) as [e|l]; inversion H.
    exists l. split; auto.
  - destruct (floats_of (s_values (SBool bs))) as [e|l]; inversion H.
    exists l. split; auto.
Qed.

(** Replacing the sentinel keeps every other string where it is. *)
Lemma replace_keeps_strings old new s i t :
  nth_error (s_values s) i = Some (VStr t) -> t <> old ->
  nth_error (s_values (replace old new s)) i = Some (VStr t).
Proof.
  intros Hn Hne. destruct s as [vs|xs|zs|bs]; simpl in *; auto.
  destruct (existsb (value_is old) vs) eqn:E; auto.
  apply convert_keeps; [|now left].
  rewrite nth_error_map, Hn. simpl. unfold subst. simpl.
  apply String.eqb_neq in Hne. now rewrite Hne.
Qed.

Lemma length_replace old new s :
  length (s_values (replace old new s)) = length (s_values s).
Proof.
  destruct s as [vs|xs|zs|bs]; simpl; auto.
  destruct (existsb (value_is old) vs); auto.
  now rewrite length_convert, length_map.
Qed.

Lemma str_replace_cells pat repl s s' :
  str_replace pat repl s = inr s' ->
  exists f, (forall x, re_sub pat repl x = Some (f x))
    /\ s_values s' = map (str_map f) (s_values s).
Proof.
  unfold str_replace. destruct (str_accessor s); [discriminate|].
  unfold re_sub.
  destruct (compile1 pat) eqn:Ec; intros H; inversion H; simpl;
    eexists; (split; [intros x; reflexivity | reflexivity]).
Qed.

Lemma sub_end_nothing s : sub_end "" s = s.
Proof.
  induction s as [|c s IH]; simpl; auto.
  destruct s as [|c' s'].
  - now destruct (Ascii.eqb c newline).
  - now rewrite IH.
Qed.

Lemma nan_cell_replaced s i :
  nth_error (s_values s) i = Some nan ->
  nth_error (s_values (replace "na" nan s)) i = Some nan.
Proof.
  intros Hn. destruct s as [vs|xs|zs|bs]; simpl in *; auto.
  destruct (existsb (value_is "na") vs) eqn:E; auto.
  apply convert_keeps; [|now right].
  now rewrite nth_error_map, Hn.
Qed.

(** The loop body on a column: a text cell other than the sentinel ends
    as the float its text denotes once the commas are gone, the sentinel and
    NaN end as NaN. *)
Lemma column_pipeline_cells s s' :
  column_pipeline s = inr s' ->
  exists xs, s' = SFloat64 xs
    /\ length xs = length (s_values s)
    /\ forall i,
        (nth_error (s_values s) i = Some (VStr "na") -> nth_error xs i = Some FNaN)
        /\ (nth_error (s_values s) i = Some nan -> nth_error xs i = Some FNaN)
        /\ (forall t, nth_error (s_values s) i = Some (VStr t) -> t <> "na" ->
                      exists x, float_of_string (sub_lit "," "" t) = Some x
                                /\ nth_error xs i = Some x).
Proof.
  unfold column_pipeline. intros H.
  destruct (str_replace "," "" (replace "na" nan s)) as [e|t2] eqn:E2; [discriminate|].
  destruct (str_replace "$" "" t2) as [e|t3] eqn:E3; [discriminate|].
  destruct (str_replace_cells _ _ _ _ E2) as [f2 [Hf2 Hv2]].
  destruct (str_replace_cells _ _ _ _ E3) as [f3 [Hf3 Hv3]].
  assert (F2 : forall x, f2 x = sub_lit "," "" x).
  { intros x. specialize (Hf2 x). injection Hf2 as H2. now symmetry. }
  assert (F3 : forall x, f3 x = x).
  { intros x. specialize (Hf3 x). injection Hf3 as H3. rewrite <- H3.
    apply sub_end_nothing. }
  destruct (astype_float_cells _ _ H) as [xs [-> [Hl Hc]]].
  exists xs. split; auto. split.
  - now rewrite Hl, Hv3, length_map, Hv2, length_map, length_replace.
  - assert (Hnan : forall i, nth_error (s_values (replace "na" nan s)) i = Some nan ->
                             nth_error xs i = Some FNaN).
    { intros i Hi. destruct (Hc i nan) as [x [Hx Hn]].
      - now rewrite Hv3, nth_error_map, Hv2, nth_error_map, Hi.
      - inversion Hx; subst x. exact Hn. }
    intros i. split; [|split].
    + intros Hi. apply Hnan. now apply replace_na_cells.
    + intros Hi. apply Hnan. now apply nan_cell_replaced.
    + intros t Hi Hne.
      destruct (Hc i (VStr (sub_lit "," "" t))) as [x [Hx Hn]].
      * rewrite Hv3, nth_error_map, Hv2, nth_error_map.
        rewrite (replace_keeps_strings "na" nan s i t Hi Hne). simpl.
        now rewrite F3, F2.
      * exists x. split; auto.
Qed.

Lemma date_pipeline_cells s s' :
  date_pipeline s = inr s' ->
  exists xs, s' = SFloat64 xs
    /\ length xs = length (s_values s)
    /\ forall i,
        (nth_error (s_values s) i = Some (VStr "na") -> nth_error xs i = Some FNaN)
        /\ (nth_error (s_values s) i = Some nan -> nth_error xs i = Some FNaN)
        /\ (forall t, nth_error (s_values s) i = Some (VStr t) -> t <> "na" ->
                      exists x, float_of_string t = Some x /\ nth_error xs i = Some x).
Proof.
  unfold date_pipeline. intros H.
  destruct (astype_float_cells _ _ H) as [xs [-> [Hl Hc]]].
  exists xs. split; auto. split; [now rewrite Hl, length_replace|].
  assert (Hnan : forall i, nth_error (s_values (replace "na" nan s)) i = Some nan ->
                           nth_error xs i = Some FNaN).
  { intros i Hi. destruct (Hc i nan Hi) as [x [Hx Hn]]. now inversion Hx; subst x. }
  intros i. split; [|split].
  - intros Hi. apply Hnan. now apply replace_na_cells.
  - intros Hi. apply Hnan. now apply nan_cell_replaced.
  - intros t Hi Hne.
    destruct (Hc i (VStr t)) as [x [Hx Hn]].
    + now apply replace_keeps_strings.
    + now exists x.
Qed.

(** What the conversions leave when they run through, column by column. *)
Lemma convert_columns_values w w' d :
  w_data w = Some d ->
  convert_columns w = (Ret tt, w') ->
  exists d',
    w_data w' = Some d'
    /\ (exists s s', lookup "date" (df_columns d) = Some s
                     /\ date_pipeline s = inr s'
                     /\ lookup "date" (df_columns d') = Some s')
    /\ (forall col, col = "price" \/ col = "mileage" ->
        exists s s', lookup col (df_columns d) = Some s
                     /\ column_pipeline s = inr s'
                     /\ lookup col (df_columns d') = Some s').
Proof.
  intros Hd H. unfold convert_columns in H.
  apply round_ret in H as (d0 & s & s' & w1 & Hd0 & Hl & Hf & Hd1 & H).
  assert (d0 = d) by congruence. subst d0.
  apply bind_ret_inv in H as (u & w2 & H & Hlog).
  simpl in H.
  apply bind_ret_inv in H as (u1 & w3 & Hp & H).
  apply bind_ret_inv in H as (u2 & w4 & Hm & H).
  destruct u1, u2. inversion H; subst w4. inversion Hlog; subst w'.
  apply clean_column_pipeline in Hp
    as (d1 & d2 & sp & sp' & Hd1' & Hd2 & Hlp & Hfp & Hlp' & Hrp).
  apply clean_column_pipeline in Hm
    as (d2' & d3 & sm & sm' & Hd2' & Hd3 & Hlm & Hfm & Hlm' & Hrm).
  assert (d1 = setitem "date" s' d) by congruence. subst d1.
  assert (d2' = d2) by congruence. subst d2'.
  destruct Hrp as [_ [_ Hfp']]. destruct Hrm as [_ [_ Hfm']].
  exists d3. simpl. split; [exact Hd3|]. split.
  - exists s, s'. repeat split; auto.
    rewrite Hfm', Hfp' by discriminate. simpl. apply lookup_assign_same.
  - intros col [-> | ->].
    + exists sp, sp'. repeat split; auto.
      * simpl in Hlp. now rewrite lookup_assign_other in Hlp by discriminate.
      * now rewrite Hfm' by discriminate.
    + exists sm, sm'. repeat split; auto.
      rewrite Hfp' in Hlm by discriminate. simpl in Hlm.
      now rewrite lookup_assign_other in Hlm by discriminate.
Qed.

Lemma numerical_values d :
  fst (numerical_body (start (Some d))) = Ret tt ->
  exists d',
    result_of data_cleaning_numerical d = Some d'
    /\ (exists s s', lookup "date" (df_columns d) = Some s
                     /\ date_pipeline s = inr s'
                     /\ lookup "date" (df_columns d') = Some s')
    /\ (forall col, col = "price" \/ col = "mileage" ->
        exists s s', lookup col (df_columns d) = Some s
                     /\ column_pipeline s = inr s'
                     /\ lookup col (df_columns d') = Some s').
Proof.
  intros H. unfold result_of, data_cleaning_numerical. rewrite try_log_data.
  destruct (numerical_body_start (start (Some d)) d eq_refl) as [w2 [E Hw2]].
  rewrite E in *.
  destruct (convert_columns w2) as [o w3] eqn:Ec. simpl in H. subst o.
  destruct (convert_columns_values w2 w3 _ Hw2 Ec) as (d' & Hd' & Hdate & Hcols).
  exists d'. split; [exact Hd'|]. split.
  - destruct Hdate as (s & s' & Hl & Hf & Hl'). exists s, s'.
    rewrite lookup_without_index in Hl by discriminate. auto.
  - intros col Hcol. destruct (Hcols col Hcol) as (s & s' & Hl & Hf & Hl').
    exists s, s'. rewrite lookup_without_index in Hl; auto.
    destruct Hcol as [-> | ->]; discriminate.
Qed.

(** The cells [vs] parsed into the floats [xs]: the sentinel and NaN
    become NaN, any other text becomes the float that [clean_text] of it
    denotes. *)
Definition parsed (clean_text : string -> string) (vs : list value) (xs : list float)
  : Prop :=
  length xs = length vs
  /\ forall i,
      (nth_error vs i = Some (VStr "na") -> nth_error xs i = Some FNaN)
      /\ (nth_error vs i = Some nan -> nth_error xs i = Some FNaN)
      /\ (forall t, nth_error vs i = Some (VStr t) -> t <> "na" ->
                    exists x, float_of_string (clean_text t) = Some x
                              /\ nth_error xs i = Some x).

(** X3: when the numeric normalizer raises no error, [price] and [mileage]
    had a column each and end as float columns of the same length: a cell
    ["na"] or NaN is NaN, and any other text cell is the float denoted by
    its text with the commas removed. *)
Theorem X3_currency_columns_parsed (d : DataFrame) (col : string) :
  fst (numerical_body (start (Some d))) = Ret tt ->
  col = "price" \/ col = "mileage" ->
  exists d' vs xs,
    result_of data_cleaning_numerical d = Some d'
    /\ cells col d = Some vs
    /\ lookup col (df_columns d') = Some (SFloat64 xs)
    /\ parsed (sub_lit "," "") vs xs.
Proof.
  intros Hok Hcol.
  destruct (numerical_values d Hok) as (d' & Hr & _ & Hcols).
  destruct (Hcols col Hcol) as (s & s' & Hl & Hf & Hl').
  destruct (column_pipeline_cells _ _ Hf) as (xs & -> & Hlen & Hc).
  exists d', (s_values s), xs. unfold cells. rewrite Hl.
  repeat split; auto; apply Hc.
Qed.

(** X4: when the numeric normalizer raises no error, [date] ends as a
    float column of the same length: a cell ["na"] or NaN is NaN, and any
    other text cell is the float its text denotes. *)
Theorem X4_date_column_parsed (d : DataFrame) :
  fst (numerical_body (start (Some d))) = Ret tt ->
  exists d' vs xs,
    result_of data_cleaning_numerical d = Some d'
    /\ cells "date" d = Some vs
    /\ lookup "date" (df_columns d') = Some (SFloat64 xs)
    /\ parsed (fun t => t) vs xs.
Proof.
  intros Hok.
  destruct (numerical_values d Hok) as (d' & Hr & (s & s' & Hl & Hf & Hl') & _).
  destruct (date_pipeline_cells _ _ Hf) as (xs & -> & Hlen & Hc).
  exists d', (s_values s), xs. unfold cells. rewrite Hl.
  repeat split; auto; apply Hc.
Qed.

End NumericValues.

(** ** What an error in the numeric normalizer leaves behind *)

Module NumericPartial.
Import Py Pandas Eff EffFacts FrameFacts Cleaning Invariants IndexColumn.
Import Categorical NumericSuccess NumericValues.
Local Open Scope list_scope.

(** [date] is missing, or its conversion raises. *)
Definition date_fails (d : DataFrame) : Prop :=
  match lookup "date" (df_columns d) with
  | None => True
  | Some s => exists e, date_pipeline s = inl e
  end.

(** X5: [date] comes first: when it is missing or does not convert, the
    normalizer stops there, and what it returns is its input without the
    index column, [price] and [mileage] unconverted. *)
Theorem X5_date_failure_stops_everything (d : DataFrame) :
  date_fails d ->
  result_of data_cleaning_numerical d = Some (without_index d)
  /\ exists e, raised numerical_body (start (Some d)) = Some e.
Proof.
  intros Hf. unfold date_fails in Hf.
  rewrite <- (lookup_without_index d "date") in Hf by discriminate.
  unfold result_of, data_cleaning_numerical, raised. rewrite try_log_data.
  destruct (numerical_body_start (start (Some d)) d eq_refl) as [w2 [E Hw2]].
  rewrite E. unfold convert_columns.
  pose proof (run_get w2 _ "date" Hw2) as Hg.
  destruct (lookup "date" (df_columns (without_index d))) as [s|].
  - destruct Hf as [e He]. unfold date_pipeline in He.
    rewrite (run_bind _ Hg), He. simpl. split; [exact Hw2 | now exists e].
  - rewrite (run_bind_raise _ Hg). simpl. split; [exact Hw2 | eauto].
Qed.

(** X6: work done is kept: once [date] has converted, the frame that is
    returned holds the converted column, whether or not [price] and
    [mileage] convert after it. *)
Theorem X6_converted_date_is_kept (d : DataFrame) (s s' : Series) :
  lookup "date" (df_columns d) = Some s ->
  date_pipeline s = inr s' ->
  exists d', result_of data_cleaning_numerical d = Some d'
             /\ lookup "date" (df_columns d') = Some s'.
Proof.
  intros Hl Hf.
  rewrite <- (lookup_without_index d "date") in Hl by discriminate.
  unfold result_of, data_cleaning_numerical. rewrite try_log_data.
  destruct (numerical_body_start (start (Some d)) d eq_refl) as [w2 [E Hw2]].
  rewrite E. unfold convert_columns.
  pose proof (run_get w2 _ "date" Hw2) as Hg. rewrite Hl in Hg.
  unfold date_pipeline in Hf.
  rewrite (run_bind _ Hg), Hf.
  rewrite (run_bind _ (eq_refl : lift (inr s') w2 = (Ret s', w2))).
  rewrite (run_bind _ (run_set w2 _ "date" s' Hw2)).
  set (I := fun d0 : DataFrame => lookup "date" (df_columns d0) = Some s').
  assert (Hst : forall col, col <> "date" -> stable I col).
  { intros col Hne d0 x Hd0 _. unfold I in *. simpl.
    rewrite lookup_assign_other; auto. }
  apply (preserves_bind (holds I)).
  - simpl. apply preserves_bind; [apply preserves_clean_column, Hst; discriminate|].
    intros _. apply preserves_bind; [apply preserves_clean_column, Hst; discriminate|].
    intros _. apply preserves_ret.
  - intros _. apply preserves_log_info.
  - eexists. split; [reflexivity|]. unfold I. simpl. apply lookup_assign_same.
Qed.

Lemma replace_keeps_others s i v :
  nth_error (s_values s) i = Some v -> is_str v = false ->
  exists v', nth_error (s_values (replace "na" nan s)) i = Some v' /\ is_str v' = false.
Proof.
  intros Hn Hv. destruct s as [vs|xs|zs|bs]; simpl in *; eauto.
  destruct (existsb (value_is "na") vs) eqn:E; eauto.
  assert (Hs : nth_error (map (subst "na" nan) vs) i = Some v).
  { rewrite nth_error_map, Hn. simpl. unfold subst.
    destruct v; simpl in *; auto. discriminate. }
  unfold convert.
  destruct (existsb is_str _); [eauto|].
  destruct (existsb is_bool _).
  - destruct (forallb is_bool _); [|eauto]. simpl.
    rewrite nth_error_map, nth_error_map, Hs. simpl. eauto.
  - destruct (forallb is_int _); simpl;
      rewrite nth_error_map, nth_error_map, Hs; simpl; eauto.
Qed.

(** X7: numbers do not survive the currency columns: when the numeric
    normalizer raises no error, every cell of [price] and [mileage] that was
    not text is NaN in the result, because [.str.replace] answers NaN for
    it. *)
Theorem X7_non_text_currency_cells_are_lost (d : DataFrame) (col : string) :
  fst (numerical_body (start (Some d))) = Ret tt ->
  col = "price" \/ col = "mileage" ->
  exists d' vs xs,
    result_of data_cleaning_numerical d = Some d'
    /\ cells col d = Some vs
    /\ lookup col (df_columns d') = Some (SFloat64 xs)
    /\ forall i v, nth_error vs i = Some v -> is_str v = false ->
                   nth_error xs i = Some FNaN.
Proof.
  intros Hok Hcol.
  destruct (numerical_values d Hok) as (d' & Hr & _ & Hcols).
  destruct (Hcols col Hcol) as (s & s' & Hl & Hf & Hl').
  unfold column_pipeline in Hf.
  destruct (str_replace "," "" (replace "na" nan s)) as [e|t2] eqn:E2; [discriminate|].
  destruct (str_replace "$" "" t2) as [e|t3] eqn:E3; [discriminate|].
  destruct (str_replace_cells _ _ _ _ E2) as [f2 [_ Hv2]].
  destruct (str_replace_cells _ _ _ _ E3) as [f3 [_ Hv3]].
  destruct (astype_float_cells _ _ Hf) as [xs [-> [_ Hc]]].
  exists d', (s_values s), xs. unfold cells. rewrite Hl.
  repeat split; auto.
  intros i v Hi Hv.
  destruct (replace_keeps_others s i v Hi Hv) as [v' [Hi' Hv']].
  destruct (Hc i nan) as [x [Hx Hn]].
  - rewrite Hv3, nth_error_map, Hv2, nth_error_map, Hi'. simpl.
    destruct v'; simpl in *; try discriminate; reflexivity.
  - inversion Hx; subst x. exact Hn.
Qed.

End NumericPartial.

(** ** More on the categorical normalizer *)

Module CategoricalMore.
Import Py Pandas Eff EffFacts FrameFacts Cleaning Invariants IndexColumn.
Import Transmission Categorical NumericSuccess Idempotence.
Local Open Scope list_scope.

Lemma for_each_app {A} (l1 l2 : list A) (body : A -> M unit) w w1 :
  for_each l1 body w = (Ret tt, w1) ->
  for_each (l1 ++ l2) body w = for_each l2 body w1.
Proof.
  revert w. induction l1 as [|x l1 IH]; intros w H; simpl in *.
  - now inversion H.
  - apply bind_ret_inv in H as (u & w2 & Hx & H).
    rewrite (run_bind _ Hx). now apply IH.
Qed.

Lemma not_in_labels_lookup name d :
  ~ In name (columns d) -> lookup name (df_columns d) = None.
Proof.
  intros H. destruct (lookup name (df_columns d)) eqn:E; auto.
  exfalso. apply H, lookup_in_labels. congruence.
Qed.

(** X8: a label that is not a column of the frame stops the loop with a
    [KeyError]: the columns listed before it are cleaned, the columns listed
    after it are not, and the result is that of cleaning the columns before
    it alone. *)
Theorem X8_missing_column_stops_the_loop
    (d : DataFrame) (before after : list string) (missing : string) :
  (forall c, In c before -> In c (columns d)) ->
  ~ In missing (columns d) ->
  result_of (data_clean_categorical (before ++ missing :: after)) d
  = result_of (data_clean_categorical before) d
  /\ raised (categorical_body (before ++ missing :: after)) (start (Some d))
     = Some (KeyError missing).
Proof.
  intros Hin Hmiss.
  rewrite (categorical_result d before Hin).
  set (d1 := fold_left cat_step before d).
  assert (Hrun : forall w, w_data w = Some d ->
            for_each (before ++ missing :: after) clean_categorical_column w
            = (Raise (KeyError missing), with_data w (Some d1))).
  { intros w Hw.
    rewrite (for_each_app _ (missing :: after) _ _ _ (run_columns before w d Hw Hin)).
    simpl. apply run_bind_raise.
    assert (Hl : lookup missing (df_columns d1) = None).
    { apply not_in_labels_lookup. unfold d1. now rewrite columns_cleaned. }
    pose proof (run_get (with_data w (Some d1)) d1 missing eq_refl) as Hg.
    rewrite Hl in Hg. unfold clean_categorical_column.
    destruct (String.eqb missing "transmission"); now apply run_bind_raise. }
  split.
  - unfold result_of, data_clean_categorical. rewrite try_log_data.
    unfold categorical_body. unfold bind at 1. simpl.
    unfold bind at 1. now rewrite Hrun.
  - unfold raised, categorical_body. unfold bind at 1. simpl.
    unfold bind at 1. now rewrite Hrun.
Qed.

(** X9: the categorical normalizer is idempotent: on a list of columns of
    the frame, its result is a fixed point of it. *)
Theorem X9_categorical_normalizer_idempotent (d : DataFrame) (cats : list string) :
  (forall c, In c cats -> In c (columns d)) ->
  exists d', result_of (data_clean_categorical cats) d = Some d'
             /\ result_of (data_clean_categorical cats) d' = Some d'.
Proof.
  intros Hin. exists (fold_left cat_step cats d).
  split; [now apply categorical_result|].
  rewrite categorical_result by (intros c Hc; rewrite columns_cleaned; auto).
  f_equal. apply fold_fixed. intros c Hc.
  pose proof (lookup_cleaned c cats d) as E2.
  set (d' := fold_left cat_step cats d) in *. unfold cat_step.
  destruct (lookup c (df_columns d')) as [s|] eqn:E; auto.
  assert (Hfix : cat_fn c s = s).
  { rewrite (existsb_in _ _ Hc) in E2.
    destruct (lookup c (df_columns d)) as [s0|]; [|discriminate].
    simpl in E2. injection E2 as ->. apply cat_fn_idempotent. }
  rewrite Hfix. now apply setitem_known.
Qed.

Lemma preserves_for_each_in {A} I (l : list A) (body : A -> M unit) :
  (forall x, In x l -> preserves I (body x)) -> preserves I (for_each l body).
Proof.
  induction l as [|x l IH]; intros Hb; simpl.
  - apply preserves_ret.
  - apply preserves_bind; [apply Hb; now left | intros _].
    apply IH. intros y Hy. apply Hb. now right.
Qed.

(** [d'] has the row labels and the column labels of [d], and the columns
    of [d] that are not listed. *)
Definition untouched_outside (cats : list string) (d d' : DataFrame) : Prop :=
  df_index d' = df_index d
  /\ columns d' = columns d
  /\ forall c, ~ In c cats -> lookup c (df_columns d') = lookup c (df_columns d).

Lemma categorical_untouched_outside cats d :
  preserves (holds (untouched_outside cats d)) (data_clean_categorical cats).
Proof.
  unfold data_clean_categorical.
  apply preserves_try; [| intros e; apply preserves_log_error].
  unfold categorical_body.
  apply preserves_bind; [apply preserves_log_info | intros _].
  apply preserves_bind; [| intros _; apply preserves_log_info].
  apply preserves_for_each_in. intros c Hc.
  assert (Hm : forall f, preserves (holds (untouched_outside cats d))
                           (bind (get c) (fun s => set c (f s)))).
  { intros f. apply preserves_modify. intros d' s (Hi & Hl & Hf) Hs.
    repeat split; simpl; auto.
    - unfold columns in *. simpl. rewrite labels_assign; auto. congruence.
    - intros c' Hc'. rewrite lookup_assign_other; auto. congruence. }
  unfold clean_categorical_column.
  destruct (String.eqb c "transmission"); apply Hm.
Qed.

(** X10: whatever list it is given, and also when it stops on an error,
    the categorical normalizer keeps the row labels and the column labels
    and leaves every column that is not listed as it was. *)
Theorem X10_categorical_normalizer_frame (d : DataFrame) (cats : list string) :
  exists d',
    result_of (data_clean_categorical cats) d = Some d'
    /\ df_index d' = df_index d
    /\ columns d' = columns d
    /\ forall c, ~ In c cats -> lookup c (df_columns d') = lookup c (df_columns d).
Proof.
  apply (result_of_holds (untouched_outside cats d)).
  - apply categorical_untouched_outside.
  - repeat split.
Qed.

Lemma existsb_typed {A} (inj : A -> value) old (l : list A) :
  (forall a, value_is old (inj a) = false) ->
  existsb (value_is old) (map inj l) = false.
Proof.
  intros H. induction l as [|a l IH]; simpl; auto. now rewrite H, IH.
Qed.

(** A column the substitution leaves alone does not hold the value. *)
Lemma replace_fixed_absent old new s :
  value_is old new = false ->
  replace old new s = s ->
  existsb (value_is old) (s_values s) = false.
Proof.
  intros Hn H. destruct s as [vs|xs|zs|bs]; simpl in *;
    try (apply existsb_typed; reflexivity).
  destruct (existsb (value_is old) vs) eqn:E; auto.
  exfalso.
  assert (Hv : map (subst old new) vs = vs).
  { revert H. unfold convert.
    destruct (existsb is_str _); [intros H; congruence|].
    destruct (existsb is_bool _).
    - destruct (forallb is_bool _); [discriminate | intros H; congruence].
    - destruct (forallb is_int _); discriminate. }
  pose proof (not_value_is_after old new vs Hn) as Hab.
  rewrite Hv in Hab. congruence.
Qed.

Lemma absent_not_in old vs :
  existsb (value_is old) vs = false -> ~ In (VStr old) vs.
Proof.
  intros H Hin.
  assert (existsb (value_is old) vs = true).
  { apply existsb_exists. exists (VStr old). split; auto. simpl. apply String.eqb_refl. }
  congruence.
Qed.

(** X11: the frame the cleaning pipeline leaves holds no cell ["0"] in
    [transmission] and no cell ["na"] in any other column, the numeric
    columns included, whether or not the numeric normalizer failed. *)
Theorem X11_pipeline_leaves_no_sentinel (d : DataFrame) :
  exists d',
    result_of clean d = Some d'
    /\ forall c vs, cells c d' = Some vs ->
                    (c = "transmission" -> ~ In (VStr "0") vs)
                    /\ (c <> "transmission" -> ~ In (VStr "na") vs).
Proof.
  destruct (numerical_keeps d) as [d1 [H1 _]].
  exists (fold_left cat_step (object_labels d1) d1).
  split; [unfold result_of in *; now apply clean_data|].
  intros c vs Hc. unfold cells in Hc.
  destruct (lookup c (df_columns (fold_left cat_step (object_labels d1) d1)))
    as [s|] eqn:E; [|discriminate].
  inversion Hc; subst vs.
  pose proof (cleaned_fixed _ _ _ E) as Hfix. unfold cat_fn in Hfix.
  split.
  - intros ->. simpl in Hfix. apply absent_not_in.
    now apply (replace_fixed_absent "0" (VStr "Other")).
  - intros Hne. apply String.eqb_neq in Hne. rewrite Hne in Hfix.
    apply absent_not_in. now apply (replace_fixed_absent "na" nan).
Qed.

End CategoricalMore.

(** ** Cleaning drops no row *)

Module RowCount.
Import Py Pandas Eff EffFacts FrameFacts Cleaning Invariants IndexColumn.
Import Categorical NumericSuccess NumericValues.
Local Open Scope list_scope.

(** The frame has the row labels it started with and one cell per row in
    every column. *)
Definition same_rows (index : list Z) (d : DataFrame) : Prop :=
  df_index d = index /\ well_formed d.

Lemma lookup_in name cs s : lookup name cs = Some s -> In (name, s) cs.
Proof.
  induction cs as [|[n x] cs IH]; simpl; [discriminate|].
  destruct (String.eqb n name) eqn:E.
  - apply String.eqb_eq in E. intros H. inversion H. subst. now left.
  - intros H. right. now apply IH.
Qed.

Lemma forall_assign (P : string * Series -> Prop) name s cs :
  Forall P cs -> (forall n, P (n, s)) -> Forall P (assign name s cs).
Proof.
  intros Hcs Hs. induction Hcs as [|[n x] cs Hx Hcs IH]; simpl.
  - constructor; auto.
  - destruct (String.eqb n name); constructor; auto.
Qed.

(** Writing a column as long as the one it replaces keeps the rows. *)
Lemma same_rows_setitem index d col s s' :
  same_rows index d ->
  lookup col (df_columns d) = Some s ->
  length (s_values s') = length (s_values s) ->
  same_rows index (setitem col s' d).
Proof.
  intros [Hi Hwf] Hl Hlen. split; auto.
  unfold well_formed in *. simpl.
  apply forall_assign; auto.
  intros n. simpl. rewrite Hlen.
  rewrite Forall_forall in Hwf. apply (Hwf (col, s)). now apply lookup_in.
Qed.

(** The result of [f] is as long as its argument. *)
Definition keeps_length (f : Series -> exn + Series) : Prop :=
  forall s s', f s = inr s' -> length (s_values s') = length (s_values s).

Lemma keeps_length_replace old new : keeps_length (fun s => inr (replace old new s)).
Proof. intros s s' H. inversion H. apply length_replace. Qed.

Lemma keeps_length_str_replace pat repl : keeps_length (str_replace pat repl).
Proof.
  intros s s' H. destruct (str_replace_cells _ _ _ _ H) as [f [_ Hv]].
  now rewrite Hv, length_map.
Qed.

Lemma keeps_length_astype : keeps_length astype_float.
Proof.
  intros s s' H. destruct (astype_float_cells _ _ H) as [xs [-> [Hl _]]].
  simpl. now rewrite length_map.
Qed.

Lemma keeps_length_date : keeps_length (fun s => astype_float (replace "na" nan s)).
Proof.
  intros s s' H. rewrite (keeps_length_astype _ _ H). apply length_replace.
Qed.

(** One read-convert-write round with a length-keeping conversion keeps
    the rows. *)
Lemma round_keeps_rows index col f (k : M unit) :
  keeps_length f ->
  preserves (holds (same_rows index)) k ->
  preserves (holds (same_rows index))
    (s <- get col ;; s' <- lift (f s) ;; set col s' ;; k).
Proof.
  intros Hf Hk w [d [Hd Hi]].
  pose proof (run_get w d col Hd) as Hg.
  destruct (lookup col (df_columns d)) as [s|] eqn:El.
  - rewrite (run_bind _ Hg).
    destruct (f s) as [e|s'] eqn:Ef.
    + simpl. now exists d.
    + rewrite (run_bind _ (eq_refl : lift (inr s') w = (Ret s', w))).
      rewrite (run_bind _ (run_set w d col s' Hd)).
      apply Hk. eexists. split; [reflexivity|].
      eapply same_rows_setitem; eauto.
  - rewrite (run_bind_raise _ Hg). now exists d.
Qed.

Lemma last_round_keeps_rows index col f :
  keeps_length f ->
  preserves (holds (same_rows index))
    (s <- get col ;; s' <- lift (f s) ;; set col s').
Proof.
  intros Hf w [d [Hd Hi]].
  pose proof (run_get w d col Hd) as Hg.
  destruct (lookup col (df_columns d)) as [s|] eqn:El.
  - rewrite (run_bind _ Hg).
    destruct (f s) as [e|s'] eqn:Ef.
    + simpl. now exists d.
    + rewrite (run_bind _ (eq_refl : lift (inr s') w = (Ret s', w))).
      rewrite (run_set w d col s' Hd).
      eexists. split; [reflexivity|]. eapply same_rows_setitem; eauto.
  - rewrite (run_bind_raise _ Hg). now exists d.
Qed.

Lemma clean_column_keeps_rows index col :
  preserves (holds (same_rows index)) (clean_column col).
Proof.
  unfold clean_column.
  apply (round_keeps_rows index col (fun s => inr (replace "na" nan s)));
    [apply keeps_length_replace|].
  apply round_keeps_rows; [apply keeps_length_str_replace|].
  apply round_keeps_rows; [apply keeps_length_str_replace|].
  apply last_round_keeps_rows, keeps_length_astype.
Qed.

Lemma numerical_keeps_rows index :
  preserves (holds (same_rows index)) data_cleaning_numerical.
Proof.
  unfold data_cleaning_numerical.
  apply preserves_try; [| intros e; apply preserves_log_error].
  rewrite numerical_body_eq.
  apply preserves_bind; [apply preserves_log_info | intros _].
  apply preserves_bind; [apply preserves_the_frame | intros d].
  apply preserves_bind.
  { destruct (has_column "Unnamed: 0" d); [| apply preserves_ret].
    apply preserves_bind; [| intros _; apply preserves_log_info].
    apply preserves_update. intros d0 d' [Hi Hwf] E.
    unfold drop in E. destruct (has_column "Unnamed: 0" d0); inversion E.
    split; auto. unfold well_formed in *. simpl.
    apply Forall_forall. intros c Hc. apply filter_In in Hc as [Hc _].
    rewrite Forall_forall in Hwf. now apply Hwf. }
  intros _. unfold convert_columns.
  apply round_keeps_rows; [apply keeps_length_date|].
  apply preserves_bind; [| intros _; apply preserves_log_info].
  apply preserves_for_each. intros col. apply clean_column_keeps_rows.
Qed.

Lemma categorical_keeps_rows index cats :
  preserves (holds (same_rows index)) (data_clean_categorical cats).
Proof.
  apply preserves_categorical.
  - intros d s Hi Hl. eapply same_rows_setitem; eauto. apply length_replace.
  - intros c d s _ Hi Hl. eapply same_rows_setitem; eauto. apply length_replace.
Qed.

Lemma clean_keeps_rows index : preserves (holds (same_rows index)) clean.
Proof.
  unfold clean.
  apply preserves_bind; [apply numerical_keeps_rows | intros _].
  apply preserves_bind; [apply preserves_divide | intros [nums cats]].
  apply categorical_keeps_rows.
Qed.

(** X12: cleaning drops no row: on a frame with one cell per row in every
    column, the pipeline returns a frame with the same row labels and again
    one cell per row in every column, whichever stage fails on the way. *)
Theorem X12_cleaning_keeps_the_rows (d : DataFrame) :
  well_formed d ->
  exists d',
    result_of clean d = Some d'
    /\ df_index d' = df_index d
    /\ len d' = len d
    /\ well_formed d'.
Proof.
  intros Hwf.
  destruct (result_of_holds (same_rows (df_index d)) clean d (clean_keeps_rows _))
    as [d' [Hr [Hi Hw]]].
  - now split.
  - exists d'. repeat split; auto. unfold len. now rewrite Hi.
Qed.

End RowCount.

(** ** The cleaning script from the raw file to the saved file *)

Module CleaningRun.
Import Py Pandas Eff EffFacts FrameFacts Cleaning Invariants IndexColumn.
Import Categorical NumericSuccess Idempotence CategoricalMore Loading.
Local Open Scope list_scope.

(** The files, the writability and the generator of [w0] are those of [w]. *)
Definition rest_is (w0 w : world) : Prop :=
  w_saved w = w_saved w0 /\ w_writable w = w_writable w0 /\ w_rng w = w_rng w0.

Lemma rest_log w0 lv text cause : preserves (rest_is w0) (log lv text cause).
Proof. now intros w H. Qed.

Lemma rest_log_info w0 text : preserves (rest_is w0) (log_info text).
Proof. apply rest_log. Qed.

Lemma rest_log_error w0 text cause : preserves (rest_is w0) (log_error text cause).
Proof. apply rest_log. Qed.

Lemma rest_set_data w0 o : preserves (rest_is w0) (set_data o).
Proof. now intros w H. Qed.

Lemma rest_update w0 f : preserves (rest_is w0) (update f).
Proof.
  unfold update. apply preserves_bind; [apply preserves_the_frame | intros d].
  apply preserves_bind; [apply preserves_lift | intros d']. apply rest_set_data.
Qed.

(** Steps through a computation that touches the frame and the log only. *)
Ltac rest_steps :=
  repeat first
    [ apply preserves_ret | apply preserves_lift | apply preserves_the_frame
    | apply preserves_get | apply rest_log_info | apply rest_log_error
    | apply rest_update
    | apply preserves_bind; [| intros ? ]
    | apply preserves_for_each; intros ?
    | apply preserves_comprehension; intros ?
    | apply preserves_try; [| intros ? ]
    | match goal with
      | |- preserves _ (if ?b then _ else _) => destruct b
      | |- preserves _ (let '(_, _) := ?p in _) => destruct p
      end ].

Lemma rest_clean w0 : preserves (rest_is w0) clean.
Proof.
  unfold clean, data_cleaning_numerical, divide_columns, data_clean_categorical.
  rest_steps. unfold clean_categorical_column. rest_steps.
Qed.

(** Without a frame behind [data] there is none afterwards. *)
Definition no_frame (w : world) : Prop := w_data w = None.

Lemma no_frame_log lv text cause : preserves no_frame (log lv text cause).
Proof. now intros w H. Qed.

Lemma no_frame_log_info text : preserves no_frame (log_info text).
Proof. apply no_frame_log. Qed.

Lemma no_frame_log_error text cause : preserves no_frame (log_error text cause).
Proof. apply no_frame_log. Qed.

Lemma no_frame_update f : preserves no_frame (update f).
Proof. intros w H. unfold update, bind, the_frame. unfold no_frame in H. now rewrite H. Qed.

Ltac no_frame_steps :=
  repeat first
    [ apply preserves_ret | apply preserves_lift | apply preserves_the_frame
    | apply preserves_get | apply no_frame_log_info | apply no_frame_log_error
    | apply no_frame_update
    | apply preserves_bind; [| intros ? ]
    | apply preserves_for_each; intros ?
    | apply preserves_comprehension; intros ?
    | apply preserves_try; [| intros ? ]
    | match goal with
      | |- preserves _ (if ?b then _ else _) => destruct b
      | |- preserves _ (let '(_, _) := ?p in _) => destruct p
      end ].

Lemma no_frame_clean : preserves no_frame clean.
Proof.
  unfold clean, data_cleaning_numerical, divide_columns, data_clean_categorical.
  no_frame_steps. unfold clean_categorical_column. no_frame_steps.
Qed.

(** The frame has the row labels of [d] and its column labels without the
    index column. *)
Definition labelled_like (d d' : DataFrame) : Prop :=
  df_index d' = df_index d
  /\ columns d' = filter (fun n => negb (String.eqb n "Unnamed: 0")) (columns d).

Lemma numerical_labels w d :
  w_data w = Some d -> holds (labelled_like d) (snd (data_cleaning_numerical w)).
Proof.
  intros Hd.
  assert (H : holds (keeps (without_index d)) (snd (data_cleaning_numerical w))).
  { unfold data_cleaning_numerical.
    destruct (numerical_body_start w d Hd) as [w2 [E Hw2]].
    unfold try_except. rewrite E.
    assert (Hc : holds (keeps (without_index d)) (snd (convert_columns w2))).
    { apply preserves_convert_columns; try (apply stable_keeps; auto).
      exists (without_index d). split; auto. repeat split. }
    destruct (convert_columns w2) as [[[]|e|c] w3]; auto. }
  destruct H as [d' [Hd' [Hi [Hl _]]]]. exists d'. split; auto. split.
  - rewrite Hi. unfold without_index. now destruct (has_column "Unnamed: 0" d).
  - rewrite Hl. apply columns_without_index.
Qed.

Lemma categorical_labels d cats :
  preserves (holds (labelled_like d)) (data_clean_categorical cats).
Proof.
  intros w [d1 [Hd1 [Hi Hl]]].
  destruct (categorical_untouched_outside cats d1 w) as [d' [Hd' [Hi' [Hl' _]]]].
  - exists d1. split; auto. repeat split.
  - exists d'. split; auto. split; congruence.
Qed.

Lemma clean_labels w d :
  w_data w = Some d -> holds (labelled_like d) (snd (clean w)).
Proof.
  intros Hd. unfold clean.
  pose proof (numerical_labels w d Hd) as H1.
  destruct (FailSoft.total_numerical w) as [[] E1].
  destruct (data_cleaning_numerical w) as [o w1] eqn:En. simpl in *. subst o.
  rewrite (run_bind _ En).
  apply preserves_bind; auto.
  - apply preserves_divide.
  - intros [nums cats]. apply categorical_labels.
Qed.

(** After the three cleaning calls: the files are as they were; a frame
    keeps its rows and loses the index column; no frame stays no frame. *)
Lemma clean_run w :
  exists w',
    clean w = (Ret tt, w')
    /\ rest_is w w'
    /\ match w_data w with
       | Some d => exists d', w_data w' = Some d' /\ labelled_like d d'
       | None => w_data w' = None
       end.
Proof.
  destruct (FailSoft.total_clean w) as [[] E].
  pose proof (rest_clean w w (conj eq_refl (conj eq_refl eq_refl))) as Hr.
  assert (Hd : match w_data w with
               | Some d => exists d', w_data (snd (clean w)) = Some d' /\ labelled_like d d'
               | None => w_data (snd (clean w)) = None
               end).
  { destruct (w_data w) as [d|] eqn:Hd.
    - now apply clean_labels.
    - now apply no_frame_clean. }
  destruct (clean w) as [o w']. simpl in *. subst o. now exists w'.
Qed.

(** [save_file] in the three situations it can meet. *)
Lemma save_file_run w :
  exists w',
    save_file w = (Ret tt, w')
    /\ w_data w' = w_data w
    /\ w_saved w' = match w_writable w, w_data w with
                    | true, Some d => w_saved w ++ [("cleaned_data.csv", reset_index d)]
                    | _, _ => w_saved w
                    end.
Proof.
  unfold save_file, try_except, bind, mkdir, the_frame, to_csv.
  destruct (w_writable w) eqn:Hw.
  - destruct (w_data w) as [d|] eqn:Hd.
    + rewrite Hw. eexists. split; [reflexivity|]. simpl. auto.
    + eexists. split; [reflexivity|]. simpl. auto.
  - eexists. split; [reflexivity|]. simpl. auto.
Qed.

(** X13: the cleaning script, end to end.  It always ends normally.  When
    the raw file holds a table and the output directory can be written, it
    writes exactly one file, [cleaned_data.csv], whose column labels are
    those of the raw table without [Unnamed: 0], in order, and which has as
    many rows as the raw table; in every other case it writes nothing. *)
Theorem X13_cleaning_script_output (raw_file : table_file) (w : world) :
  exists w',
    main raw_file w = (Ret tt, w')
    /\ match table_of raw_file, w_writable w with
       | Some d, true =>
           exists d',
             w_saved w' = w_saved w ++ [("cleaned_data.csv", d')]
             /\ columns d' = filter (fun n => negb (String.eqb n "Unnamed: 0")) (columns d)
             /\ len d' = len d
       | _, _ => w_saved w' = w_saved w
       end.
Proof.
  unfold main, try_except.
  unfold bind at 1. simpl.
  destruct (read_csv_run raw_file
              (with_record w (mkRecord INFO "Script started." None)))
    as (w1 & E1 & L3 & L2).
  unfold bind at 1. rewrite E1.
  unfold bind at 1. simpl.
  set (w2 := with_data w1 (table_of raw_file)).
  assert (Hlogs : exists w3,
            (match table_of raw_file with
             | Some _ => log_info "Initial Data Shape" ;; log_info "Data Columns" ;;
                         log_info "Data Info"
             | None => ret tt
             end) w2 = (Ret tt, w3)
            /\ w_data w3 = table_of raw_file
            /\ w_saved w3 = w_saved w /\ w_writable w3 = w_writable w).
  { destruct (table_of raw_file); eexists; (split; [reflexivity|]); simpl; auto. }
  destruct Hlogs as (w3 & E3 & D3 & S3 & W3).
  unfold bind at 1. rewrite E3.
  destruct (clean_run w3) as (w4 & E4 & (S4 & W4 & _) & D4).
  unfold bind at 1. rewrite E4.
  destruct (save_file_run w4) as (w5 & E5 & D5 & S5).
  unfold bind at 1. rewrite E5.
  eexists. split; [reflexivity|]. simpl.
  rewrite S5, W4, W3, S4, S3. rewrite D3 in D4.
  destruct (table_of raw_file) as [d|].
  - destruct D4 as (d' & Hd' & Hi & Hl). rewrite Hd'.
    destruct (w_writable w); auto.
    exists (reset_index d'). split; auto. split; [exact Hl|].
    unfold len, reset_index. simpl. rewrite length_map, length_seq.
    unfold len. now rewrite Hi.
  - rewrite D4. now destruct (w_writable w).
Qed.

End CleaningRun.


(** ** The split script, function by function *)

Module PreparationRun.
Import Py Pandas Eff EffFacts Yaml Sklearn Preparation Split Loading.
Local Open Scope list_scope.

(** The files and the writability of [w'] are those of [w]. *)
Definition files_same (w w' : world) : Prop :=
  w_saved w' = w_saved w /\ w_writable w' = w_writable w.

Lemma only_logged_files w w' : only_logged w w' -> files_same w w'.
Proof. intros (_ & H2 & H3 & _). now split. Qed.

Lemma load_data_run (path : table_file) (w : world) :
  exists w', load_data path w = (Ret (table_of path), w') /\ files_same w w'.
Proof.
  destruct path as [|e|d]; eexists; (split; [reflexivity | now split]).
Qed.

(** X14: [load_data] never raises and never exits: it returns the table
    when the file holds one and None when the file is missing or cannot be
    parsed (with an error record in the log), and it changes nothing but
    the log. *)
Theorem X14_load_data_returns_table_or_none (path : table_file) (w : world) :
  exists w',
    load_data path w = (Ret (table_of path), w')
    /\ only_logged w w'
    /\ (table_of path = None -> exists r, In r (w_log w') /\ r_level r = ERROR).
Proof.
  destruct path as [|e|d].
  - eexists. split; [reflexivity|]. split.
    + repeat split. simpl. rewrite <- app_assoc. eexists. reflexivity.
    + intros _. eexists. split; [apply in_or_app; right; now left | reflexivity].
  - eexists. split; [reflexivity|]. split.
    + repeat split. simpl. rewrite <- app_assoc. eexists. reflexivity.
    + intros _. eexists. split; [apply in_or_app; right; now left | reflexivity].
  - eexists. split; [reflexivity|]. split.
    + repeat split. simpl. rewrite <- app_assoc. eexists. reflexivity.
    + discriminate.
Qed.

Lemma split_save_file_run (data : DataFrame) (file_name : string) (w : world) :
  exists w',
    save_file data file_name w = (if w_writable w then Ret tt else SysExit 1, w')
    /\ w_writable w' = w_writable w
    /\ w_rng w' = w_rng w
    /\ w_saved w' = (if w_writable w
                     then w_saved w ++ [((file_name ++ ".csv")%string, reset_index data)]
                     else w_saved w).
Proof.
  unfold save_file, try_except, bind, mkdir, to_csv.
  destruct (w_writable w) eqn:Hw.
  - rewrite Hw. eexists. split; [reflexivity|]. simpl. auto.
  - eexists. split; [reflexivity|]. simpl. auto.
Qed.

Section WithGenerator.
Context `{RandomState}.

(** A refusal of the sizes ends the run. *)
Lemma split_data_refused data test_size random_state w e :
  validate_shuffle_split (len data) test_size = inl e ->
  exists w', split_data data test_size random_state w = (SysExit 1, w')
             /\ files_same w w'.
Proof.
  intros Hv. unfold split_data, try_except, train_test_split.
  unfold bind at 1. simpl.
  unfold bind at 1. unfold bind at 1. rewrite Hv. simpl.
  eexists. split; [reflexivity|]. now split.
Qed.

Lemma empty_refused test_size :
  exists e, validate_shuffle_split 0 test_size = inl e.
Proof.
  unfold validate_shuffle_split.
  destruct test_size as [|b|z|[q|neg|]|s|l|m].
  - eexists; reflexivity.
  - eexists; reflexivity.
  - assert (E : ((z >=? Z.of_nat 0) || (z <=? 0))%bool = true).
    { apply orb_true_iff. rewrite Z.geb_leb. simpl.
      destruct (Z_le_gt_dec z 0); [right; apply Z.leb_le | left; apply Z.leb_le]; lia. }
    rewrite E. eexists; reflexivity.
  - destruct (Qle_bool q 0 || Qle_bool 1 q)%bool; eexists; reflexivity.
  - eexists; reflexivity.
  - eexists; reflexivity.
  - eexists; reflexivity.
  - eexists; reflexivity.
  - eexists; reflexivity.
Qed.

Lemma fraction_refused (q : Q) n :
  (q <= 0)%Q \/ (1 <= q)%Q ->
  exists e, validate_shuffle_split n (YFloat (FFinite q)) = inl e.
Proof.
  intros Hq. unfold validate_shuffle_split.
  assert (E : (Qle_bool q 0 || Qle_bool 1 q)%bool = true).
  { apply orb_true_iff. destruct Hq as [Hq|Hq]; [left | right]; now apply Qle_bool_iff. }
  rewrite E. eexists; reflexivity.
Qed.

(** The shuffled positions, whatever the seed argument is, when there are
    any. *)
Lemma shuffled_outcome random_state n w :
  exists w',
    files_same w w'
    /\ ((exists e, shuffled random_state n w = (Raise e, w'))
        \/ exists p, shuffled random_state n w = (Ret p, w') /\ length p = n).
Proof.
  assert (Hlen : forall st, length (fst (permutation st n)) = n).
  { intros st. rewrite (Permutation_length (permutation_spec st n)). apply length_seq. }
  unfold shuffled. destruct random_state as [|b|z|x|s|l|m];
    try (exists w; split; [now split|]; left; eexists; reflexivity).
  - destruct (permutation (w_rng w) n) as [p st] eqn:E.
    eexists. split; [|right; exists p; split; [reflexivity|]].
    + now split.
    + specialize (Hlen (w_rng w)). now rewrite E in Hlen.
  - exists w. split; [now split|]. right. eexists. split; [reflexivity | apply Hlen].
  - exists w. split; [now split|].
    destruct ((0 <=? z) && (z <? 2 ^ 32))%bool.
    + right. eexists. split; [reflexivity | apply Hlen].
    + left. eexists. reflexivity.
Qed.

Lemma sizes_sum n test_size n_train n_test :
  validate_shuffle_split n test_size = inr (n_train, n_test) ->
  (n_train = n - n_test /\ n_test < n)%nat.
Proof.
  unfold validate_shuffle_split.
  assert (G : forall k,
            (if Nat.eqb (n - k) 0 then value_error "the resulting train set will be empty"
             else inr ((n - k)%nat, k)) = inr (n_train, n_test) ->
            (n_train = n - n_test /\ n_test < n)%nat).
  { intros k. destruct (Nat.eqb (n - k) 0) eqn:E; [discriminate|].
    apply Nat.eqb_neq in E. intros Hk. inversion Hk. subst. lia. }
  destruct test_size as [|b|z|[q|neg|]|s|l|m]; simpl; try discriminate; try apply G.
  - destruct ((z >=? Z.of_nat n) || (z <=? 0))%bool; [discriminate | apply G].
  - destruct (Qle_bool q 0 || Qle_bool 1 q)%bool; [discriminate | apply G].
Qed.

(** [split_data] either ends the run with status 1, or returns two frames
    with the columns of the input that share out its rows. *)
Lemma split_data_outcome data test_size random_state w :
  exists w',
    files_same w w'
    /\ (split_data data test_size random_state w = (SysExit 1, w')
        \/ exists train test,
            split_data data test_size random_state w = (Ret (train, test), w')
            /\ (len train + len test = len data)%nat
            /\ columns train = columns data
            /\ columns test = columns data).
Proof.
  destruct (validate_shuffle_split (len data) test_size) as [e|[n_train n_test]] eqn:Hv.
  - destruct (split_data_refused data test_size random_state w e Hv) as [w' [E F]].
    exists w'. split; auto.
  - destruct (sizes_sum _ _ _ _ Hv) as [Ht Hn].
    destruct (shuffled_outcome random_state (len data)
                (with_record w (mkRecord INFO "Splitting data" None)))
      as (w1 & [F1 F2] & [[e E] | [p [E Hp]]]).
    + assert (Hrun : exists w', split_data data test_size random_state w = (SysExit 1, w')
                                /\ files_same w1 w').
      { unfold split_data, try_except, train_test_split.
        unfold bind at 1. simpl.
        unfold bind at 1. unfold bind at 1. rewrite Hv. simpl.
        unfold bind at 1. rewrite E. simpl.
        eexists. split; [reflexivity|]. now split. }
      destruct Hrun as (w' & Hrun & [G1 G2]).
      exists w'. split; [split; simpl in *; congruence | now left].
    + assert (Hrun : exists w',
                split_data data test_size random_state w
                = (Ret (iloc (firstn n_train (skipn n_test p)) data,
                        iloc (firstn n_test p) data), w')
                /\ files_same w1 w').
      { unfold split_data, try_except, train_test_split.
        unfold bind at 1. simpl.
        unfold bind at 1. unfold bind at 1. rewrite Hv. simpl.
        unfold bind at 1. rewrite E. simpl.
        eexists. split; [reflexivity|]. now split. }
      destruct Hrun as (w' & Hrun & [G1 G2]).
      exists w'. split; [split; simpl in *; congruence|].
      right. eexists _, _. split; [exact Hrun|].
      rewrite !len_iloc, length_firstn, length_firstn, length_skipn, Hp.
      unfold columns, iloc. simpl. rewrite !map_map. simpl.
      repeat split; lia.
Qed.

End WithGenerator.

(** X15: [split_data] is fail-fast: it ends the run with exit status 1,
    returning nothing, on a frame without rows (whatever the parameters),
    on a fraction outside (0, 1), and on a seed outside [0, 2^32). *)
Theorem X15_split_data_refusals `{RandomState}
    (data : DataFrame) (test_size random_state : yaml) (w : world) :
  (len data = 0%nat -> fst (split_data data test_size random_state w) = SysExit 1)
  /\ (forall q : Q, (q <= 0)%Q \/ (1 <= q)%Q ->
        fst (split_data data (YFloat (FFinite q)) random_state w) = SysExit 1)
  /\ (forall seed : Z, seed < 0 \/ 2 ^ 32 <= seed ->
        fst (split_data data test_size (YInt seed) w) = SysExit 1).
Proof.
  split; [|split].
  - intros Hn. destruct (empty_refused test_size) as [e He]. rewrite <- Hn in He.
    destruct (split_data_refused data test_size random_state w e He) as [w' [E _]].
    now rewrite E.
  - intros q Hq. destruct (fraction_refused q (len data) Hq) as [e He].
    destruct (split_data_refused data _ random_state w e He) as [w' [E _]].
    now rewrite E.
  - intros seed Hs.
    destruct (validate_shuffle_split (len data) test_size) as [e|[n_train n_test]] eqn:Hv.
    + destruct (split_data_refused data test_size (YInt seed) w e Hv) as [w' [E _]].
      now rewrite E.
    + unfold split_data, try_except, train_test_split.
      unfold bind at 1. simpl.
      unfold bind at 1. unfold bind at 1. rewrite Hv. simpl.
      unfold bind at 1.
      assert (Er : ((0 <=? seed) && (seed <? Z.pow_pos 2 32))%bool = false).
      { change (Z.pow_pos 2 32) with (2 ^ 32). apply andb_false_iff.
        destruct Hs; [left; apply Z.leb_gt | right; apply Z.ltb_ge]; lia. }
      rewrite Er. reflexivity.
Qed.

(** X16: an integer [test_size] is a number of rows: for 0 < k < n and a
    seed numpy accepts, the split returns a test frame of exactly k rows and
    a train frame of the n - k others. *)
Theorem X16_integer_test_size `{RandomState}
    (data : DataFrame) (k seed : Z) (w : world) :
  0 < k < Z.of_nat (len data) -> 0 <= seed < 2 ^ 32 ->
  exists train test w',
    split_data data (YInt k) (YInt seed) w = (Ret (train, test), w')
    /\ Z.of_nat (len test) = k
    /\ (len train = len data - len test)%nat.
Proof.
  intros Hk Hs.
  unfold split_data, try_except, train_test_split.
  unfold bind at 1. simpl.
  unfold bind at 1. unfold bind at 1.
  unfold validate_shuffle_split.
  assert (E1 : ((k >=? Z.of_nat (len data)) || (k <=? 0))%bool = false).
  { apply orb_false_iff. rewrite Z.geb_leb. split; apply Z.leb_gt; lia. }
  rewrite E1.
  destruct (Nat.eqb (len data - Z.to_nat k) 0) eqn:E2; [apply Nat.eqb_eq in E2; lia|].
  simpl. unfold bind at 1.
  assert (Er : ((0 <=? seed) && (seed <? Z.pow_pos 2 32))%bool = true).
  { change (Z.pow_pos 2 32) with (2 ^ 32). apply andb_true_iff.
    split; [apply Z.leb_le | apply Z.ltb_lt]; lia. }
  rewrite Er. simpl. eexists _, _, _. split; [reflexivity|].
  rewrite !len_iloc, length_firstn, length_firstn, length_skipn.
  fold (shuffle seed (len data)). rewrite shuffle_length. lia.
Qed.

(** *** The script as a whole *)

Lemma read_params_outcome (f : config_file) (w : world) :
  exists w',
    files_same w w'
    /\ (read_params f w = (SysExit 1, w')
        \/ exists test_size random_state,
             read_params f w = (Ret (test_size, random_state), w')).
Proof.
  assert (Hexit : forall o w', read_params f w = (o, w') -> files_same w w' ->
                     o = SysExit 1 ->
                     exists w', files_same w w'
                       /\ (read_params f w = (SysExit 1, w')
                           \/ exists t r, read_params f w = (Ret (t, r), w'))).
  { intros o w' E F ->. exists w'. split; auto. }
  destruct f as [|e| |y].
  - eapply Hexit; [reflexivity | now split | reflexivity].
  - destruct e; (eapply Hexit; [reflexivity | now split | reflexivity]).
  - eapply Hexit; [reflexivity | now split | reflexivity].
  - destruct y as [|b|z|x|s|l|m];
      try (eapply Hexit; [reflexivity | now split | reflexivity]).
    unfold read_params, try_except, bind. simpl.
    destruct (find_key "Data_Preparation" m) as [sec|].
    + destruct sec as [|b|z|x|s|l|sec]; simpl;
        eexists; (split; [| first [ left; reflexivity
                                  | right; eexists _, _; reflexivity ] ]); now split.
    + simpl. eexists. split; [| right; eexists _, _; reflexivity]. now split.
Qed.

Lemma run_bind_exit {A B} {m : M A} (k : A -> M B) {w c w1} :
  m w = (SysExit c, w1) -> bind m k w = (SysExit c, w1).
Proof. intros E. unfold bind. now rewrite E. Qed.

(** The split script either exits with status 1, or it read a table,
    split it and wrote both parts. *)
Lemma main_outcome `{RandomState} (file : table_file) (params : config_file) (w : world) :
  exists w',
    main file params w = (SysExit 1, w')
    \/ exists D train test,
         file = Table D
         /\ main file params w = (Ret tt, w')
         /\ w_saved w' = w_saved w ++ [("train.csv", reset_index train);
                                       ("test.csv", reset_index test)]
         /\ (len train + len test = len D)%nat
         /\ columns train = columns D
         /\ columns test = columns D.
Proof.
  unfold main.
  rewrite (run_bind _ (eq_refl : log_info "Script execution started" w
                                 = (Ret tt, with_record w _))).
  set (w0 := with_record w _).
  unfold try_except.
  destruct (load_data_run file w0) as (w1 & E1 & [S1 W1]).
  rewrite (run_bind _ E1).
  destruct file as [|e|D]; simpl table_of;
    try (eexists; left; reflexivity).
  rewrite (run_bind _ (eq_refl : ret D w1 = (Ret D, w1))).
  destruct (read_params_outcome params w1) as (w2 & [S2 W2] & [E2 | (ts & rs & E2)]).
  { rewrite (run_bind_exit _ E2). eexists. left. reflexivity. }
  rewrite (run_bind _ E2).
  destruct (split_data_outcome D ts rs w2)
    as (w3 & [S3 W3] & [E3 | (train & test & E3 & Hsum & Hc1 & Hc2)]).
  { rewrite (run_bind_exit _ E3). eexists. left. reflexivity. }
  rewrite (run_bind _ E3).
  destruct (split_save_file_run train "train" w3) as (w4 & E4 & W4 & _ & S4).
  destruct (w_writable w3) eqn:Hw.
  2: { rewrite (run_bind_exit _ E4). eexists. left. reflexivity. }
  rewrite (run_bind _ E4).
  destruct (split_save_file_run test "test" w4) as (w5 & E5 & W5 & _ & S5).
  rewrite W4 in *. rewrite (run_bind _ E5).
  eexists. right. exists D, train, test.
  split; [reflexivity|]. split; [reflexivity|].
  split; [|auto].
  simpl. rewrite S5, S4, S3, S2, S1. simpl. now rewrite <- app_assoc.
Qed.

(** X17: the split script reports success only when it has done its work:
    if it ends with exit status 0, then the input file held a table, and it
    wrote [train.csv] and [test.csv], in this order and nothing else, two
    frames with the columns of the table whose row counts add up to that of
    the table. *)
Theorem X17_split_script_success `{RandomState}
    (file : table_file) (params : config_file) (w : world) :
  exit_status (fst (main file params w)) = 0 ->
  exists D train test,
    file = Table D
    /\ w_saved (snd (main file params w))
       = w_saved w ++ [("train.csv", reset_index train); ("test.csv", reset_index test)]
    /\ (len train + len test = len D)%nat
    /\ columns train = columns D
    /\ columns test = columns D.
Proof.
  intros H0.
  destruct (main_outcome file params w)
    as [w' [E | (D & train & test & Hf & E & Hs & Hrest)]]; rewrite E in *.
  - discriminate.
  - exists D, train, test. auto.
Qed.

(** X18: without input data the split script stops before it reads the
    configuration: when the input file is missing or cannot be parsed, the
    run ends with exit status 1 and writes nothing, whatever the
    configuration holds. *)
Theorem X18_split_script_needs_data `{RandomState}
    (file : table_file) (params : config_file) (w : world) :
  table_of file = None ->
  exit_status (fst (main file params w)) = 1
  /\ w_saved (snd (main file params w)) = w_saved w.
Proof.
  intros Hf. destruct file as [|e|D]; [| |discriminate]; split; reflexivity.
Qed.

(** X19: the default path of the split script: a table, a configuration
    that is a mapping without the [Data_Preparation] section, a writable
    directory and at least one row left for training are enough for the run
    to end normally with both files written; the test file has
    ceil(0.2 * n) rows and the train file the others. *)
Theorem X19_split_script_defaults `{RandomState}
    (D : DataFrame) (m : list (string * yaml)) (w : world) :
  find_key "Data_Preparation" m = None ->
  w_writable w = true ->
  (ceil_fraction (1 # 5) (len D) < len D)%nat ->
  exists train test w',
    main (Table D) (Document (YMap m)) w = (Ret tt, w')
    /\ w_saved w' = w_saved w ++ [("train.csv", reset_index train);
                                  ("test.csv", reset_index test)]
    /\ len test = ceil_fraction (1 # 5) (len D)
    /\ len train = (len D - ceil_fraction (1 # 5) (len D))%nat.
Proof.
  intros Hm Hw Hn.
  unfold main.
  rewrite (run_bind _ (eq_refl : log_info "Script execution started" w
                                 = (Ret tt, with_record w _))).
  set (w0 := with_record w _).
  unfold try_except.
  destruct (load_data_run (Table D) w0) as (w1 & E1 & [S1 W1]).
  rewrite (run_bind _ E1). simpl table_of.
  rewrite (run_bind _ (eq_refl : ret D w1 = (Ret D, w1))).
  assert (E2 : exists w2, read_params (Document (YMap m)) w1
                          = (Ret (default_test_size, default_random_state), w2)
                          /\ files_same w1 w2).
  { unfold read_params, try_except, bind. simpl. rewrite Hm. simpl.
    eexists. split; [reflexivity|]. now split. }
  destruct E2 as (w2 & E2 & [S2 W2]).
  rewrite (run_bind _ E2).
  assert (Hseed : 0 <= 42 < 2 ^ 32) by (split; [discriminate | reflexivity]).
  assert (Hq0 : (0 < 1 # 5)%Q) by reflexivity.
  assert (Hq1 : (1 # 5 < 1)%Q) by reflexivity.
  destruct (split_run D (1 # 5) 42 w2 Hq0 Hq1 Hseed Hn) as [w3 E3].
  assert (F3 : files_same w2 w3).
  { destruct (split_data_outcome D default_test_size default_random_state w2)
      as (w3' & F & [E | (tr & te & E & _)]);
      unfold default_test_size, default_random_state in E; rewrite E3 in E;
      inversion E; now subst. }
  destruct F3 as [S3 W3].
  unfold default_test_size, default_random_state.
  rewrite (run_bind _ E3).
  set (train := iloc (train_positions (1 # 5) 42 (len D)) D) in *.
  set (test := iloc (test_positions (1 # 5) 42 (len D)) D) in *.
  destruct (split_save_file_run train "train" w3) as (w4 & E4 & W4 & _ & S4).
  assert (Hw3 : w_writable w3 = true) by (rewrite W3, W2, W1; exact Hw).
  rewrite Hw3 in *.
  rewrite (run_bind _ E4).
  destruct (split_save_file_run test "test" w4) as (w5 & E5 & W5 & _ & S5).
  rewrite W4 in *. rewrite (run_bind _ E5).
  exists train, test. eexists. split; [reflexivity|]. split.
  - simpl. rewrite S5, S4, S3, S2, S1. simpl. now rewrite <- app_assoc.
  - unfold train, test. rewrite !len_iloc. unfold test_positions, train_positions.
    rewrite length_firstn, length_firstn, length_skipn, shuffle_length. lia.
Qed.

End PreparationRun.

(** ** Concrete runs of the further properties *)

Module ExtraChecks.
Import Py Pandas Eff Yaml Sklearn Cleaning Examples.
Local Open Scope list_scope.

(** Listings without a [date] column. *)
Definition undated : DataFrame :=
  mkFrame [0; 1]
    [("Unnamed: 0", SInt64 [0; 1]);
     ("price", strings ["12,345"; "na"]);
     ("mileage", strings ["1,000"; "na"])].

(** A price column that mixes text and numbers. *)
Definition mixed_prices : DataFrame :=
  mkFrame [0; 1]
    [("date", strings ["2015"; "2016"]);
     ("price", SObject [VStr "12,345"; VInt 7]);
     ("mileage", strings ["1,000"; "2,000"])].

Lemma X2_witness :
  w_data (start (Some listings)) = Some listings
  /\ exists w',
      divide_columns (start (Some listings))
      = (Ret (["Unnamed: 0"], ["date"; "price"; "mileage"; "transmission"; "color"]), w').
Proof.
  split; [reflexivity|].
  destruct (Loading.X2_divide_columns_partitions listings (start (Some listings)) eq_refl)
    as (nums & cats & w' & E & _ & -> & -> & _).
  exists w'. exact E.
Defined.

Lemma X3_witness :
  fst (numerical_body (start (Some plain_listings))) = Ret tt
  /\ exists d' xs,
      result_of data_cleaning_numerical plain_listings = Some d'
      /\ lookup "price" (df_columns d') = Some (SFloat64 xs)
      /\ nth_error xs 0 = Some (FFinite (12345 # 1))
      /\ nth_error xs 1 = Some FNaN.
Proof.
  assert (Hok : fst (numerical_body (start (Some plain_listings))) = Ret tt)
    by (vm_compute; reflexivity).
  split; [exact Hok|].
  destruct (NumericValues.X3_currency_columns_parsed plain_listings "price" Hok
              (or_introl eq_refl))
    as (d' & vs & xs & Hr & Hc & Hl & _ & Hp).
  inversion Hc; subst vs.
  exists d', xs. split; [exact Hr|]. split; [exact Hl|]. split.
  - destruct (Hp 0%nat) as (_ & _ & Ht).
    destruct (Ht "12,345" eq_refl) as (x & Hx & Hn); [discriminate|].
    vm_compute in Hx. inversion Hx; subst x. exact Hn.
  - destruct (Hp 1%nat) as (Hna & _). now apply Hna.
Defined.

Lemma X4_witness :
  fst (numerical_body (start (Some plain_listings))) = Ret tt
  /\ exists d' xs,
      result_of data_cleaning_numerical plain_listings = Some d'
      /\ lookup "date" (df_columns d') = Some (SFloat64 xs)
      /\ nth_error xs 0 = Some (FFinite (2015 # 1))
      /\ nth_error xs 1 = Some FNaN.
Proof.
  assert (Hok : fst (numerical_body (start (Some plain_listings))) = Ret tt)
    by (vm_compute; reflexivity).
  split; [exact Hok|].
  destruct (NumericValues.X4_date_column_parsed plain_listings Hok)
    as (d' & vs & xs & Hr & Hc & Hl & _ & Hp).
  inversion Hc; subst vs.
  exists d', xs. split; [exact Hr|]. split; [exact Hl|]. split.
  - destruct (Hp 0%nat) as (_ & _ & Ht).
    destruct (Ht "2015" eq_refl) as (x & Hx & Hn); [discriminate|].
    vm_compute in Hx. inversion Hx; subst x. exact Hn.
  - destruct (Hp 1%nat) as (Hna & _). now apply Hna.
Defined.

Lemma X5_witness :
  NumericPartial.date_fails undated
  /\ result_of data_cleaning_numerical undated
     = Some (mkFrame [0; 1]
               [("price", strings ["12,345"; "na"]);
                ("mileage", strings ["1,000"; "na"])]).
Proof.
  assert (Hf : NumericPartial.date_fails undated) by exact I.
  split; [exact Hf|].
  destruct (NumericPartial.X5_date_failure_stops_everything undated Hf) as [Hr _].
  exact Hr.
Defined.

Lemma X6_witness :
  lookup "date" (df_columns listings) = Some (strings ["2015"; "na"])
  /\ NumericValues.date_pipeline (strings ["2015"; "na"])
     = inr (SFloat64 [FFinite (2015 # 1); FNaN])
  /\ exists d', result_of data_cleaning_numerical listings = Some d'
                /\ lookup "date" (df_columns d') = Some (SFloat64 [FFinite (2015 # 1); FNaN])
                /\ lookup "price" (df_columns d') = Some (SObject [VStr "$12345"; nan]).
Proof.
  assert (Hl : lookup "date" (df_columns listings) = Some (strings ["2015"; "na"]))
    by reflexivity.
  assert (Hp : NumericValues.date_pipeline (strings ["2015"; "na"])
               = inr (SFloat64 [FFinite (2015 # 1); FNaN])) by (vm_compute; reflexivity).
  split; [exact Hl|]. split; [exact Hp|].
  destruct (NumericPartial.X6_converted_date_is_kept listings _ _ Hl Hp) as [d' [Hr Hd]].
  exists d'. split; [exact Hr|]. split; [exact Hd|].
  assert (Hc : result_of data_cleaning_numerical listings
               = Some (mkFrame [0; 1]
                         [("date", SFloat64 [FFinite (2015 # 1); FNaN]);
                          ("price", SObject [VStr "$12345"; nan]);
                          ("mileage", strings ["1,000"; "na"]);
                          ("transmission", strings ["0"; "na"]);
                          ("color", strings ["0"; "na"])])) by (vm_compute; reflexivity).
  rewrite Hc in Hr. inversion Hr. reflexivity.
Defined.

Lemma X7_witness :
  fst (numerical_body (start (Some mixed_prices))) = Ret tt
  /\ exists d' xs,
      result_of data_cleaning_numerical mixed_prices = Some d'
      /\ lookup "price" (df_columns d') = Some (SFloat64 xs)
      /\ nth_error xs 1 = Some FNaN.
Proof.
  assert (Hok : fst (numerical_body (start (Some mixed_prices))) = Ret tt)
    by (vm_compute; reflexivity).
  split; [exact Hok|].
  destruct (NumericPartial.X7_non_text_currency_cells_are_lost mixed_prices "price" Hok
              (or_introl eq_refl))
    as (d' & vs & xs & Hr & Hc & Hl & Hn).
  inversion Hc; subst vs.
  exists d', xs. split; [exact Hr|]. split; [exact Hl|].
  apply (Hn 1%nat (VInt 7)); reflexivity.
Defined.

Lemma X8_witness :
  (forall c, In c ["transmission"] -> In c (columns listings))
  /\ ~ In "engine" (columns listings)
  /\ exists d',
      result_of (data_clean_categorical ["transmission"; "engine"; "color"]) listings
      = Some d'
      /\ cells "transmission" d' = Some [VStr "Other"; VStr "na"]
      /\ cells "color" d' = Some [VStr "0"; VStr "na"].
Proof.
  assert (H1 : forall c, In c ["transmission"] -> In c (columns listings)).
  { intros c [<-|[]]. simpl. auto 10. }
  assert (H2 : ~ In "engine" (columns listings)).
  { simpl. intros H. repeat (destruct H as [H|H]; [discriminate|]). exact H. }
  split; [exact H1|]. split; [exact H2|].
  destruct (CategoricalMore.X8_missing_column_stops_the_loop
              listings ["transmission"] ["color"] "engine" H1 H2) as [Hr _].
  simpl app in Hr. eexists. split; [rewrite Hr; vm_compute; reflexivity|].
  split; reflexivity.
Defined.

Lemma X9_witness :
  (forall c, In c ["transmission"; "color"] -> In c (columns listings))
  /\ exists d',
      result_of (data_clean_categorical ["transmission"; "color"]) listings = Some d'
      /\ result_of (data_clean_categorical ["transmission"; "color"]) d' = Some d'.
Proof.
  assert (H : forall c, In c ["transmission"; "color"] -> In c (columns listings)).
  { intros c [<-|[<-|[]]]; simpl; auto 10. }
  split; [exact H|].
  exact (CategoricalMore.X9_categorical_normalizer_idempotent listings _ H).
Defined.

Lemma X12_witness :
  well_formed listings
  /\ exists d', result_of clean listings = Some d' /\ len d' = 2%nat.
Proof.
  assert (Hwf : well_formed listings) by (repeat constructor).
  split; [exact Hwf|].
  destruct (RowCount.X12_cleaning_keeps_the_rows listings Hwf) as (d' & Hr & _ & Hl & _).
  exists d'. split; [exact Hr | exact Hl].
Defined.

Lemma X15_witness :
  len (Split.numbered 0) = 0%nat
  /\ ((3 # 2) >= 1)%Q
  /\ fst (@Preparation.split_data Split.rotating (Split.numbered 0)
            (YFloat (FFinite (1 # 5))) (YInt 42) (start None)) = SysExit 1
  /\ fst (@Preparation.split_data Split.rotating (Split.numbered 10)
            (YFloat (FFinite (3 # 2))) (YInt 42) (start None)) = SysExit 1
  /\ fst (@Preparation.split_data Split.rotating (Split.numbered 10)
            (YFloat (FFinite (1 # 5))) (YInt (-1)) (start None)) = SysExit 1.
Proof.
  assert (Hq : ((3 # 2) >= 1)%Q) by discriminate.
  split; [reflexivity|]. split; [exact Hq|].
  split; [|split].
  - destruct (@PreparationRun.X15_split_data_refusals Split.rotating
                (Split.numbered 0) (YFloat (FFinite (1 # 5))) (YInt 42) (start None))
      as [H1 _].
    apply H1. reflexivity.
  - destruct (@PreparationRun.X15_split_data_refusals Split.rotating
                (Split.numbered 10) YNull (YInt 42) (start None)) as [_ [H2 _]].
    apply H2. right. exact Hq.
  - destruct (@PreparationRun.X15_split_data_refusals Split.rotating
                (Split.numbered 10) (YFloat (FFinite (1 # 5))) YNull (start None))
      as [_ [_ H3]].
    apply H3. left. reflexivity.
Defined.

Lemma X16_witness :
  0 < 3 < Z.of_nat (len (Split.numbered 10))
  /\ exists train test w',
      @Preparation.split_data Split.rotating (Split.numbered 10) (YInt 3) (YInt 42)
        (start None) = (Ret (train, test), w')
      /\ Z.of_nat (len test) = 3.
Proof.
  assert (Hk : 0 < 3 < Z.of_nat (len (Split.numbered 10))) by (vm_compute; auto).
  split; [exact Hk|].
  destruct (@PreparationRun.X16_integer_test_size Split.rotating
              (Split.numbered 10) 3 42 (start None) Hk)
    as (train & test & w' & E & Hte & _).
  - split; [discriminate | reflexivity].
  - exists train, test, w'. split; [exact E | exact Hte].
Defined.

Lemma X17_witness :
  exit_status (fst (@Preparation.main Split.rotating (Table (Split.numbered 10))
                      (Document (YMap [])) (start None))) = 0
  /\ exists train test,
      w_saved (snd (@Preparation.main Split.rotating (Table (Split.numbered 10))
                      (Document (YMap [])) (start None)))
      = [("train.csv", reset_index train); ("test.csv", reset_index test)]
      /\ (len train + len test = 10)%nat.
Proof.
  assert (H0 : exit_status (fst (@Preparation.main Split.rotating
                                   (Table (Split.numbered 10))
                                   (Document (YMap [])) (start None))) = 0)
    by (vm_compute; reflexivity).
  split; [exact H0|].
  destruct (@PreparationRun.X17_split_script_success Split.rotating _ _ _ H0)
    as (D & train & test & Hf & Hs & Hsum & _).
  inversion Hf; subst D.
  exists train, test. split; [exact Hs | exact Hsum].
Defined.

Lemma X18_witness :
  Loading.table_of NoFile = None
  /\ exit_status (fst (@Preparation.main Split.rotating NoFile
                         (Document (YMap [])) (start None))) = 1.
Proof.
  split; [reflexivity|].
  now destruct (@PreparationRun.X18_split_script_needs_data Split.rotating NoFile
                  (Document (YMap [])) (start None) eq_refl).
Defined.

Lemma X19_witness :
  find_key "Data_Preparation" [("Model", YMap [])] = None
  /\ w_writable (start None) = true
  /\ (Sklearn.ceil_fraction (1 # 5) (len (Split.numbered 10)) < len (Split.numbered 10))%nat
  /\ exists train test w',
      @Preparation.main Split.rotating (Table (Split.numbered 10))
        (Document (YMap [("Model", YMap [])])) (start None) = (Ret tt, w')
      /\ len test = 2%nat /\ len train = 8%nat.
Proof.
  assert (Hn : (Sklearn.ceil_fraction (1 # 5) (len (Split.numbered 10))
                < len (Split.numbered 10))%nat) by (vm_compute; lia).
  split; [reflexivity|]. split; [reflexivity|]. split; [exact Hn|].
  destruct (@PreparationRun.X19_split_script_defaults Split.rotating
              (Split.numbered 10) [("Model", YMap [])] (start None) eq_refl eq_refl Hn)
    as (train & test & w' & E & _ & Hte & Htr).
  exists train, test, w'. split; [exact E|]. split; [exact Hte | exact Htr].
Defined.

End ExtraChecks.
